(** * hostex-bridge-go: the synchronisation and relay engine

    A shallow embedding of the bridge between Hostex conversations and
    Matrix rooms: the SQLite-backed store ([database]), the portal
    ([Portal]: room creation, inbound relay, backfill), the command
    dispatcher ([User]) and the routing of the engine ([Bridge]).

    Go code that threads a receiver and talks to the outside world is
    written in a state monad over [Bridge]; every call that leaves the
    process (Matrix homeserver, Hostex API, SQL driver, clock, logger) is
    appended to a trace, and what the outside world answers is read from an
    environment [Env] that may depend on everything that happened before. *)

From Stdlib Require Import ZArith String Ascii List Bool Lia.
From stdpp Require Import base option list gmap strings pretty.

Local Open Scope Z_scope.
Local Open Scope string_scope.
Local Open Scope list_scope.

(** ** Go values *)

(** [int64] arithmetic wraps around. *)
Definition wrap64 (z : Z) : Z := (z + 2 ^ 63) mod 2 ^ 64 - 2 ^ 63.

(** Go's [error]: [None] is [nil]. *)
Inductive err : Type :=
| ErrNoRows                                (* sql.ErrNoRows *)
| ErrScanNull (kind : string)              (* converting NULL to <kind> is unsupported *)
| ErrConstraint (table : string)           (* a PRIMARY KEY or UNIQUE constraint failed *)
| ErrDriver (msg : string)                 (* the SQL driver failed for another reason *)
| ErrRemote (msg : string)                 (* a network client reported a failure *)
| ErrUnknownTimeZone (name : string)       (* time.LoadLocation *)
| Errorf (prefix : string) (wrapped : err) (* fmt.Errorf("<prefix>: %w", err) *).

Definition error : Type := option err.

#[global] Instance err_eq_dec : EqDecision err.
Proof. solve_decision. Defined.

(** A call that returns [(value, error)] where the value is only looked at
    when the error is nil. *)
Inductive Result (A : Type) : Type :=
| Ok (a : A)
| Fail (e : err).
Arguments Ok {A} a.
Arguments Fail {A} e.

Module time.

Inductive Location : Type :=
| UTC
| Local
| Zone (name : string).

(** An instant (seconds and nanoseconds since the Unix epoch) together
    with the location it is displayed in. *)
Record Time : Type := mkTime {
  sec : Z;
  nsec : Z;
  loc : Location
}.

(** [time.Time{}]: January 1, year 1, 00:00:00 UTC. *)
Definition zero : Time := mkTime (-62135596800) 0 UTC.

(** [time.Unix(sec, nsec)] *)
Definition Unix (s n : Z) : Time :=
  mkTime (s + n / 1000000000) (n mod 1000000000) Local.

(** [t.Unix()] *)
Definition Unix_ (t : Time) : Z := sec t.

(** [t.UnixNano()] *)
Definition UnixNano (t : Time) : Z := wrap64 (sec t * 1000000000 + nsec t).

(** [t.In(loc)]: the same instant, displayed in [l]. *)
Definition In (t : Time) (l : Location) : Time := mkTime (sec t) (nsec t) l.

End time.

Module id.
Definition RoomID : Type := string.
Definition EventID : Type := string.
Definition UserID : Type := string.
End id.

(** ** database/database.go *)

Module database.

(** Rows of the three tables of [createTables]. Every column written by
    this program is bound to a Go string, bool or int64, so it is never
    NULL; [last_message_timestamp] is never written, so it is always
    NULL. *)
Record PortalRow : Type := mkPortalRow {
  portal_hostex_id : string;              (* PRIMARY KEY *)
  portal_matrix_room_id : string;         (* UNIQUE *)
  portal_name : string;
  portal_topic : string;
  portal_avatar_url : string;
  portal_encrypted : bool;
  portal_last_message_timestamp : option Z
}.

Record MessageRow : Type := mkMessageRow {
  message_hostex_id : string;             (* PRIMARY KEY (hostex_id, matrix_event_id) *)
  message_matrix_event_id : string;       (* UNIQUE *)
  message_timestamp : Z;
  message_sender : string;
  message_content : string
}.

Record UserRow : Type := mkUserRow {
  user_mxid : string;                     (* PRIMARY KEY *)
  user_hostex_id : string                 (* UNIQUE *)
}.

Record Database : Type := mkDatabase {
  portal : list PortalRow;
  message : list MessageRow;
  user : list UserRow
}.

(** [createTables] on a fresh file. *)
Definition createTables : Database := mkDatabase [] [] [].

(** [QueryRow(...).Scan(&dest)] for a one-column result set whose values
    may be NULL ([None]) and a destination that is not a pointer: no row
    is [sql.ErrNoRows], a NULL cannot be converted, otherwise the first
    row is stored in [dest]. *)
Definition Scan {A : Type} (kind : string) (rows : list (option A)) (dest : A) : A * error :=
  match rows with
  | [] => (dest, Some ErrNoRows)
  | None :: _ => (dest, Some (ErrScanNull kind))
  | Some v :: _ => (v, None)
  end.

(** [SELECT MAX(col) ...]: an aggregate without GROUP BY yields exactly
    one row, which is NULL when no row is selected. *)
Fixpoint MAX (l : list Z) : option Z :=
  match l with
  | [] => None
  | x :: l' => match MAX l' with
               | None => Some x
               | Some m => Some (Z.max x m)
               end
  end.

(** [UPDATE ... WHERE key = k], the new row computed by [f]. *)
Definition update_where {A : Type} (key : A -> string) (k : string) (f : A -> A)
    (l : list A) : list A :=
  map (fun r => if String.eqb (key r) k then f r else r) l.

(** INSERT with [ON CONFLICT (hostex_id) DO UPDATE]: the UNIQUE constraint
    on [matrix_room_id] is not the conflict target, so a room id held by
    another row aborts the statement. *)
Definition StorePortal (d : Database) (hostexID : string) (roomID : id.RoomID)
    (name topic avatarURL : string) (encrypted : bool) : Database * error :=
  if existsb (fun r => negb (String.eqb (portal_hostex_id r) hostexID)
                       && String.eqb (portal_matrix_room_id r) roomID) (portal d)
  then (d, Some (ErrConstraint "portal"))
  else if existsb (fun r => String.eqb (portal_hostex_id r) hostexID) (portal d)
  then
    (mkDatabase
       (update_where portal_hostex_id hostexID
          (fun r => mkPortalRow hostexID roomID name topic avatarURL encrypted
                                (portal_last_message_timestamp r))
          (portal d))
       (message d) (user d), None)
  else
    (mkDatabase
       (portal d ++ [mkPortalRow hostexID roomID name topic avatarURL encrypted None])
       (message d) (user d), None).

Definition GetPortal (d : Database) (hostexID : string) : id.RoomID * error :=
  let rows := map (fun r => Some (portal_matrix_room_id r))
                  (List.filter (fun r => String.eqb (portal_hostex_id r) hostexID) (portal d)) in
  let '(roomID, err) := Scan "string" rows "" in
  if decide (err = Some ErrNoRows) then ("", None) else (roomID, err).

(** A plain INSERT: a row with the same event id violates the UNIQUE
    constraint (and with it the primary key) and aborts the statement. *)
Definition StoreMessage (d : Database) (hostexID : string) (eventID : id.EventID)
    (timestamp : time.Time) (sender content : string) : Database * error :=
  if existsb (fun r => String.eqb (message_matrix_event_id r) eventID) (message d)
  then (d, Some (ErrConstraint "message"))
  else
    (mkDatabase (portal d)
       (message d ++ [mkMessageRow hostexID eventID (time.Unix_ timestamp) sender content])
       (user d), None).

(** The rows selected by [WHERE hostex_id = ?]. *)
Definition conversation_messages (d : Database) (hostexID : string) : list MessageRow :=
  List.filter (fun r => String.eqb (message_hostex_id r) hostexID) (message d).

Definition GetLastMessageTimestamp (d : Database) (hostexID : string) : time.Time * error :=
  let rows := [MAX (map message_timestamp (conversation_messages d hostexID))] in
  let '(timestamp, err) := Scan "int64" rows 0 in
  if decide (err = Some ErrNoRows) then (time.zero, None)
  else (time.Unix timestamp 0, err).

Definition StoreUser (d : Database) (mxid : id.UserID) (hostexID : string) : Database * error :=
  if existsb (fun r => negb (String.eqb (user_mxid r) mxid)
                       && String.eqb (user_hostex_id r) hostexID) (user d)
  then (d, Some (ErrConstraint "user"))
  else if existsb (fun r => String.eqb (user_mxid r) mxid) (user d)
  then (* ON CONFLICT (mxid) DO UPDATE SET hostex_id = excluded.hostex_id *)
    (mkDatabase (portal d) (message d)
       (update_where user_mxid mxid (fun _ => mkUserRow mxid hostexID) (user d)), None)
  else
    (mkDatabase (portal d) (message d) (user d ++ [mkUserRow mxid hostexID]), None).

Definition GetUser (d : Database) (mxid : id.UserID) : string * error :=
  let rows := map (fun r => Some (user_hostex_id r))
                  (List.filter (fun r => String.eqb (user_mxid r) mxid) (user d)) in
  let '(hostexID, err) := Scan "string" rows "" in
  if decide (err = Some ErrNoRows) then ("", None) else (hostexID, err).

(** The constraints declared by [createTables]. *)
Record constraints (d : Database) : Prop := mkConstraints {
  portal_pk : NoDup (map portal_hostex_id (portal d));
  portal_unique : NoDup (map portal_matrix_room_id (portal d));
  message_unique : NoDup (map message_matrix_event_id (message d));
  user_pk : NoDup (map user_mxid (user d));
  user_unique : NoDup (map user_hostex_id (user d))
}.

(** The rows of each table under a given primary key. *)
Definition portal_rows (d : Database) (hostexID : string) : list PortalRow :=
  List.filter (fun r => String.eqb (portal_hostex_id r) hostexID) (portal d).
Definition message_rows (d : Database) (hostexID : string) (eventID : id.EventID) : list MessageRow :=
  List.filter (fun r => String.eqb (message_hostex_id r) hostexID
                        && String.eqb (message_matrix_event_id r) eventID) (message d).
Definition user_rows (d : Database) (mxid : id.UserID) : list UserRow :=
  List.filter (fun r => String.eqb (user_mxid r) mxid) (user d).

Definition one_row_per_key (d : Database) : Prop :=
  (forall hostexID, (length (portal_rows d hostexID) <= 1)%nat) /\
  (forall hostexID eventID, (length (message_rows d hostexID eventID) <= 1)%nat) /\
  (forall mxid, (length (user_rows d mxid) <= 1)%nat).

(** No row of [d] is missing from [d']: the primary keys of [d] are still
    there, in the same order, possibly followed by new ones. *)
Definition no_row_deleted (d d' : Database) : Prop :=
  map portal_hostex_id (portal d) `prefix_of` map portal_hostex_id (portal d') /\
  map (fun r => (message_hostex_id r, message_matrix_event_id r)) (message d)
    `prefix_of` map (fun r => (message_hostex_id r, message_matrix_event_id r)) (message d') /\
  map user_mxid (user d) `prefix_of` map user_mxid (user d').

End database.

(** ** The Matrix client library (maunium.net/go/mautrix), as far as the
    bridge uses it *)

Module event.

Inductive TypeClass : Type :=
| UnknownEventType
| MessageEventType
| StateEventType
| EphemeralEventType
| AccountDataEventType
| ToDeviceEventType.

(** [event.Type]: the kind of an event. *)
Record Type_ : Type := mkType {
  Name : string;
  Class : TypeClass
}.

Definition EventMessage : Type_ := mkType "m.room.message" MessageEventType.
Definition EventReaction : Type_ := mkType "m.reaction" MessageEventType.
Definition EventRedaction : Type_ := mkType "m.room.redaction" MessageEventType.
Definition StateSpaceChild : Type_ := mkType "m.space.child" StateEventType.
Definition StateRoomName : Type_ := mkType "m.room.name" StateEventType.
Definition StateCreate : Type_ := mkType "m.room.create" StateEventType.

Definition MessageType : Type := string.
Definition MsgText : MessageType := "m.text".
Definition MsgNotice : MessageType := "m.notice".
Definition MsgImage : MessageType := "m.image".

Record MessageEventContent : Type := mkMessageEventContent {
  MsgType : MessageType;
  Body : string
}.

(** [evt.Content.Parsed], an [interface{}]: the type assertion to a
    pointer to [event.MessageEventContent] succeeds on [ParsedMessage]
    only. *)
Inductive Parsed : Type :=
| ParsedNil
| ParsedMessage (content : MessageEventContent)
| ParsedOther (goType : string).

Record Event : Type := mkEvent {
  Sender : id.UserID;
  Type' : Type_;
  Timestamp : Z;
  ID : id.EventID;
  RoomID : id.RoomID;
  Content : Parsed
}.

#[global] Instance TypeClass_eq_dec : EqDecision TypeClass.
Proof. solve_decision. Defined.
#[global] Instance Type_eq_dec : EqDecision Type_.
Proof. solve_decision. Defined.

End event.

Module mautrix.

Record ReqCreateRoom : Type := mkReqCreateRoom {
Visibility : string;
Name : string;
Topic : string;
Invite : list id.UserID;
CreationContent : list (string * string);
InitialState : list (event.Type_ * list (string * string))
}.

Record ReqSendEvent : Type := mkReqSendEvent {
  Timestamp : Z
}.

End mautrix.

(** ** hostexapi and config (second half of database/database.go) *)

Module hostexapi.

Record Guest : Type := mkGuest {
  Guest_Name : string;
  Guest_Phone : string;
  Guest_Email : string
}.

Record Conversation : Type := mkConversation {
  Conversation_ID : string;
  ChannelType : string;
  LastMessageAt : time.Time;
  Guest_ : Guest;
  PropertyTitle : string;
  CheckInDate : string;
  CheckOutDate : string
}.

(** The zero value of [Conversation]. *)
Definition Conversation_zero : Conversation :=
  mkConversation "" "" time.zero (mkGuest "" "" "") "" "" "".

Record Message : Type := mkMessage {
  Message_ID : string;
  Content : string;
  Timestamp : time.Time;
  Sender : string
}.

End hostexapi.

Module config.

Record Config : Type := mkConfig {
  Homeserver_Domain : string;
  User_UserID : string;
  Admin_UserID : id.UserID;
  Timezone : string;
  PollInterval : Z;
  PersonalSpaceEnable : bool
}.

End config.

(** ** The outside world *)

Inductive Level : Type := Info | Warn | Error.

(** [zap.String(key, value)] and [zap.Error(err)]. *)
Inductive Field : Type :=
| zap_String (key value : string)
| zap_Error (e : err).

(** A goroutine started with [go func() { ... }()] that has not run yet:
    the closure of [forceSyncConversations]. (The two loops started by
    [Start] run for as long as the bridge does; starting them is recorded
    in the trace as [GoLoop].) *)
Inductive Task : Type :=
| GoForceSync (mxid : id.UserID) (roomID : id.RoomID).

(** One entry per call that leaves the process, with its arguments and
    what came back. *)
Inductive Effect : Type :=
| Logger (lvl : Level) (msg : string) (fields : list Field)
| CreateRoom (req : mautrix.ReqCreateRoom) (resp : Result id.RoomID)
| SendMessageEvent (roomID : id.RoomID) (eventType : event.Type_)
    (content : event.MessageEventContent) (extra : list mautrix.ReqSendEvent)
    (resp : Result id.EventID)
| SendStateEvent (roomID : id.RoomID) (eventType : event.Type_) (stateKey : string)
    (via : list string) (resp : Result id.EventID)
| GetConversations (resp : Result (list hostexapi.Conversation))
| GetMessages (conversationID : string) (since : time.Time) (limit : Z)
    (resp : Result (list hostexapi.Message))
| SendMessage (conversationID content : string) (resp : error)
| StorePortal (hostexID : string) (roomID : id.RoomID) (name topic avatarURL : string)
    (encrypted : bool) (resp : error)
| GetPortal (hostexID : string) (resp : id.RoomID * error)
| StoreMessage (hostexID : string) (eventID : id.EventID) (timestamp : time.Time)
    (sender content : string) (resp : error)
| GetLastMessageTimestamp (hostexID : string) (resp : time.Time * error)
| Now (t : time.Time)
| JoinedRooms (resp : Result (list id.RoomID))
| StateEvent (roomID : id.RoomID) (eventType : event.Type_) (stateKey : string)
    (resp : Result string)
| GoLoop (name : string).

(** What the outside world answers. Every answer may depend on the whole
    history; the functions of Go's standard library that the bridge calls
    ([strings.Fields], [strings.ToLower], [time.LoadLocation],
    [Time.Format]) are part of the environment as well. *)
Record Env : Type := mkEnv {
  matrix_CreateRoom : list Effect -> mautrix.ReqCreateRoom -> Result id.RoomID;
  matrix_SendMessageEvent : list Effect -> id.RoomID -> event.Type_ ->
    event.MessageEventContent -> list mautrix.ReqSendEvent -> Result id.EventID;
  matrix_SendStateEvent : list Effect -> id.RoomID -> event.Type_ -> string ->
    list string -> Result id.EventID;
  hostex_GetConversations : list Effect -> Result (list hostexapi.Conversation);
  hostex_GetMessages : list Effect -> string -> time.Time -> Z ->
    Result (list hostexapi.Message);
  hostex_SendMessage : list Effect -> string -> string -> error;
  sql_fault : list Effect -> error;
  time_Now : list Effect -> time.Time;
  time_LoadLocation : string -> Result time.Location;
  time_Format : string -> time.Time -> string;
  strings_Fields : string -> list string;
  strings_ToLower : string -> string;
  matrix_JoinedRooms : list Effect -> Result (list id.RoomID);
  matrix_StateEvent : list Effect -> id.RoomID -> event.Type_ -> string -> Result string
}.

Definition RFC3339 : string := "2006-01-02T15:04:05Z07:00".

(** ** bridge: the state *)

Record Portal : Type := mkPortal {
  Portal_ID : string;
  Portal_RoomID : id.RoomID;
  Portal_Info : hostexapi.Conversation
}.

Record User : Type := mkUser {
  MXID : id.UserID
}.

(** The [Bridge] struct, the contents of the database behind [b.DB], the
    calls made so far and the goroutines started but not yet run. A
    [*Portal] lives only in [portalsByID], so the registry holds the portal
    itself and a method that assigns to its receiver returns the new value,
    which the caller writes back. *)
Record Bridge : Type := mkBridge {
  Config : config.Config;
  DB : database.Database;
  usersByMXID : gmap string User;
  portalsByID : gmap string Portal;
  managementRoom : id.RoomID;
  spaceRoom : id.RoomID;
  lastPollTime : time.Time;
  trace : list Effect;
  goroutines : list Task
}.

Definition set_DB (d : database.Database) (b : Bridge) : Bridge :=
  mkBridge (Config b) d (usersByMXID b) (portalsByID b) (managementRoom b)
           (spaceRoom b) (lastPollTime b) (trace b) (goroutines b).
Definition set_usersByMXID (m : gmap string User) (b : Bridge) : Bridge :=
  mkBridge (Config b) (DB b) m (portalsByID b) (managementRoom b)
           (spaceRoom b) (lastPollTime b) (trace b) (goroutines b).
Definition set_portalsByID (m : gmap string Portal) (b : Bridge) : Bridge :=
  mkBridge (Config b) (DB b) (usersByMXID b) m (managementRoom b)
           (spaceRoom b) (lastPollTime b) (trace b) (goroutines b).
Definition set_lastPollTime (t : time.Time) (b : Bridge) : Bridge :=
  mkBridge (Config b) (DB b) (usersByMXID b) (portalsByID b) (managementRoom b)
           (spaceRoom b) t (trace b) (goroutines b).
Definition set_trace (tr : list Effect) (b : Bridge) : Bridge :=
  mkBridge (Config b) (DB b) (usersByMXID b) (portalsByID b) (managementRoom b)
           (spaceRoom b) (lastPollTime b) tr (goroutines b).
Definition set_Config (c : config.Config) (b : Bridge) : Bridge :=
  mkBridge c (DB b) (usersByMXID b) (portalsByID b) (managementRoom b)
           (spaceRoom b) (lastPollTime b) (trace b) (goroutines b).
Definition set_managementRoom (r : id.RoomID) (b : Bridge) : Bridge :=
  mkBridge (Config b) (DB b) (usersByMXID b) (portalsByID b) r
           (spaceRoom b) (lastPollTime b) (trace b) (goroutines b).
Definition set_spaceRoom (r : id.RoomID) (b : Bridge) : Bridge :=
  mkBridge (Config b) (DB b) (usersByMXID b) (portalsByID b) (managementRoom b)
           r (lastPollTime b) (trace b) (goroutines b).
Definition set_goroutines (g : list Task) (b : Bridge) : Bridge :=
  mkBridge (Config b) (DB b) (usersByMXID b) (portalsByID b) (managementRoom b)
           (spaceRoom b) (lastPollTime b) (trace b) g.

(** [NewBridge] *)
Definition NewBridge (cfg : config.Config) (db : database.Database) : Bridge :=
  mkBridge cfg db ∅ ∅ "" "" time.zero [] [].

(** ** The monad of bridge code *)

Definition M (A : Type) : Type := Bridge -> A * Bridge.

Definition ret {A : Type} (a : A) : M A := fun b => (a, b).
Definition bind {A B : Type} (m : M A) (k : A -> M B) : M B :=
  fun b => let '(a, b') := m b in k a b'.
Definition get : M Bridge := fun b => (b, b).
Definition modify (f : Bridge -> Bridge) : M unit := fun b => (tt, f b).
Definition emit (e : Effect) : M unit := modify (fun b => set_trace (trace b ++ [e]) b).

Declare Scope go_scope.
Delimit Scope go_scope with go.
Notation "x <- c1 ;; c2" := (bind c1 (fun x => c2))
  (at level 20, c1 at level 99, c2 at level 200, only parsing) : go_scope.
Notation "' pat <- c1 ;; c2" := (bind c1 (fun x => match x with pat => c2 end))
  (at level 20, pat pattern, c1 at level 99, c2 at level 200, only parsing) : go_scope.
Notation "c1 ;; c2" := (bind c1 (fun _ => c2))
  (at level 100, c2 at level 200, only parsing, right associativity) : go_scope.

(** [for _, x := range l { body x }] *)
Fixpoint forM_ {A : Type} (l : list A) (body : A -> M unit) : M unit :=
  match l with
  | [] => ret tt
  | x :: l' => bind (body x) (fun _ => forM_ l' body)
  end.

Definition nl : string := String "010"%char EmptyString.

Section bridge.

Context (env : Env).
Local Open Scope go_scope.

(** *** Calls that leave the process *)

Definition Logger_Info (msg : string) (fields : list Field) : M unit :=
  emit (Logger Info msg fields).
Definition Logger_Warn (msg : string) (fields : list Field) : M unit :=
  emit (Logger Warn msg fields).
Definition Logger_Error (msg : string) (fields : list Field) : M unit :=
  emit (Logger Error msg fields).

Definition MatrixClient_CreateRoom (req : mautrix.ReqCreateRoom) : M (Result id.RoomID) :=
  b <- get ;;
  let resp := matrix_CreateRoom env (trace b) req in
  emit (CreateRoom req resp) ;;
  ret resp.

Definition MatrixClient_SendMessageEvent (roomID : id.RoomID) (eventType : event.Type_)
    (content : event.MessageEventContent) (extra : list mautrix.ReqSendEvent)
    : M (Result id.EventID) :=
  b <- get ;;
  let resp := matrix_SendMessageEvent env (trace b) roomID eventType content extra in
  emit (SendMessageEvent roomID eventType content extra resp) ;;
  ret resp.

Definition MatrixClient_SendStateEvent (roomID : id.RoomID) (eventType : event.Type_)
    (stateKey : string) (via : list string) : M (Result id.EventID) :=
  b <- get ;;
  let resp := matrix_SendStateEvent env (trace b) roomID eventType stateKey via in
  emit (SendStateEvent roomID eventType stateKey via resp) ;;
  ret resp.

Definition MatrixClient_JoinedRooms : M (Result (list id.RoomID)) :=
  b <- get ;;
  let resp := matrix_JoinedRooms env (trace b) in
  emit (JoinedRooms resp) ;;
  ret resp.

(** [StateEvent(ctx, roomID, eventType, stateKey, &content)]: the answer is
    the field of the content that the caller goes on to read (the name of a
    room-name event, the room type of a create event). *)
Definition MatrixClient_StateEvent (roomID : id.RoomID) (eventType : event.Type_)
    (stateKey : string) : M (Result string) :=
  b <- get ;;
  let resp := matrix_StateEvent env (trace b) roomID eventType stateKey in
  emit (StateEvent roomID eventType stateKey resp) ;;
  ret resp.

Definition HostexClient_GetConversations : M (Result (list hostexapi.Conversation)) :=
  b <- get ;;
  let resp := hostex_GetConversations env (trace b) in
  emit (GetConversations resp) ;;
  ret resp.

Definition HostexClient_GetMessages (conversationID : string) (since : time.Time)
    (limit : Z) : M (Result (list hostexapi.Message)) :=
  b <- get ;;
  let resp := hostex_GetMessages env (trace b) conversationID since limit in
  emit (GetMessages conversationID since limit resp) ;;
  ret resp.

Definition HostexClient_SendMessage (conversationID content : string) : M error :=
  b <- get ;;
  let resp := hostex_SendMessage env (trace b) conversationID content in
  emit (SendMessage conversationID content resp) ;;
  ret resp.

Definition time_Now_ : M time.Time :=
  b <- get ;;
  let t := time_Now env (trace b) in
  emit (Now t) ;;
  ret t.

(** The methods of [b.DB]: the statement of [database] on the current
    contents, unless the driver fails before it runs. *)
Definition DB_StorePortal (hostexID : string) (roomID : id.RoomID)
    (name topic avatarURL : string) (encrypted : bool) : M error :=
  b <- get ;;
  match sql_fault env (trace b) with
  | Some e =>
      emit (StorePortal hostexID roomID name topic avatarURL encrypted (Some e)) ;;
      ret (Some e)
  | None =>
      let '(d, err) := database.StorePortal (DB b) hostexID roomID name topic avatarURL encrypted in
      modify (set_DB d) ;;
      emit (StorePortal hostexID roomID name topic avatarURL encrypted err) ;;
      ret err
  end.

Definition DB_GetPortal (hostexID : string) : M (id.RoomID * error) :=
  b <- get ;;
  let resp := match sql_fault env (trace b) with
              | Some e => ("", Some e)
              | None => database.GetPortal (DB b) hostexID
              end in
  emit (GetPortal hostexID resp) ;;
  ret resp.

Definition DB_StoreMessage (hostexID : string) (eventID : id.EventID)
    (timestamp : time.Time) (sender content : string) : M error :=
  b <- get ;;
  match sql_fault env (trace b) with
  | Some e =>
      emit (StoreMessage hostexID eventID timestamp sender content (Some e)) ;;
      ret (Some e)
  | None =>
      let '(d, err) := database.StoreMessage (DB b) hostexID eventID timestamp sender content in
      modify (set_DB d) ;;
      emit (StoreMessage hostexID eventID timestamp sender content err) ;;
      ret err
  end.

Definition DB_GetLastMessageTimestamp (hostexID : string) : M (time.Time * error) :=
  b <- get ;;
  let resp := match sql_fault env (trace b) with
              | Some e => (time.Unix 0 0, Some e)
              | None => database.GetLastMessageTimestamp (DB b) hostexID
              end in
  emit (GetLastMessageTimestamp hostexID resp) ;;
  ret resp.

(** *** Portal (unnamed/part_001) *)

Definition NewPortal (id : string) : Portal :=
  mkPortal id "" hostexapi.Conversation_zero.

Definition UpdateInfo (p : Portal) (info : hostexapi.Conversation) : Portal :=
  mkPortal (Portal_ID p) (Portal_RoomID p) info.

Definition addToPersonalSpace (p : Portal) : M error :=
  b <- get ;;
  resp <- MatrixClient_SendStateEvent (spaceRoom b) event.StateSpaceChild (Portal_RoomID p)
            [config.Homeserver_Domain (Config b)] ;;
  match resp with
  | Fail e => ret (Some (Errorf "failed to add room to personal space" e))
  | Ok _ => ret None
  end.

(** The request built by [CreateMatrixRoom]. *)
Definition createRoom_req (p : Portal) : mautrix.ReqCreateRoom :=
  mautrix.mkReqCreateRoom "private"
    (hostexapi.ChannelType (Portal_Info p) +:+ " - "
       +:+ hostexapi.Guest_Name (hostexapi.Guest_ (Portal_Info p)))
    ("Hostex conversation for " +:+ hostexapi.PropertyTitle (Portal_Info p))
    [] [] [].

Definition CreateMatrixRoom (p : Portal) : M (Portal * error) :=
  if decide (Portal_RoomID p <> "") then ret (p, None) else
  '(existingRoomID, err) <- DB_GetPortal (Portal_ID p) ;;
  match err with
  | Some e => ret (p, Some (Errorf "failed to check existing portal" e))
  | None =>
  if decide (existingRoomID <> "")
  then ret (mkPortal (Portal_ID p) existingRoomID (Portal_Info p), None)
  else
  let createRoom := createRoom_req p in
  resp <- MatrixClient_CreateRoom createRoom ;;
  match resp with
  | Fail e => ret (p, Some (Errorf "failed to create Matrix room" e))
  | Ok roomID =>
  let p := mkPortal (Portal_ID p) roomID (Portal_Info p) in
  Logger_Info "Created Matrix room" [zap_String "room_id" (Portal_RoomID p)] ;;
  err <- DB_StorePortal (Portal_ID p) (Portal_RoomID p) (mautrix.Name createRoom)
           (mautrix.Topic createRoom) "" false ;;
  match err with
  | Some e => ret (p, Some (Errorf "failed to store portal in database" e))
  | None =>
  b <- get ;;
  (if config.PersonalSpaceEnable (Config b)
   then
     err <- addToPersonalSpace p ;;
     match err with
     | Some e => Logger_Error "Failed to add room to personal space" [zap_Error e]
     | None => ret tt
     end
   else ret tt) ;;
  ret (p, None)
  end end end.

Definition Portal_HandleMatrixMessage (p : Portal) (evt : event.Event) : M unit :=
  if decide (event.Type' evt <> event.EventMessage) then ret tt else
  match event.Content evt with
  | event.ParsedMessage content =>
      (* Send message to Hostex *)
      err <- HostexClient_SendMessage (Portal_ID p) (event.Body content) ;;
      match err with
      | Some e => Logger_Error "Failed to send message to Hostex" [zap_Error e]
      | None =>
          (* Store message in database *)
          now <- time_Now_ ;;
          err <- DB_StoreMessage (Portal_ID p) (event.ID evt) now (event.Sender evt)
                   (event.Body content) ;;
          match err with
          | Some e => Logger_Error "Failed to store message in database" [zap_Error e]
          | None => ret tt
          end
      end
  | _ => Logger_Warn "Received non-message event" []
  end.

Definition Portal_SendMessage (p : Portal) (msg : hostexapi.Message) : M error :=
  let content := event.mkMessageEventContent event.MsgText (hostexapi.Content msg) in
  (* Convert timestamp to configured timezone *)
  b <- get ;;
  loc <- match time_LoadLocation env (config.Timezone (Config b)) with
         | Fail e => Logger_Error "Failed to load timezone" [zap_Error e] ;; ret time.UTC
         | Ok loc => ret loc
         end ;;
  let timestamp := time.In (hostexapi.Timestamp msg) loc in
  resp <- MatrixClient_SendMessageEvent (Portal_RoomID p) event.EventMessage content
            [mautrix.mkReqSendEvent (Z.quot (time.UnixNano timestamp) 1000000)] ;;
  match resp with
  | Fail e => ret (Some (Errorf "failed to send Matrix message" e))
  | Ok eventID =>
      (* Store message in database *)
      err <- DB_StoreMessage (Portal_ID p) eventID timestamp (hostexapi.Sender msg)
               (hostexapi.Content msg) ;;
      match err with
      | Some e => Logger_Error "Failed to store message in database" [zap_Error e]
      | None => ret tt
      end ;;
      ret None
  end.

Definition BackfillMessages (p : Portal) : M error :=
  '(lastTimestamp, err) <- DB_GetLastMessageTimestamp (Portal_ID p) ;;
  match err with
  | Some e => ret (Some (Errorf "failed to get last message timestamp" e))
  | None =>
  resp <- HostexClient_GetMessages (Portal_ID p) lastTimestamp 10 ;;
  match resp with
  | Fail e => ret (Some (Errorf "failed to get messages from Hostex" e))
  | Ok messages =>
  forM_ messages (fun msg =>
    err <- Portal_SendMessage p msg ;;
    match err with
    | Some e => Logger_Error "Failed to send backfilled message" [zap_Error e]
    | None => ret tt
    end) ;;
  ret None
  end end.

(** *** User (bridge/user.go) *)

Definition NewUser (mxid : id.UserID) : User := mkUser mxid.

Definition help_text : string :=
  "Available commands:" +:+ nl +:+
  "!help - Show this help message" +:+ nl +:+
  "!status - Show bridge status" +:+ nl +:+
  "!list - List active conversations" +:+ nl +:+
  "!sync - Force sync conversations from Hostex".

Definition sendHelpMessage (u : User) (roomID : id.RoomID) : M unit :=
  let content := event.mkMessageEventContent event.MsgNotice help_text in
  resp <- MatrixClient_SendMessageEvent roomID event.EventMessage content [] ;;
  match resp with
  | Fail e => Logger_Error "Failed to send help message" [zap_Error e]
  | Ok _ => ret tt
  end.

(** The portals of the registry in the order of a [range] loop. Go leaves
    that order unspecified; the model takes the order of [map_to_list]. *)
Definition range_portals (b : Bridge) : list Portal :=
  map snd (map_to_list (portalsByID b)).

Definition bridgedRooms (b : Bridge) : nat :=
  length (List.filter (fun portal => bool_decide (Portal_RoomID portal <> ""))
                      (range_portals b)).

(** The Hostex client handed to [NewBridge] by [main] is never nil, so
    [u.bridge.HostexClient != nil] prints as true. *)
Definition status_text (b : Bridge) (lastPollTime : time.Time) : string :=
  "Bridge Status:" +:+ nl +:+
  "Connected to Hostex: " +:+ "true" +:+ nl +:+
  "Bridged conversations: " +:+ pretty (bridgedRooms b) +:+ nl +:+
  "Last poll time: " +:+ time_Format env RFC3339 lastPollTime +:+ nl +:+
  "Timezone: " +:+ config.Timezone (Config b).

(** In this copy of user.go [lastPollTime] is a local that is never
    assigned; the second copy reads [b.lastPollTime] instead. *)
Definition sendStatusMessage (u : User) (roomID : id.RoomID) : M unit :=
  b <- get ;;
  let lastPollTime := time.zero in
  let content := event.mkMessageEventContent event.MsgNotice (status_text b lastPollTime) in
  resp <- MatrixClient_SendMessageEvent roomID event.EventMessage content [] ;;
  match resp with
  | Fail e => Logger_Error "Failed to send status message" [zap_Error e]
  | Ok _ => ret tt
  end.

Definition conversation_entry (portal : Portal) : string :=
  "- " +:+ hostexapi.Guest_Name (hostexapi.Guest_ (Portal_Info portal)) +:+
  " (" +:+ hostexapi.ChannelType (Portal_Info portal) +:+ ")" +:+ nl +:+
  "  Room: " +:+ Portal_RoomID portal +:+ nl +:+
  "  Last activity: " +:+
     time_Format env RFC3339 (hostexapi.LastMessageAt (Portal_Info portal)) +:+ nl +:+ nl.

Definition conversationList (b : Bridge) : string :=
  fold_left (fun acc portal =>
               if decide (Portal_RoomID portal <> "")
               then acc +:+ conversation_entry portal
               else acc)
            (range_portals b)
            ("Active conversations:" +:+ nl +:+ nl).

Definition listConversations (u : User) (roomID : id.RoomID) : M unit :=
  b <- get ;;
  let content := event.mkMessageEventContent event.MsgNotice (conversationList b) in
  resp <- MatrixClient_SendMessageEvent roomID event.EventMessage content [] ;;
  match resp with
  | Fail e => Logger_Error "Failed to send conversation list" [zap_Error e]
  | Ok _ => ret tt
  end.

Definition sendNotice (u : User) (roomID : id.RoomID) (message : string) : M unit :=
  let content := event.mkMessageEventContent event.MsgNotice message in
  resp <- MatrixClient_SendMessageEvent roomID event.EventMessage content [] ;;
  match resp with
  | Fail e => Logger_Error "Failed to send notice" [zap_Error e]
  | Ok _ => ret tt
  end.

(** [go func() { ... }()]: the closure is queued and runs later. *)
Definition go (t : Task) : M unit :=
  modify (fun b => set_goroutines (goroutines b ++ [t]) b).

Definition forceSyncConversations (u : User) (roomID : id.RoomID) : M unit :=
  sendNotice u roomID "Forcing sync of conversations from Hostex..." ;;
  go (GoForceSync (MXID u) roomID).

Definition unknown_command_text : string :=
  "Unknown command. Type !help for a list of available commands.".

Definition sendUnknownCommandMessage (u : User) (roomID : id.RoomID) : M unit :=
  let content := event.mkMessageEventContent event.MsgNotice unknown_command_text in
  resp <- MatrixClient_SendMessageEvent roomID event.EventMessage content [] ;;
  match resp with
  | Fail e => Logger_Error "Failed to send unknown command message" [zap_Error e]
  | Ok _ => ret tt
  end.

Definition HandleCommand (u : User) (roomID : id.RoomID) (body : string) : M unit :=
  let parts := strings_Fields env body in
  match parts with
  | [] => ret tt
  | part0 :: args =>
      let command := strings_ToLower env part0 in
      if decide (command = "!help") then sendHelpMessage u roomID
      else if decide (command = "!status") then sendStatusMessage u roomID
      else if decide (command = "!list") then listConversations u roomID
      else if decide (command = "!sync") then forceSyncConversations u roomID
      else sendUnknownCommandMessage u roomID
  end.

(** *** Bridge (bridge/bridge.go) *)

Definition handleHostexConversation (conv : hostexapi.Conversation) : M unit :=
  b <- get ;;
  portal <- match portalsByID b !! hostexapi.Conversation_ID conv with
            | Some portal => ret portal
            | None =>
                let portal := NewPortal (hostexapi.Conversation_ID conv) in
                modify (fun b => set_portalsByID
                          (<[hostexapi.Conversation_ID conv := portal]> (portalsByID b)) b) ;;
                ret portal
            end ;;
  let portal := UpdateInfo portal conv in
  modify (fun b => set_portalsByID
            (<[hostexapi.Conversation_ID conv := portal]> (portalsByID b)) b) ;;
  '(portal, err) <- CreateMatrixRoom portal ;;
  modify (fun b => set_portalsByID
            (<[hostexapi.Conversation_ID conv := portal]> (portalsByID b)) b) ;;
  match err with
  | Some e => Logger_Error "Failed to create Matrix room" [zap_Error e]
  | None =>
      err <- BackfillMessages portal ;;
      match err with
      | Some e => Logger_Error "Failed to backfill messages" [zap_Error e]
      | None => ret tt
      end
  end.

Definition pollHostex : M unit :=
  now <- time_Now_ ;;
  modify (set_lastPollTime now) ;;
  resp <- HostexClient_GetConversations ;;
  match resp with
  | Fail e => Logger_Error "Failed to get conversations" [zap_Error e]
  | Ok conversations => forM_ conversations handleHostexConversation
  end.

Definition handleManagementCommand (evt : event.Event) : M unit :=
  b <- get ;;
  if decide (event.Sender evt <> config.Admin_UserID (Config b))
  then Logger_Warn "Unauthorized management command" [zap_String "sender" (event.Sender evt)]
  else
  match event.Content evt with
  | event.ParsedMessage content =>
      user <- match usersByMXID b !! event.Sender evt with
              | Some user => ret user
              | None =>
                  let user := NewUser (event.Sender evt) in
                  modify (fun b => set_usersByMXID
                            (<[event.Sender evt := user]> (usersByMXID b)) b) ;;
                  ret user
              end ;;
      HandleCommand user (event.RoomID evt) (event.Body content)
  | _ => ret tt
  end.

Definition handleMatrixMessage (evt : event.Event) : M unit :=
  b <- get ;;
  if decide (event.RoomID evt = managementRoom b)
  then handleManagementCommand evt
  else
  match portalsByID b !! event.RoomID evt with
  | None => Logger_Warn "Received message for unknown portal"
              [zap_String "room_id" (event.RoomID evt)]
  | Some portal => Portal_HandleMatrixMessage portal evt
  end.

(** *** Start (second copy of bridge/bridge.go, which reads single state
    events; the first copy logs in before and scans the whole room state) *)

(** [for _, roomID := range rooms { if found(roomID) { return roomID } }] *)
Fixpoint first_room (rooms : list id.RoomID) (found : id.RoomID -> M bool)
    : M (option id.RoomID) :=
  match rooms with
  | [] => ret None
  | roomID :: rooms' =>
    ok <- found roomID ;;
    if ok then ret (Some roomID) else first_room rooms' found
  end.

Definition createOrFindManagementRoom : M (id.RoomID * error) :=
  rooms <- MatrixClient_JoinedRooms ;;
  match rooms with
  | Fail e => ret ("", Some e)
  | Ok joined =>
  (* Check if this is the management room *)
  found <- first_room joined (fun roomID =>
    name <- MatrixClient_StateEvent roomID event.StateRoomName "" ;;
    match name with
    | Ok name => ret (bool_decide (name = "Hostex Bridge Management"))
    | Fail _ => ret false
    end) ;;
  match found with
  | Some roomID => ret (roomID, None)
  | None =>
  (* If not found, create a new management room *)
  b <- get ;;
  let createRoom := mautrix.mkReqCreateRoom "private" "Hostex Bridge Management"
                    "Management room for Hostex bridge"
                    [config.Admin_UserID (Config b)] [] [] in
  resp <- MatrixClient_CreateRoom createRoom ;;
  match resp with
  | Fail e => ret ("", Some e)
  | Ok roomID => ret (roomID, None)
  end end end.

Definition createOrFindPersonalSpace : M (id.RoomID * error) :=
  rooms <- MatrixClient_JoinedRooms ;;
  match rooms with
  | Fail e => ret ("", Some e)
  | Ok joined =>
  (* Check if this is the personal space *)
  found <- first_room joined (fun roomID =>
    type <- MatrixClient_StateEvent roomID event.StateCreate "" ;;
    match type with
    | Ok type =>
      if decide (type = "m.space")
      then
        name <- MatrixClient_StateEvent roomID event.StateRoomName "" ;;
        match name with
        | Ok name => ret (bool_decide (name = "Hostex Conversations"))
        | Fail _ => ret false
        end
      else ret false
    | Fail _ => ret false
    end) ;;
  match found with
  | Some roomID => ret (roomID, None)
  | None =>
  (* If not found, create a new personal space *)
  let createRoom := mautrix.mkReqCreateRoom "private" "Hostex Conversations"
                    "Personal space for Hostex conversations" []
                    [("type", "m.space")]
                    [(event.StateCreate, [("type", "m.space")])] in
  resp <- MatrixClient_CreateRoom createRoom ;;
  match resp with
  | Fail e => ret ("", Some e)
  | Ok roomID => ret (roomID, None)
  end end end.

Definition sendSetupMessage : M unit :=
  b <- get ;;
  let content := event.mkMessageEventContent event.MsgText
                 "Hostex bridge has been set up and is now running." in
  resp <- MatrixClient_SendMessageEvent (managementRoom b) event.EventMessage content [] ;;
  match resp with
  | Fail e => Logger_Error "Failed to send setup message" [zap_Error e]
  | Ok _ => ret tt
  end.

Definition Start : M error :=
  Logger_Info "Starting Hostex bridge" [] ;;
  (* Create or find management room *)
  '(room, err) <- createOrFindManagementRoom ;;
  modify (set_managementRoom room) ;;
  match err with
  | Some e => ret (Some (Errorf "failed to create or find management room" e))
  | None =>
  (* Create personal filtering space if enabled *)
  b <- get ;;
  err <- (if config.PersonalSpaceEnable (Config b)
        then
          '(room, err) <- createOrFindPersonalSpace ;;
          modify (set_spaceRoom room) ;;
          ret err
        else ret None) ;;
  match err with
  | Some e => ret (Some (Errorf "failed to create or find personal space" e))
  | None =>
  (* Start syncing *)
  emit (GoLoop "startSyncing") ;;
  (* Start polling *)
  emit (GoLoop "startPolling") ;;
  (* Send setup message *)
  sendSetupMessage ;;
  ret None
  end end.

(** *** Goroutines *)

(** The body of the closure started by [forceSyncConversations]. *)
Definition run_goroutine (t : Task) : M unit :=
  match t with
  | GoForceSync mxid roomID =>
      pollHostex ;;
      sendNotice (mkUser mxid) roomID
        "Sync complete. Use !list to see updated conversations."
  end.

(** Let every goroutine started so far run to its end, oldest first. *)
Definition run_goroutines : M unit :=
  b <- get ;;
  modify (set_goroutines []) ;;
  forM_ (goroutines b) run_goroutine.

End bridge.

(** ** Observations on traces *)

(** The calls made between two states. *)
Definition new_effects (b b' : Bridge) : list Effect :=
  drop (length (trace b)) (trace b').

(** The requests handed to the room-creation operation. *)
Definition create_calls (tr : list Effect) : list mautrix.ReqCreateRoom :=
  omap (fun e => match e with CreateRoom req _ => Some req | _ => None end) tr.

(** The rooms that were created: the room ids the homeserver answered (an
    answer without a room id names no room). *)
Definition created_rooms (tr : list Effect) : list id.RoomID :=
  omap (fun e => match e with
                 | CreateRoom _ (Ok roomID) =>
                     if decide (roomID <> "") then Some roomID else None
                 | _ => None
                 end) tr.

(** The messages sent into Matrix rooms, successfully or not. *)
Definition matrix_sends (tr : list Effect) : list (id.RoomID * event.MessageEventContent) :=
  omap (fun e => match e with
                 | SendMessageEvent roomID _ content _ _ => Some (roomID, content)
                 | _ => None
                 end) tr.

(** The send-message calls made to Hostex, successfully or not. *)
Definition hostex_sends (tr : list Effect) : list (string * string) :=
  omap (fun e => match e with
                 | SendMessage conversationID content _ => Some (conversationID, content)
                 | _ => None
                 end) tr.

(** The message rows the bridge tried to write. *)
Definition message_writes (tr : list Effect) : list (string * id.EventID) :=
  omap (fun e => match e with
                 | StoreMessage hostexID eventID _ _ _ _ => Some (hostexID, eventID)
                 | _ => None
                 end) tr.

(** The remote message fetches, with cursor and page size. *)
Definition message_fetches (tr : list Effect) : list (string * time.Time * Z) :=
  omap (fun e => match e with
                 | GetMessages conversationID since limit _ => Some (conversationID, since, limit)
                 | _ => None
                 end) tr.

(** A notice-class message. *)
Definition notice (text : string) : event.MessageEventContent :=
  event.mkMessageEventContent event.MsgNotice text.

(** What one reply adds to the trace: the send, and an error line when the
    homeserver refuses it. *)
Definition reply_effects (env : Env) (tr : list Effect) (roomID : id.RoomID)
    (content : event.MessageEventContent) (complaint : string) : list Effect :=
  let resp := matrix_SendMessageEvent env tr roomID event.EventMessage content [] in
  SendMessageEvent roomID event.EventMessage content [] resp ::
  match resp with
  | Fail e => [Logger Error complaint [zap_Error e]]
  | Ok _ => []
  end.

(** The trace only grows. *)
Definition extends (b b' : Bridge) : Prop := exists d, trace b' = trace b ++ d.

Definition monotone {A : Type} (m : M A) : Prop := forall b, extends b (m b).2.

(** The same bridge with another time zone configured. *)
Definition set_Timezone (tz : string) (b : Bridge) : Bridge :=
  set_Config (config.mkConfig (config.Homeserver_Domain (Config b))
                (config.User_UserID (Config b)) (config.Admin_UserID (Config b)) tz
                (config.PollInterval (Config b)) (config.PersonalSpaceEnable (Config b))) b.

(** Code that neither reads nor writes the configured time zone. *)
Definition timezone_blind {A : Type} (m : M A) : Prop :=
  forall tz b, m (set_Timezone tz b) = ((m b).1, set_Timezone tz (m b).2).

(** The number of rooms created by a series of calls of [CreateMatrixRoom]
    on one portal. Each call finds the bridge in a state of its own --
    whatever happened since the call before -- and a refreshed conversation
    snapshot, as in [handleHostexConversation]; the portal keeps what the
    call before left in it. *)
Fixpoint rooms_created_by (env : Env) (calls : list (hostexapi.Conversation * Bridge))
    (p : Portal) : nat :=
  match calls with
  | [] => 0%nat
  | (info, b) :: rest =>
      let r := CreateMatrixRoom env (UpdateInfo p info) b in
      (length (created_rooms (new_effects b r.2)) + rooms_created_by env rest r.1.1)%nat
  end.

(** ** Poll cycles and the registry *)

(** The number of conversations of the registry that have a room. *)
Definition rooms_assigned (m : gmap string Portal) : nat :=
  size (filter (fun kp => Portal_RoomID kp.2 <> "") m).

Definition has_room (o : option Portal) : nat :=
  match o with
  | Some p => if decide (Portal_RoomID p <> "") then 1%nat else 0%nat
  | None => 0%nat
  end.

(** Code all of whose runs relate the state before to the state after. *)
Definition respects {A : Type} (R : Bridge -> Bridge -> Prop) (m : M A) : Prop :=
  forall b, R b (m b).2.

Definition same_registry (b b' : Bridge) : Prop := portalsByID b' = portalsByID b.

(** The registry is as it was and no room was created in between. *)
Definition no_room_created (b b' : Bridge) : Prop :=
  portalsByID b' = portalsByID b /\
  exists d, trace b' = trace b ++ d /\ created_rooms d = [].

(** Between two states the trace has grown, and every room created in
    between went to a conversation that had none. *)
Definition poll_progress (b b' : Bridge) : Prop :=
  exists d, trace b' = trace b ++ d /\
    (length (created_rooms d) + rooms_assigned (portalsByID b)
     <= rooms_assigned (portalsByID b'))%nat.

Fixpoint polls (env : Env) (n : nat) : M unit :=
  match n with
  | O => ret tt
  | S n' => bind (pollHostex env) (fun _ => polls env n')
  end.

(** ** Go's [strings.Fields] and [strings.ToLower] on ASCII input *)

Module ascii_strings.

(** [asciiSpace]: tab, line feed, vertical tab, form feed, carriage
    return and space. *)
Definition isSpace (c : ascii) : bool :=
  let n := nat_of_ascii c in
  ((9 <=? n)%nat && (n <=? 13)%nat) || (n =? 32)%nat.

Fixpoint Fields_from (cur : string) (s : string) : list string :=
  match s with
  | EmptyString => if decide (cur = "") then [] else [cur]
  | String c s' =>
      if isSpace c
      then if decide (cur = "") then Fields_from "" s' else cur :: Fields_from "" s'
      else Fields_from (cur +:+ String c EmptyString) s'
  end.

Definition Fields (s : string) : list string := Fields_from "" s.

Definition lower (c : ascii) : ascii :=
  let n := nat_of_ascii c in
  if ((65 <=? n)%nat && (n <=? 90)%nat) then ascii_of_nat (n + 32) else c.

Fixpoint ToLower (s : string) : string :=
  match s with
  | EmptyString => EmptyString
  | String c s' => String (lower c) (ToLower s')
  end.

Fixpoint all_space (s : string) : bool :=
  match s with
  | EmptyString => true
  | String c s' => isSpace c && all_space s'
  end.

End ascii_strings.

(** ** Concrete worlds, used to run the bridge *)

Module demo.

Definition cfg : config.Config :=
  config.mkConfig "hs.example" "@hostexbot:hs.example" "@admin:hs.example"
                  "America/Los_Angeles" 10000000000 false.

(** A homeserver, a Hostex API and a store that always answer. The bot has
    joined no room yet; rooms are numbered in the order of their creation,
    the control room being the first; times are printed as seconds since
    the epoch. *)
Definition env_ok : Env :=
  mkEnv
    (fun tr req => if decide (mautrix.Name req = "Hostex Bridge Management")
                   then Ok "!mgmt:hs.example"
                   else Ok ("!r" +:+ pretty (length (create_calls tr)) +:+ ":hs.example"))
    (fun tr _ _ _ _ => Ok ("$event" +:+ pretty (length tr)))
    (fun tr _ _ _ _ => Ok ("$state" +:+ pretty (length tr)))
    (fun _ => Ok [])
    (fun _ _ _ _ => Ok [])
    (fun _ _ _ => None)
    (fun _ => None)
    (fun tr => time.mkTime (1700000000 + Z.of_nat (length tr)) 0 time.Local)
    (fun name => if decide (name = "UTC") then Ok time.UTC
                 else if decide (name = "America/Los_Angeles") then Ok (time.Zone name)
                 else Fail (ErrUnknownTimeZone name))
    (fun _ t => pretty (time.sec t))
    ascii_strings.Fields
    ascii_strings.ToLower
    (fun _ => Ok [])
    (fun _ _ _ _ => Fail (ErrRemote "M_NOT_FOUND")).

Definition with_CreateRoom (f : list Effect -> mautrix.ReqCreateRoom -> Result id.RoomID)
    (e : Env) : Env :=
  mkEnv f (matrix_SendMessageEvent e) (matrix_SendStateEvent e)
        (hostex_GetConversations e) (hostex_GetMessages e) (hostex_SendMessage e)
        (sql_fault e) (time_Now e) (time_LoadLocation e) (time_Format e)
        (strings_Fields e) (strings_ToLower e) (matrix_JoinedRooms e) (matrix_StateEvent e).

Definition with_hostex_SendMessage (f : list Effect -> string -> string -> error)
    (e : Env) : Env :=
  mkEnv (matrix_CreateRoom e) (matrix_SendMessageEvent e) (matrix_SendStateEvent e)
        (hostex_GetConversations e) (hostex_GetMessages e) f
        (sql_fault e) (time_Now e) (time_LoadLocation e) (time_Format e)
        (strings_Fields e) (strings_ToLower e) (matrix_JoinedRooms e) (matrix_StateEvent e).

Definition with_hostex_GetConversations
    (f : list Effect -> Result (list hostexapi.Conversation)) (e : Env) : Env :=
  mkEnv (matrix_CreateRoom e) (matrix_SendMessageEvent e) (matrix_SendStateEvent e)
        f (hostex_GetMessages e) (hostex_SendMessage e)
        (sql_fault e) (time_Now e) (time_LoadLocation e) (time_Format e)
        (strings_Fields e) (strings_ToLower e) (matrix_JoinedRooms e) (matrix_StateEvent e).

(** The homeserver refuses the first creation of a portal room (the
    second room asked for, after the control room) and accepts the other
    ones. *)
Definition env_create_fails_once : Env :=
  with_CreateRoom
    (fun tr req => match create_calls tr with
                   | [_] => Fail (ErrRemote "M_LIMIT_EXCEEDED")
                   | _ => matrix_CreateRoom env_ok tr req
                   end) env_ok.

(** The Hostex API refuses every message. *)
Definition env_hostex_send_fails : Env :=
  with_hostex_SendMessage (fun _ _ _ => Some (ErrRemote "API request failed with status code: 500"))
                          env_ok.

(** The Hostex API does not list conversations. *)
Definition env_hostex_list_fails : Env :=
  with_hostex_GetConversations
    (fun _ => Fail (ErrRemote "API request failed with status code: 503")) env_ok.

Definition alice : hostexapi.Conversation :=
  hostexapi.mkConversation "c1" "airbnb" (time.mkTime 1700000000 0 time.UTC)
    (hostexapi.mkGuest "Alice" "" "") "Seaside flat" "2023-11-20" "2023-11-22".

Definition m1 : hostexapi.Message :=
  hostexapi.mkMessage "m1" "hi" (time.mkTime 1700000000 0 time.UTC) "Alice".

(** A bridge that has just been started: control room created, nothing
    polled yet. *)
Definition started : Bridge :=
  (Start env_ok (NewBridge cfg database.createTables)).2.

(** A portal for conversation c1, before and after its room exists. *)
Definition portal_new : Portal := mkPortal "c1" "" alice.
Definition portal_c1 : Portal := mkPortal "c1" "!r1:hs.example" alice.

(** The Hostex API lists conversation c1. *)
Definition env_poll : Env :=
  with_hostex_GetConversations (fun _ => Ok [alice]) env_ok.

(** The bridge after its first poll cycle. *)
Definition polled : Bridge := (pollHostex env_poll started).2.

(** A text message typed into a room. *)
Definition text_event (sender : id.UserID) (roomID : id.RoomID) (body : string)
    : event.Event :=
  event.mkEvent sender event.EventMessage 1700000100000 "$in1" roomID
    (event.ParsedMessage (event.mkMessageEventContent event.MsgText body)).

(** A reaction, an event of another kind. *)
Definition reaction_event (sender : id.UserID) (roomID : id.RoomID) : event.Event :=
  event.mkEvent sender event.EventReaction 1700000100000 "$in2" roomID
    (event.ParsedOther "*event.ReactionEventContent").

(** The configuration with a time zone that does not exist. *)
Definition cfg_bad_timezone : config.Config :=
  config.mkConfig "hs.example" "@hostexbot:hs.example" "@admin:hs.example"
                  "Mars/Olympus_Mons" 10000000000 false.

Definition started_bad_timezone : Bridge :=
  (Start env_ok (NewBridge cfg_bad_timezone database.createTables)).2.

End demo.

(** ** The bridge at work *)

(** What the loops started by [Start] react to, until the bridge is
    stopped: the ticker of [startPolling] fires; the syncer of
    [startSyncing] hands an event to its listeners; [Sync] returns an
    error; and the goroutines started by commands get to run. *)
Inductive Input : Type :=
| Tick
| Synced (evt : event.Event)
| SyncError (e : err)
| Scheduled.

Section serving.

Context (env : Env).
Local Open Scope go_scope.

(** [syncer.OnEventType(eventType, callback)]: the syncer calls the
    listeners registered for the type of the event. *)
Definition OnEventType (eventType : event.Type_) (callback : event.Event -> M unit)
    (evt : event.Event) : M unit :=
  if decide (event.Type' evt = eventType) then callback evt else ret tt.

(** One turn of [startPolling] ([case <-ticker.C]) or of [startSyncing]
    (a listener called by [Sync], or the error it returns), or the
    goroutines of [forceSyncConversations]. *)
Definition step (i : Input) : M unit :=
  match i with
  | Tick => pollHostex env
  | Synced evt => OnEventType event.EventMessage (handleMatrixMessage env) evt
  | SyncError e => Logger_Error "Sync error" [zap_Error e]
  | Scheduled => run_goroutines env
  end.

(** The handlers one after the other, none of them overlapping another. *)
Definition run (inputs : list Input) : M unit := forM_ inputs step.

End serving.

(** The state events sent, with what the homeserver answered. *)
Definition state_events (tr : list Effect)
    : list (id.RoomID * event.Type_ * string * list string) :=
  omap (fun e => match e with
                 | SendStateEvent roomID eventType stateKey via _ =>
                     Some (roomID, eventType, stateKey, via)
                 | _ => None
                 end) tr.

(** The loops started. *)
Definition loops_started (tr : list Effect) : list string :=
  omap (fun e => match e with GoLoop name => Some name | _ => None end) tr.

(** The bridge keeps its configuration and its rooms, and the store its
    constraints and its rows. *)
Definition steady (b b' : Bridge) : Prop :=
  Config b' = Config b /\
  managementRoom b' = managementRoom b /\
  spaceRoom b' = spaceRoom b /\
  (database.constraints (DB b) -> database.constraints (DB b')) /\
  database.no_row_deleted (DB b) (DB b') /\
  database.message (DB b) `prefix_of` database.message (DB b') /\
  database.user (DB b') = database.user (DB b) /\
  (forall k u, usersByMXID b' !! k = Some u ->
               usersByMXID b !! k = Some u \/
               (k = config.Admin_UserID (Config b) /\ u = mkUser k)).

(** Every portal of the registry is still there, under its key, with its
    conversation id and, once it has one, its room; and a registry keyed
    by conversation id stays so. *)
Definition registry_grows (b b' : Bridge) : Prop :=
  (forall k p, portalsByID b !! k = Some p ->
     exists p', portalsByID b' !! k = Some p' /\
                Portal_ID p' = Portal_ID p /\
                (Portal_RoomID p <> "" -> Portal_RoomID p' = Portal_RoomID p)) /\
  ((forall k p, portalsByID b !! k = Some p -> Portal_ID p = k) ->
   (forall k p, portalsByID b' !! k = Some p -> Portal_ID p = k)).

Definition same_lastPollTime (b b' : Bridge) : Prop := lastPollTime b' = lastPollTime b.

(** Between two states only the trace has grown, by calls that send no
    message and start no loop. *)
Definition probes_only (b b' : Bridge) : Prop :=
  exists d, b' = set_trace (trace b ++ d) b /\ matrix_sends d = [] /\ loops_started d = [].

(** ** The second copy of bridge/bridge.go and bridge/user.go, where its
    functions differ from the first: it threads a [context.Context], and
    the status command reads the time of the last poll. *)

Module ctx.

Section bridge.

Context (env : Env).
Local Open Scope go_scope.

Definition GetLastPollTime (b : Bridge) : time.Time := lastPollTime b.

Definition ForceSyncConversations : M unit := pollHostex env.

Definition sendStatusMessage (u : User) (roomID : id.RoomID) : M unit :=
  b <- get ;;
  let lastPollTime := GetLastPollTime b in
  let content := event.mkMessageEventContent event.MsgNotice (status_text env b lastPollTime) in
  resp <- MatrixClient_SendMessageEvent env roomID event.EventMessage content [] ;;
  match resp with
  | Fail e => Logger_Error "Failed to send status message" [zap_Error e]
  | Ok _ => ret tt
  end.

End bridge.

End ctx.


(** Between two states nothing was sent into a Matrix room, no user was
    registered and no goroutine started. *)
Definition no_reply (b b' : Bridge) : Prop :=
  usersByMXID b' = usersByMXID b /\
  goroutines b' = goroutines b /\
  exists d, trace b' = trace b ++ d /\ matrix_sends d = [].

Module demo_space.

(** The configuration of [demo] with the personal space switched on. *)
Definition cfg : config.Config :=
  config.mkConfig "hs.example" "@hostexbot:hs.example" "@admin:hs.example"
                  "America/Los_Angeles" 10000000000 true.

(** The bridge started with it: the control room and the space exist. *)
Definition started : Bridge :=
  (Start demo.env_ok (NewBridge cfg database.createTables)).2.

End demo_space.

(** ** hostexapi: the HTTP client (second part of database/database.go) *)

Module http.

Definition StatusOK : Z := 200.

(** [http.Header]: canonical key to values. *)
Definition Header : Type := gmap string (list string).

Record Request : Type := mkRequest {
  Method : string;
  URL : string;
  Request_Header : Header;
  Request_Body : option string
}.

Record Response : Type := mkResponse {
  StatusCode : Z;
  Body : string
}.

(** [req.Header.Set(key, value)]; the three keys this program sets are in
    canonical form as written. *)
Definition Header_Set (key value : string) (req : Request) : Request :=
  mkRequest (Method req) (URL req) (<[key := [value]]> (Request_Header req))
            (Request_Body req).

End http.

Module Client.

Record ConversationsResponse : Type := mkConversationsResponse {
  Conversations_RequestID : string;
  Conversations_ErrorCode : Z;
  Conversations_ErrorMsg : string;
  Data_Conversations : list hostexapi.Conversation
}.

Record MessagesResponse : Type := mkMessagesResponse {
  Messages_RequestID : string;
  Messages_ErrorCode : Z;
  Messages_ErrorMsg : string;
  Data_Messages : list hostexapi.Message
}.

(** The anonymous response struct of [SendMessage]. *)
Record response : Type := mkResponse {
  RequestID : string;
  ErrorCode : Z;
  ErrorMsg : string
}.

(** What lies behind the client at one moment: the URL parser of
    [http.NewRequest], the round trip of [httpClient.Do], the JSON encoder
    and decoders, and [Time.Format]. *)
Record Net : Type := mkNet {
  url_Parse : string -> error;
  Do : http.Request -> Result http.Response;
  json_Marshal : list (string * string) -> Result string;
  Decode_ConversationsResponse : string -> Result ConversationsResponse;
  Decode_MessagesResponse : string -> Result MessagesResponse;
  Decode_response : string -> Result response;
  Format : string -> time.Time -> string
}.

Record Client : Type := mkClient {
  baseURL : string;
  token : string;
  Timeout : Z
}.

Definition NewClient (baseURL token : string) : Client :=
  mkClient baseURL token (30 * 1000000000).

Section methods.

Context (net : Net) (c : Client).

(** [http.NewRequest(method, url, body)] with the method GET or POST: it
    fails when the URL does not parse. *)
Definition NewRequest (method url : string) (body : option string) : Result http.Request :=
  match url_Parse net url with
  | Some e => Fail e
  | None => Ok (http.mkRequest method url ∅ body)
  end.

(** Each method returns the requests it handed to [httpClient.Do] along
    with its result. *)
Definition GetConversations : list http.Request * Result (list hostexapi.Conversation) :=
  match NewRequest "GET" (baseURL c +:+ "/conversations") None with
  | Fail e => ([], Fail e)
  | Ok req =>
  let req := http.Header_Set "Hostex-Access-Token" (token c) req in
  let req := http.Header_Set "User-Agent" "HostexBridge/1.0" req in
  match Do net req with
  | Fail e => ([req], Fail e)
  | Ok resp =>
  if decide (http.StatusCode resp <> http.StatusOK)
  then ([req], Fail (ErrRemote ("API request failed with status code: "
                                +:+ pretty (http.StatusCode resp))))
  else
  match Decode_ConversationsResponse net (http.Body resp) with
  | Fail e => ([req], Fail e)
  | Ok conversationsResp =>
  if decide (Conversations_ErrorCode conversationsResp <> 200)
  then ([req], Fail (ErrRemote ("API error: " +:+ Conversations_ErrorMsg conversationsResp)))
  else ([req], Ok (Data_Conversations conversationsResp))
  end end end.

Definition GetMessages (conversationID : string) (since : time.Time) (limit : Z)
    : list http.Request * Result (list hostexapi.Message) :=
  let url := baseURL c +:+ "/conversations/" +:+ conversationID +:+ "/messages?since="
             +:+ Format net RFC3339 since +:+ "&limit=" +:+ pretty limit in
  match NewRequest "GET" url None with
  | Fail e => ([], Fail e)
  | Ok req =>
  let req := http.Header_Set "Hostex-Access-Token" (token c) req in
  let req := http.Header_Set "User-Agent" "HostexBridge/1.0" req in
  match Do net req with
  | Fail e => ([req], Fail e)
  | Ok resp =>
  if decide (http.StatusCode resp <> http.StatusOK)
  then ([req], Fail (ErrRemote ("API request failed with status code: "
                                +:+ pretty (http.StatusCode resp))))
  else
  match Decode_MessagesResponse net (http.Body resp) with
  | Fail e => ([req], Fail e)
  | Ok messagesResp =>
  if decide (Messages_ErrorCode messagesResp <> 200)
  then ([req], Fail (ErrRemote ("API error: " +:+ Messages_ErrorMsg messagesResp)))
  else ([req], Ok (Data_Messages messagesResp))
  end end end.

Definition SendMessage (conversationID content : string) : list http.Request * error :=
  let url := baseURL c +:+ "/conversations/" +:+ conversationID +:+ "/messages" in
  let payload := [("message", content)] in
  match json_Marshal net payload with
  | Fail e => ([], Some e)
  | Ok jsonPayload =>
  match NewRequest "POST" url (Some jsonPayload) with
  | Fail e => ([], Some e)
  | Ok req =>
  let req := http.Header_Set "Hostex-Access-Token" (token c) req in
  let req := http.Header_Set "User-Agent" "HostexBridge/1.0" req in
  let req := http.Header_Set "Content-Type" "application/json" req in
  match Do net req with
  | Fail e => ([req], Some e)
  | Ok resp =>
  if decide (http.StatusCode resp <> http.StatusOK)
  then ([req], Some (ErrRemote ("API request failed with status code: "
                                +:+ pretty (http.StatusCode resp))))
  else
  match Decode_response net (http.Body resp) with
  | Fail e => ([req], Some e)
  | Ok response =>
  if decide (ErrorCode response <> 200)
  then ([req], Some (ErrRemote ("API error: " +:+ ErrorMsg response)))
  else ([req], None)
  end end end end.

End methods.

End Client.

(** The bridge wired to this client, as [main] does: what Hostex answers
    is what the client makes of the network at that moment. *)
Definition with_Client (net : list Effect -> Client.Net) (c : Client.Client) (e : Env) : Env :=
  mkEnv (matrix_CreateRoom e) (matrix_SendMessageEvent e) (matrix_SendStateEvent e)
        (fun tr => (Client.GetConversations (net tr) c).2)
        (fun tr conversationID since limit =>
           (Client.GetMessages (net tr) c conversationID since limit).2)
        (fun tr conversationID content =>
           (Client.SendMessage (net tr) c conversationID content).2)
        (sql_fault e) (time_Now e) (time_LoadLocation e) (time_Format e)
        (strings_Fields e) (strings_ToLower e) (matrix_JoinedRooms e) (matrix_StateEvent e).

(** ** config: loading the configuration (second part of
    database/database.go) *)

Definition time_Second : Z := 1000000000.

Section config_Load.

(** The file system and the YAML decoder. *)
Context (ioutil_ReadFile : string -> Result string)
        (yaml_Unmarshal : string -> Result config.Config).

Definition Load (path : string) : Result config.Config :=
  match ioutil_ReadFile path with
  | Fail e => Fail e
  | Ok data =>
  match yaml_Unmarshal data with
  | Fail e => Fail e
  | Ok cfg =>
  (* Set defaults *)
  let cfg := if decide (config.Timezone cfg = "")
             then config.mkConfig (config.Homeserver_Domain cfg) (config.User_UserID cfg)
                    (config.Admin_UserID cfg) "America/Los_Angeles"
                    (config.PollInterval cfg) (config.PersonalSpaceEnable cfg)
             else cfg in
  let cfg := if decide (config.PollInterval cfg = 0)
             then config.mkConfig (config.Homeserver_Domain cfg) (config.User_UserID cfg)
                    (config.Admin_UserID cfg) (config.Timezone cfg)
                    (10 * time_Second) (config.PersonalSpaceEnable cfg)
             else cfg in
  Ok cfg
  end end.

End config_Load.

(** ** The poll loop *)

(** Which case of the [select] of [startPolling] fires. *)
Inductive Select : Type :=
| stop
| ticker_C.

#[global] Instance Select_eq_dec : EqDecision Select.
Proof. solve_decision. Defined.

(** How a goroutine ends: it returns, it waits for ever, or it panics. *)
Inductive Exit : Type :=
| Returned
| Blocked
| Panicked (msg : string).

Section polling_loop.

Context (env : Env).
Local Open Scope go_scope.

Fixpoint startPolling_loop (fired : list Select) : M Exit :=
  match fired with
  | [] => ret Blocked
  | stop :: _ => ret Returned
  | ticker_C :: rest => pollHostex env ;; startPolling_loop rest
  end.

(** [time.NewTicker] panics unless the interval is positive. *)
Definition startPolling (fired : list Select) : M Exit :=
  b <- get ;;
  if decide (config.PollInterval (Config b) <= 0)
  then ret (Panicked "non-positive interval for NewTicker")
  else startPolling_loop fired.

End polling_loop.

(** The ticks a loop gets to see: those before the stop. *)
Fixpoint ticks_before_stop (fired : list Select) : nat :=
  match fired with
  | ticker_C :: rest => S (ticks_before_stop rest)
  | _ => O
  end.

Module demo_backfill.

(** Hostex lists conversation c1 and has one message to fetch. *)
Definition env : Env :=
  mkEnv (matrix_CreateRoom demo.env_ok) (matrix_SendMessageEvent demo.env_ok)
        (matrix_SendStateEvent demo.env_ok) (fun _ => Ok [demo.alice])
        (fun _ _ _ _ => Ok [demo.m1]) (hostex_SendMessage demo.env_ok)
        (sql_fault demo.env_ok) (time_Now demo.env_ok)
        (time_LoadLocation demo.env_ok) (time_Format demo.env_ok)
        (strings_Fields demo.env_ok) (strings_ToLower demo.env_ok)
        (matrix_JoinedRooms demo.env_ok) (matrix_StateEvent demo.env_ok).

(** The bridge after its first poll, with one earlier message of c1 in
    the store. *)
Definition polled : Bridge :=
  set_DB (database.StoreMessage (DB demo.polled) "c1" "$e1"
            (time.mkTime 1600000000 0 time.UTC) "Alice" "earlier").1 demo.polled.

End demo_backfill.

Module demo_joined.

(** The bot has joined three rooms; the second one is the control room
    of an earlier run. *)
Definition env : Env :=
  mkEnv (matrix_CreateRoom demo.env_ok) (matrix_SendMessageEvent demo.env_ok)
        (matrix_SendStateEvent demo.env_ok) (hostex_GetConversations demo.env_ok)
        (hostex_GetMessages demo.env_ok) (hostex_SendMessage demo.env_ok)
        (sql_fault demo.env_ok) (time_Now demo.env_ok)
        (time_LoadLocation demo.env_ok) (time_Format demo.env_ok)
        (strings_Fields demo.env_ok) (strings_ToLower demo.env_ok)
        (fun _ => Ok ["!lobby:hs.example"; "!old:hs.example"; "!other:hs.example"])
        (fun _ roomID _ _ =>
           if decide (roomID = "!old:hs.example")
           then Ok "Hostex Bridge Management" else Ok "Lobby").

End demo_joined.

Module demo_net.

Definition client : Client.Client :=
  Client.NewClient "https://api.hostex.example/v3" "secret-token".

(** A network on which every request is answered with the given status
    and a body that decodes to the given error code and message, with no
    data. *)
Definition answering (status error_code : Z) (error_msg : string) : Client.Net :=
  Client.mkNet
    (fun _ => None)
    (fun _ => Ok (http.mkResponse status "{...}"))
    (fun payload => Ok "{...}")
    (fun _ => Ok (Client.mkConversationsResponse "req-1" error_code error_msg []))
    (fun _ => Ok (Client.mkMessagesResponse "req-1" error_code error_msg []))
    (fun _ => Ok (Client.mkResponse "req-1" error_code error_msg))
    (fun _ t => pretty (time.sec t)).

End demo_net.

(** * Proofs *)

(** ** Keyed tables *)

Section keyed_tables.

Context {A : Type} (key uniq : A -> string).

Lemma existsb_false_forall (P : A -> bool) (l : list A) :
  existsb P l = false <-> (forall r, In r l -> P r = false).
Proof.
  induction l as [|x l IH]; simpl.
  - split; [intros _ r [] | reflexivity].
  - rewrite orb_false_iff, IH. split.
    + intros [Hx Hl] r [<-|Hr]; auto.
    + intros H; split; [apply H; now left | intros r Hr; apply H; now right].
Qed.

Lemma update_where_cons k f x l :
  database.update_where key k f (x :: l)
  = (if String.eqb (key x) k then f x else x) :: database.update_where key k f l.
Proof. reflexivity. Qed.

Lemma update_where_absent k f l :
  ~ In k (map key l) -> database.update_where key k f l = l.
Proof.
  induction l as [|x l IH]; [reflexivity|].
  rewrite update_where_cons. simpl. intros Hk.
  destruct (String.eqb_spec (key x) k) as [E|E].
  - exfalso. apply Hk. now left.
  - f_equal. apply IH. intros H. apply Hk. now right.
Qed.

Lemma update_where_keys k f l :
  (forall r, key (f r) = k) ->
  map key (database.update_where key k f l) = map key l.
Proof.
  intros Hf. induction l as [|x l IH]; [reflexivity|].
  rewrite update_where_cons. simpl. rewrite IH. f_equal.
  destruct (String.eqb_spec (key x) k) as [E|E]; [now rewrite Hf | reflexivity].
Qed.

Lemma update_where_uniq k v f l :
  (forall r, uniq (f r) = v) ->
  NoDup (map key l) -> NoDup (map uniq l) ->
  (forall r, In r l -> key r <> k -> uniq r <> v) ->
  NoDup (map uniq (database.update_where key k f l)).
Proof.
  intros Hf. induction l as [|x l IH]; [intros; constructor|].
  rewrite update_where_cons. simpl. intros Hk Hu Hv.
  apply NoDup_cons in Hk as [Hkx Hk]. apply NoDup_cons in Hu as [Hux Hu].
  rewrite list_elem_of_In in Hkx, Hux.
  destruct (String.eqb_spec (key x) k) as [E|E].
  - subst k. rewrite update_where_absent by assumption.
    apply NoDup_cons. split; [|assumption].
    rewrite Hf, list_elem_of_In. intros Hin.
    apply in_map_iff in Hin as (r & Hr & Hin).
    apply (Hv r); [now right | | assumption].
    intros Heq. apply Hkx. rewrite <- Heq. now apply in_map.
  - apply NoDup_cons. split.
    + rewrite list_elem_of_In. intros Hin.
      apply in_map_iff in Hin as (r' & Hr' & Hin).
      apply in_map_iff in Hin as (r & Hr & Hin). subst r'.
      destruct (String.eqb_spec (key r) k) as [E'|E'].
      * rewrite Hf in Hr'. apply (Hv x); [now left | assumption | now symmetry].
      * apply Hux. rewrite <- Hr'. now apply in_map.
    + apply IH; [assumption | assumption |].
      intros r Hr. apply Hv. now right.
Qed.

Lemma filter_key_absent k l :
  ~ In k (map key l) -> List.filter (fun r => String.eqb (key r) k) l = [].
Proof.
  induction l as [|x l IH]; simpl; [reflexivity|].
  intros Hk. destruct (String.eqb_spec (key x) k) as [E|E].
  - exfalso. apply Hk. now left.
  - apply IH. intros H. apply Hk. now right.
Qed.

Lemma filter_key_le_1 k l :
  NoDup (map key l) ->
  (length (List.filter (fun r => String.eqb (key r) k) l) <= 1)%nat.
Proof.
  induction l as [|x l IH]; simpl; intros Hk; [lia|].
  apply NoDup_cons in Hk as [Hkx Hk]. rewrite list_elem_of_In in Hkx.
  destruct (String.eqb_spec (key x) k) as [E|E].
  - subst k. rewrite filter_key_absent by assumption. simpl. lia.
  - now apply IH.
Qed.

Lemma filter_key_update_where k f l :
  (forall r, key (f r) = k) ->
  NoDup (map key l) -> In k (map key l) ->
  exists r, In r l /\ key r = k /\
    List.filter (fun r => String.eqb (key r) k) (database.update_where key k f l) = [f r].
Proof.
  intros Hf. induction l as [|x l IH]; [intros _ []|].
  rewrite update_where_cons. simpl. intros Hk Hin.
  apply NoDup_cons in Hk as [Hkx Hk]. rewrite list_elem_of_In in Hkx.
  destruct (String.eqb_spec (key x) k) as [E|E].
  - exists x. split; [now left|]. split; [assumption|].
    subst k. rewrite Hf, String.eqb_refl.
    rewrite update_where_absent by assumption.
    now rewrite filter_key_absent.
  - destruct Hin as [Hin|Hin]; [contradiction|].
    destruct (IH Hk Hin) as (r & Hr & Hkr & Hfil).
    exists r. split; [now right|]. split; [assumption|].
    destruct (String.eqb_spec (key x) k); [contradiction | exact Hfil].
Qed.

Lemma filter_key_app_new k l x :
  ~ In k (map key l) -> key x = k ->
  List.filter (fun r => String.eqb (key r) k) (l ++ [x]) = [x].
Proof.
  intros Hk Hx. rewrite List.filter_app, filter_key_absent by assumption.
  simpl. now rewrite Hx, String.eqb_refl.
Qed.

Lemma NoDup_map_snoc (g : A -> string) l x :
  NoDup (map g l) -> ~ In (g x) (map g l) -> NoDup (map g (l ++ [x])).
Proof.
  intros Hl Hx. rewrite map_app. simpl.
  apply NoDup_app; repeat split.
  - assumption.
  - intros y Hy Hy'. apply list_elem_of_In in Hy, Hy'.
    destruct Hy' as [<-|[]]. contradiction.
  - apply NoDup_singleton.
Qed.

Lemma NoDup_map_In_inj (g : A -> string) l x y :
  NoDup (map g l) -> In x l -> In y l -> g x = g y -> x = y.
Proof.
  induction l as [|z l IH]; simpl; [intros _ []|].
  intros Hn Hx Hy E. apply NoDup_cons in Hn as [Hz Hn]. rewrite list_elem_of_In in Hz.
  destruct Hx as [->|Hx], Hy as [->|Hy]; auto.
  - exfalso. apply Hz. rewrite E. now apply in_map.
  - exfalso. apply Hz. rewrite <- E. now apply in_map.
Qed.

(** Whether some row has key [k], as the statement tests it. *)
Lemma existsb_key k l :
  existsb (fun r => String.eqb (key r) k) l = true <-> In k (map key l).
Proof.
  rewrite existsb_exists, in_map_iff. split.
  - intros (r & Hr & E). apply String.eqb_eq in E. eauto.
  - intros (r & E & Hr). exists r. split; [assumption|]. now apply String.eqb_eq.
Qed.

(** No other row holds the unique value [v]. *)
Lemma existsb_other k v l :
  existsb (fun r => negb (String.eqb (key r) k) && String.eqb (uniq r) v) l = false
  <-> (forall r, In r l -> key r <> k -> uniq r <> v).
Proof.
  rewrite existsb_false_forall. split; intros H r Hr.
  - intros Hk Hv. specialize (H r Hr).
    apply String.eqb_neq in Hk. apply String.eqb_eq in Hv.
    rewrite Hk, Hv in H. discriminate.
  - destruct (String.eqb_spec (key r) k) as [E|E]; [reflexivity|]. simpl.
    apply String.eqb_neq. now apply H.
Qed.

End keyed_tables.

(** ** The store: upserts, plain inserts, no deletes *)

Section database_facts.

Import database.

Lemma constraints_one_row_per_key d : constraints d -> one_row_per_key d.
Proof.
  intros [Hp _ Hm Hu _]. repeat split.
  - intros h. now apply filter_key_le_1.
  - intros h e. unfold message_rows.
    pose proof (filter_key_le_1 message_matrix_event_id e (message d) Hm) as H.
    etransitivity; [|exact H]. clear.
    induction (message d) as [|x l IH]; simpl; [lia|].
    destruct (String.eqb (message_hostex_id x) h), (String.eqb (message_matrix_event_id x) e);
      simpl; lia.
  - intros m. now apply filter_key_le_1.
Qed.

Lemma no_row_deleted_refl d : no_row_deleted d d.
Proof. repeat split; reflexivity. Qed.

(** **** StorePortal *)

Lemma StorePortal_constraints d h r n t a e :
  constraints d -> constraints (StorePortal d h r n t a e).1.
Proof.
  intros [Hp Hr Hm Hu Hv]. unfold StorePortal.
  destruct (existsb _ (portal d)) eqn:Hother; [now split|].
  rewrite existsb_other in Hother.
  destruct (existsb _ (portal d)) eqn:Hkey; split; simpl; try assumption.
  - now rewrite update_where_keys.
  - now apply (update_where_uniq portal_hostex_id portal_matrix_room_id h r).
  - apply NoDup_map_snoc; [assumption|]. simpl.
    intros Hin. apply (existsb_key portal_hostex_id) in Hin. congruence.
  - apply NoDup_map_snoc; [assumption|]. simpl.
    intros Hin. apply in_map_iff in Hin as (row & E & Hin).
    apply (Hother row); [assumption | | assumption].
    intros Hk. apply not_true_iff_false in Hkey. apply Hkey.
    apply existsb_key. rewrite <- Hk. now apply in_map.
Qed.

Lemma StorePortal_no_row_deleted d h r n t a e :
  no_row_deleted d (StorePortal d h r n t a e).1.
Proof.
  unfold StorePortal.
  destruct (existsb _ (portal d)); [apply no_row_deleted_refl|].
  destruct (existsb _ (portal d)); repeat split; simpl; try reflexivity.
  - now rewrite update_where_keys.
  - rewrite map_app. now apply prefix_app_r.
Qed.

Lemma StorePortal_present d h r n t a e d1 :
  StorePortal d h r n t a e = (d1, None) -> In h (map portal_hostex_id (portal d1)).
Proof.
  unfold StorePortal.
  destruct (existsb _ (portal d)); [discriminate|].
  destruct (existsb _ (portal d)) eqn:Hkey; intros [= <-]; simpl.
  - rewrite update_where_keys by reflexivity. now apply existsb_key.
  - rewrite map_app. apply in_or_app. right. now left.
Qed.

(** A second write under a key that is there: it succeeds when no other
    row holds the room id, and the row carries the new values. *)
Lemma StorePortal_overwrite d h r n t a e :
  constraints d -> In h (map portal_hostex_id (portal d)) ->
  (forall row, In row (portal d) -> portal_hostex_id row <> h -> portal_matrix_room_id row <> r) ->
  exists d' ts,
    StorePortal d h r n t a e = (d', None) /\
    portal_rows d' h = [mkPortalRow h r n t a e ts].
Proof.
  intros [Hp _ _ _ _] Hin Hother. unfold StorePortal.
  apply existsb_other in Hother. rewrite Hother.
  apply existsb_key in Hin as Hkey. rewrite Hkey.
  destruct (filter_key_update_where portal_hostex_id h
              (fun row => mkPortalRow h r n t a e (portal_last_message_timestamp row))
              (portal d)) as (row & _ & _ & Hfil); [reflexivity | assumption | assumption |].
  eexists _, (portal_last_message_timestamp row). split; [reflexivity|]. exact Hfil.
Qed.

Lemma update_where_same {A} (key : A -> string) k f (l : list A) :
  (forall x, In x l -> key x = k -> f x = x) -> update_where key k f l = l.
Proof.
  induction l as [|x l IH]; [reflexivity|]. intros H.
  rewrite update_where_cons. f_equal.
  - destruct (String.eqb_spec (key x) k); [apply H; [now left | assumption] | reflexivity].
  - apply IH. intros y Hy. apply H. now right.
Qed.

Lemma StorePortal_rows d h r n t a e d1 :
  constraints d -> StorePortal d h r n t a e = (d1, None) ->
  exists ts, portal_rows d1 h = [mkPortalRow h r n t a e ts].
Proof.
  intros [Hp _ _ _ _]. unfold StorePortal.
  destruct (existsb _ (portal d)); [discriminate|].
  destruct (existsb _ (portal d)) eqn:Hkey; intros [= <-]; unfold portal_rows; simpl.
  - apply existsb_key in Hkey.
    destruct (filter_key_update_where portal_hostex_id h
                (fun row => mkPortalRow h r n t a e (portal_last_message_timestamp row))
                (portal d)) as (row & _ & _ & Hfil); [reflexivity | assumption | assumption |].
    eauto.
  - exists None. apply filter_key_app_new; [|reflexivity].
    intros Hin. apply (existsb_key portal_hostex_id) in Hin. congruence.
Qed.

(** The same write twice: the second one succeeds and changes nothing. *)
Lemma StorePortal_again d h r n t a e d1 :
  constraints d -> StorePortal d h r n t a e = (d1, None) ->
  StorePortal d1 h r n t a e = (d1, None).
Proof.
  intros Hc H1.
  pose proof (StorePortal_constraints d h r n t a e Hc) as Hc1. rewrite H1 in Hc1. simpl in Hc1.
  pose proof (StorePortal_present _ _ _ _ _ _ _ _ H1) as Hin.
  destruct (StorePortal_rows _ _ _ _ _ _ _ _ Hc H1) as [ts Hrows].
  assert (Hrow : forall row, In row (portal d1) -> portal_hostex_id row = h ->
                   row = mkPortalRow h r n t a e ts).
  { intros row Hr Hk.
    assert (In row (portal_rows d1 h)) as Hf.
    { apply filter_In. split; [assumption|]. now apply String.eqb_eq. }
    rewrite Hrows in Hf. destruct Hf as [<-|[]]. reflexivity. }
  unfold StorePortal.
  assert (Hother : existsb (fun r0 => negb (String.eqb (portal_hostex_id r0) h)
                      && String.eqb (portal_matrix_room_id r0) r) (portal d1) = false).
  { apply existsb_other. intros row Hr Hk Hv.
    apply in_map_iff in Hin as (row0 & Hk0 & Hr0).
    pose proof (Hrow row0 Hr0 Hk0) as E0.
    destruct Hc1 as [_ Hu _ _ _].
    assert (row = row0).
    { apply (NoDup_map_In_inj portal_matrix_room_id (portal d1)); try assumption.
      rewrite Hv, E0. reflexivity. }
    subst row0. congruence. }
  rewrite Hother. apply existsb_key in Hin. rewrite Hin.
  rewrite update_where_same.
  - now destruct d1.
  - intros row Hr Hk. rewrite (Hrow row Hr Hk). reflexivity.
Qed.

(** **** StoreUser *)

Lemma StoreUser_constraints d m h :
  constraints d -> constraints (StoreUser d m h).1.
Proof.
  intros [Hp Hr Hm Hu Hv]. unfold StoreUser.
  destruct (existsb _ (user d)) eqn:Hother; [now split|].
  rewrite existsb_other in Hother.
  destruct (existsb _ (user d)) eqn:Hkey; split; simpl; try assumption.
  - now rewrite update_where_keys.
  - now apply (update_where_uniq user_mxid user_hostex_id m h).
  - apply NoDup_map_snoc; [assumption|]. simpl.
    intros Hin. apply (existsb_key user_mxid) in Hin. congruence.
  - apply NoDup_map_snoc; [assumption|]. simpl.
    intros Hin. apply in_map_iff in Hin as (row & E & Hin).
    apply (Hother row); [assumption | | assumption].
    intros Hk. apply not_true_iff_false in Hkey. apply Hkey.
    apply existsb_key. rewrite <- Hk. now apply in_map.
Qed.

Lemma StoreUser_no_row_deleted d m h :
  no_row_deleted d (StoreUser d m h).1.
Proof.
  unfold StoreUser.
  destruct (existsb _ (user d)); [apply no_row_deleted_refl|].
  destruct (existsb _ (user d)); repeat split; simpl; try reflexivity.
  - now rewrite update_where_keys.
  - rewrite map_app. now apply prefix_app_r.
Qed.

Lemma StoreUser_present d m h d1 :
  StoreUser d m h = (d1, None) -> In m (map user_mxid (user d1)).
Proof.
  unfold StoreUser.
  destruct (existsb _ (user d)); [discriminate|].
  destruct (existsb _ (user d)) eqn:Hkey; intros [= <-]; simpl.
  - rewrite update_where_keys by reflexivity. now apply existsb_key.
  - rewrite map_app. apply in_or_app. right. now left.
Qed.

Lemma StoreUser_overwrite d m h :
  constraints d -> In m (map user_mxid (user d)) ->
  (forall row, In row (user d) -> user_mxid row <> m -> user_hostex_id row <> h) ->
  exists d',
    StoreUser d m h = (d', None) /\ user_rows d' m = [mkUserRow m h].
Proof.
  intros [_ _ _ Hp _] Hin Hother. unfold StoreUser.
  apply existsb_other in Hother. rewrite Hother.
  apply existsb_key in Hin as Hkey. rewrite Hkey.
  destruct (filter_key_update_where user_mxid m (fun _ => mkUserRow m h) (user d))
    as (row & _ & _ & Hfil); [reflexivity | assumption | assumption |].
  eexists. split; [reflexivity|]. exact Hfil.
Qed.

Lemma StoreUser_rows d m h d1 :
  constraints d -> StoreUser d m h = (d1, None) -> user_rows d1 m = [mkUserRow m h].
Proof.
  intros [_ _ _ Hp _]. unfold StoreUser.
  destruct (existsb _ (user d)); [discriminate|].
  destruct (existsb _ (user d)) eqn:Hkey; intros [= <-]; unfold user_rows; simpl.
  - apply existsb_key in Hkey.
    destruct (filter_key_update_where user_mxid m (fun _ => mkUserRow m h) (user d))
      as (row & _ & _ & Hfil); [reflexivity | assumption | assumption |].
    exact Hfil.
  - apply filter_key_app_new; [|reflexivity].
    intros Hin. apply (existsb_key user_mxid) in Hin. congruence.
Qed.

Lemma StoreUser_again d m h d1 :
  constraints d -> StoreUser d m h = (d1, None) -> StoreUser d1 m h = (d1, None).
Proof.
  intros Hc H1.
  pose proof (StoreUser_constraints d m h Hc) as Hc1. rewrite H1 in Hc1. simpl in Hc1.
  pose proof (StoreUser_present _ _ _ _ H1) as Hin.
  pose proof (StoreUser_rows _ _ _ _ Hc H1) as Hrows.
  assert (Hrow : forall row, In row (user d1) -> user_mxid row = m -> row = mkUserRow m h).
  { intros row Hr Hk.
    assert (In row (user_rows d1 m)) as Hf.
    { apply filter_In. split; [assumption|]. now apply String.eqb_eq. }
    rewrite Hrows in Hf. destruct Hf as [<-|[]]. reflexivity. }
  unfold StoreUser.
  assert (Hother : existsb (fun r0 => negb (String.eqb (user_mxid r0) m)
                      && String.eqb (user_hostex_id r0) h) (user d1) = false).
  { apply existsb_other. intros row Hr Hk Hv.
    apply in_map_iff in Hin as (row0 & Hk0 & Hr0).
    pose proof (Hrow row0 Hr0 Hk0) as E0.
    destruct Hc1 as [_ _ _ _ Hu].
    assert (row = row0).
    { apply (NoDup_map_In_inj user_hostex_id (user d1)); try assumption.
      rewrite Hv, E0. reflexivity. }
    subst row0. congruence. }
  rewrite Hother. apply existsb_key in Hin. rewrite Hin.
  rewrite update_where_same.
  - now destruct d1.
  - intros row Hr Hk. rewrite (Hrow row Hr Hk). reflexivity.
Qed.

(** **** StoreMessage *)

Lemma StoreMessage_constraints d h ev ts s c :
  constraints d -> constraints (StoreMessage d h ev ts s c).1.
Proof.
  intros [Hp Hr Hm Hu Hv]. unfold StoreMessage.
  destruct (existsb _ (message d)) eqn:Hkey; split; simpl; try assumption.
  apply NoDup_map_snoc; [assumption|]. simpl.
  intros Hin. apply (existsb_key message_matrix_event_id) in Hin. congruence.
Qed.

Lemma StoreMessage_no_row_deleted d h ev ts s c :
  no_row_deleted d (StoreMessage d h ev ts s c).1.
Proof.
  unfold StoreMessage.
  destruct (existsb _ (message d)); [apply no_row_deleted_refl|].
  repeat split; simpl; try reflexivity.
  rewrite map_app. now apply prefix_app_r.
Qed.

(** The same key twice: the constraint rejects the second insert, and the
    first row stays as it is. *)
Lemma StoreMessage_again d h ev ts s c d1 :
  StoreMessage d h ev ts s c = (d1, None) ->
  forall ts2 s2 c2,
    StoreMessage d1 h ev ts2 s2 c2 = (d1, Some (ErrConstraint "message")) /\
    message_rows d1 h ev = [mkMessageRow h ev (time.Unix_ ts) s c].
Proof.
  unfold StoreMessage.
  destruct (existsb _ (message d)) eqn:Hkey; [discriminate|].
  intros [= <-] ts2 s2 c2. simpl. split.
  - rewrite existsb_app. simpl. now rewrite String.eqb_refl, orb_true_r.
  - unfold message_rows. simpl. rewrite List.filter_app. simpl.
    rewrite !String.eqb_refl. simpl.
    replace (List.filter _ (message d)) with (@nil MessageRow); [reflexivity|].
    symmetry. rewrite (existsb_false_forall _ (message d)) in Hkey.
    induction (message d) as [|x l IH]; [reflexivity|]. simpl.
    rewrite (Hkey x) by now left. rewrite andb_false_r.
    apply IH. intros r Hr. apply Hkey. now right.
Qed.

End database_facts.

(** C5, as amended. On a store that satisfies the constraints of its schema:
    [StorePortal] and [StoreUser] are upserts on their primary key -- the
    same write a second time succeeds and changes nothing, and a second
    write with other values under the same key succeeds whenever no other
    row holds the new room id (resp. Hostex id), and leaves exactly one row
    under the key, carrying the new values; [StoreMessage] is a plain
    insert -- a second write under the same (conversation, event) key is
    rejected with a constraint error and the first row stays; every write,
    accepted or rejected, keeps the constraints, so at most one row exists
    per primary key, and deletes no row. *)
Theorem store_writes_upsert_or_reject (d : database.Database) :
  database.constraints d ->
  (forall h r n t a e d1,
      database.StorePortal d h r n t a e = (d1, None) ->
      database.StorePortal d1 h r n t a e = (d1, None) /\
      forall r2 n2 t2 a2 e2,
        (forall row, In row (database.portal d1) ->
                     database.portal_hostex_id row <> h ->
                     database.portal_matrix_room_id row <> r2) ->
        exists d2 ts,
          database.StorePortal d1 h r2 n2 t2 a2 e2 = (d2, None) /\
          database.portal_rows d2 h = [database.mkPortalRow h r2 n2 t2 a2 e2 ts]) /\
  (forall m h d1,
      database.StoreUser d m h = (d1, None) ->
      database.StoreUser d1 m h = (d1, None) /\
      forall h2,
        (forall row, In row (database.user d1) ->
                     database.user_mxid row <> m -> database.user_hostex_id row <> h2) ->
        exists d2,
          database.StoreUser d1 m h2 = (d2, None) /\
          database.user_rows d2 m = [database.mkUserRow m h2]) /\
  (forall h ev ts s c d1,
      database.StoreMessage d h ev ts s c = (d1, None) ->
      forall ts2 s2 c2,
        database.StoreMessage d1 h ev ts2 s2 c2 = (d1, Some (ErrConstraint "message")) /\
        database.message_rows d1 h ev = [database.mkMessageRow h ev (time.Unix_ ts) s c]) /\
  (forall h r n t a e,
      let d' := (database.StorePortal d h r n t a e).1 in
      database.constraints d' /\ database.one_row_per_key d' /\ database.no_row_deleted d d') /\
  (forall m h,
      let d' := (database.StoreUser d m h).1 in
      database.constraints d' /\ database.one_row_per_key d' /\ database.no_row_deleted d d') /\
  (forall h ev ts s c,
      let d' := (database.StoreMessage d h ev ts s c).1 in
      database.constraints d' /\ database.one_row_per_key d' /\ database.no_row_deleted d d').
Proof.
  intros Hc. repeat apply conj.
  - intros h r n t a e d1 H1. split; [now apply (StorePortal_again d)|].
    intros r2 n2 t2 a2 e2 Hother.
    apply StorePortal_overwrite; [| now apply (StorePortal_present d h r n t a e) | assumption].
    pose proof (StorePortal_constraints d h r n t a e Hc) as Hc1. now rewrite H1 in Hc1.
  - intros m h d1 H1. split; [now apply (StoreUser_again d)|].
    intros h2 Hother.
    apply StoreUser_overwrite; [| now apply (StoreUser_present d m h) | assumption].
    pose proof (StoreUser_constraints d m h Hc) as Hc1. now rewrite H1 in Hc1.
  - intros h ev ts s c d1 H1. now apply (StoreMessage_again d).
  - intros h r n t a e d'. subst d'.
    pose proof (StorePortal_constraints d h r n t a e Hc) as Hc1.
    auto using constraints_one_row_per_key, StorePortal_no_row_deleted.
  - intros m h d'. subst d'.
    pose proof (StoreUser_constraints d m h Hc) as Hc1.
    auto using constraints_one_row_per_key, StoreUser_no_row_deleted.
  - intros h ev ts s c d'. subst d'.
    pose proof (StoreMessage_constraints d h ev ts s c Hc) as Hc1.
    auto using constraints_one_row_per_key, StoreMessage_no_row_deleted.
Qed.

Lemma createTables_constraints : database.constraints database.createTables.
Proof. split; constructor. Qed.

(** The theorem above on the empty store: a portal row is written twice,
    and its room id then replaced. *)
Lemma store_writes_upsert_or_reject_witness :
  database.constraints database.createTables /\
  forall d1,
    database.StorePortal database.createTables "c1" "!r1:hs.example" "n" "t" "" false = (d1, None) ->
    database.StorePortal d1 "c1" "!r1:hs.example" "n" "t" "" false = (d1, None).
Proof.
  split; [exact createTables_constraints|].
  intros d1 H1.
  exact (proj1 (proj1 (store_writes_upsert_or_reject database.createTables createTables_constraints)
                  "c1" "!r1:hs.example" "n" "t" "" false d1 H1)).
Defined.

(** C5 as stated fails for [StoreMessage]: on the empty store the first
    insert of ("c1", "$e1") succeeds and the second one, with the same key,
    returns a constraint error. *)
Lemma StoreMessage_second_insert_fails :
  let t := time.mkTime 1700000000 0 time.UTC in
  let d1 := (database.StoreMessage database.createTables "c1" "$e1" t "Alice" "hi").1 in
  (database.StoreMessage database.createTables "c1" "$e1" t "Alice" "hi").2 = None /\
  (database.StoreMessage d1 "c1" "$e1" t "Alice" "hi").2 = Some (ErrConstraint "message") /\
  length (database.message_rows d1 "c1" "$e1") = 1%nat.
Proof. vm_compute. repeat split. Qed.

(** An upsert is rejected as well when another row holds the room id. *)
Example StorePortal_room_held_by_other_row :
  let d1 := (database.StorePortal database.createTables "c1" "!r1:hs.example" "" "" "" false).1 in
  let d2 := (database.StorePortal d1 "c2" "!r2:hs.example" "" "" "" false).1 in
  (database.StorePortal d2 "c1" "!r2:hs.example" "" "" "" false).2 = Some (ErrConstraint "portal").
Proof. reflexivity. Qed.

(** ** Running bridge code *)

Ltac unfold_monad :=
  unfold go, Logger_Info, Logger_Warn, Logger_Error,
    MatrixClient_CreateRoom, MatrixClient_SendMessageEvent, MatrixClient_SendStateEvent,
    HostexClient_GetConversations, HostexClient_GetMessages, HostexClient_SendMessage,
    time_Now_, emit, modify, get, bind, ret in *.

Ltac unfold_db :=
  unfold DB_GetPortal, DB_StorePortal, DB_StoreMessage, DB_GetLastMessageTimestamp in *.

Ltac same_bridge :=
  unfold set_trace, set_DB, set_goroutines, set_portalsByID, set_usersByMXID,
    set_lastPollTime; simpl; rewrite <- ?app_assoc; simpl; try reflexivity.

Section replies.

Context (env : Env).

Lemma new_effects_app b b' d :
  trace b' = trace b ++ d -> new_effects b b' = d.
Proof. intros H. unfold new_effects. rewrite H. apply drop_app_length. Qed.

Lemma new_effects_same b : new_effects b b = [].
Proof. apply new_effects_app. now rewrite app_nil_r. Qed.

Lemma matrix_sends_reply tr roomID content complaint :
  matrix_sends (reply_effects env tr roomID content complaint) = [(roomID, content)].
Proof.
  unfold reply_effects. simpl.
  destruct (matrix_SendMessageEvent env tr roomID event.EventMessage content []); reflexivity.
Qed.

Lemma sendHelpMessage_run u roomID b :
  sendHelpMessage env u roomID b
  = (tt, set_trace (trace b ++ reply_effects env (trace b) roomID (notice help_text)
                      "Failed to send help message") b).
Proof.
  unfold sendHelpMessage, reply_effects, notice. unfold_monad. simpl.
  destruct (matrix_SendMessageEvent env (trace b) roomID _ _ _); same_bridge.
Qed.

Lemma sendStatusMessage_run u roomID b :
  sendStatusMessage env u roomID b
  = (tt, set_trace (trace b ++ reply_effects env (trace b) roomID
                      (notice (status_text env b time.zero))
                      "Failed to send status message") b).
Proof.
  unfold sendStatusMessage, reply_effects, notice. unfold_monad. simpl.
  destruct (matrix_SendMessageEvent env (trace b) roomID _ _ _); same_bridge.
Qed.

Lemma listConversations_run u roomID b :
  listConversations env u roomID b
  = (tt, set_trace (trace b ++ reply_effects env (trace b) roomID
                      (notice (conversationList env b))
                      "Failed to send conversation list") b).
Proof.
  unfold listConversations, reply_effects, notice. unfold_monad. simpl.
  destruct (matrix_SendMessageEvent env (trace b) roomID _ _ _); same_bridge.
Qed.

Lemma sendNotice_run u roomID message b :
  sendNotice env u roomID message b
  = (tt, set_trace (trace b ++ reply_effects env (trace b) roomID (notice message)
                      "Failed to send notice") b).
Proof.
  unfold sendNotice, reply_effects, notice. unfold_monad. simpl.
  destruct (matrix_SendMessageEvent env (trace b) roomID _ _ _); same_bridge.
Qed.

Lemma sendUnknownCommandMessage_run u roomID b :
  sendUnknownCommandMessage env u roomID b
  = (tt, set_trace (trace b ++ reply_effects env (trace b) roomID
                      (notice unknown_command_text)
                      "Failed to send unknown command message") b).
Proof.
  unfold sendUnknownCommandMessage, reply_effects, notice. unfold_monad. simpl.
  destruct (matrix_SendMessageEvent env (trace b) roomID _ _ _); same_bridge.
Qed.

Lemma forceSyncConversations_run u roomID b :
  forceSyncConversations env u roomID b
  = (tt, set_goroutines (goroutines b ++ [GoForceSync (MXID u) roomID])
           (set_trace (trace b ++ reply_effects env (trace b) roomID
                         (notice "Forcing sync of conversations from Hostex...")
                         "Failed to send notice") b)).
Proof.
  unfold forceSyncConversations. unfold bind at 1. rewrite sendNotice_run. reflexivity.
Qed.

(** The command switch, on the lower-cased first token. *)
Lemma HandleCommand_dispatch u roomID body part0 args :
  strings_Fields env body = part0 :: args ->
  HandleCommand env u roomID body =
    let command := strings_ToLower env part0 in
    if decide (command = "!help") then sendHelpMessage env u roomID
    else if decide (command = "!status") then sendStatusMessage env u roomID
    else if decide (command = "!list") then listConversations env u roomID
    else if decide (command = "!sync") then forceSyncConversations env u roomID
    else sendUnknownCommandMessage env u roomID.
Proof. intros H. unfold HandleCommand. now rewrite H. Qed.

Lemma handleMatrixMessage_control evt b :
  event.RoomID evt = managementRoom b ->
  handleMatrixMessage env evt b = handleManagementCommand env evt b.
Proof.
  intros Hroom. unfold handleMatrixMessage. unfold_monad.
  destruct (decide _); [reflexivity | contradiction].
Qed.

(** Outside the control room the registry is looked up under the room
    id of the event. *)
Lemma handleMatrixMessage_portal evt b :
  event.RoomID evt <> managementRoom b ->
  handleMatrixMessage env evt b =
    match portalsByID b !! event.RoomID evt with
    | None => (tt, set_trace (trace b ++ [Logger Warn "Received message for unknown portal"
                                 [zap_String "room_id" (event.RoomID evt)]]) b)
    | Some portal => Portal_HandleMatrixMessage env portal evt b
    end.
Proof.
  intros Hroom. unfold handleMatrixMessage. unfold_monad.
  destruct (decide _); [contradiction|].
  destruct (portalsByID b !! event.RoomID evt); reflexivity.
Qed.

Lemma handleManagementCommand_unauthorized evt b :
  event.Sender evt <> config.Admin_UserID (Config b) ->
  handleManagementCommand env evt b
  = (tt, set_trace (trace b ++ [Logger Warn "Unauthorized management command"
                                  [zap_String "sender" (event.Sender evt)]]) b).
Proof.
  intros Hsender. unfold handleManagementCommand. unfold_monad.
  destruct (decide _); [reflexivity | contradiction].
Qed.

(** The admin's command reaches the dispatcher; on the way the sender is
    entered in the registry of users. *)
Lemma handleManagementCommand_admin evt b content :
  event.Sender evt = config.Admin_UserID (Config b) ->
  event.Content evt = event.ParsedMessage content ->
  exists user users,
    handleManagementCommand env evt b
    = HandleCommand env user (event.RoomID evt) (event.Body content)
        (set_usersByMXID users b).
Proof.
  intros Hsender Hcontent. unfold handleManagementCommand. unfold_monad.
  destruct (decide _); [contradiction|]. rewrite Hcontent.
  destruct (usersByMXID b !! event.Sender evt) as [user|].
  - exists user, (usersByMXID b). now destruct b.
  - eexists _, _. reflexivity.
Qed.

End replies.

(** ** ASCII bodies without a token *)

Section blank_bodies.

Import ascii_strings.

Lemma append_char_nonempty cur c : cur +:+ String c EmptyString <> "".
Proof. destruct cur; discriminate. Qed.

Lemma Fields_from_nil cur s :
  Fields_from cur s = [] <-> cur = "" /\ all_space s = true.
Proof.
  revert cur. induction s as [|c s IH]; intros cur; simpl.
  - destruct (decide (cur = "")); split; try tauto; try discriminate.
  - destruct (isSpace c); simpl.
    + destruct (decide (cur = "")) as [->|Hne].
      * rewrite IH. tauto.
      * split; [discriminate | intros [? _]; contradiction].
    + rewrite IH. split; [|intros [_ ?]; discriminate].
      intros [H _]. now apply append_char_nonempty in H.
Qed.

(** A body has no token exactly when it is empty or made of whitespace. *)
Lemma Fields_nil_iff_all_space s : Fields s = [] <-> all_space s = true.
Proof. unfold Fields. rewrite Fields_from_nil. tauto. Qed.

End blank_bodies.

(** C10. A body without any whitespace-delimited token gets no reply:
    [HandleCommand] returns at once -- nothing is sent, logged or started,
    not even the unknown-command notice; and a control-room event of the
    admin with such a body leaves the trace and the goroutines as they
    were. *)
Theorem HandleCommand_no_token_no_reply (env : Env) (u : User) (roomID : id.RoomID)
    (body : string) (b : Bridge) :
  strings_Fields env body = [] ->
  HandleCommand env u roomID body b = (tt, b) /\
  forall evt msgtype,
    event.RoomID evt = managementRoom b ->
    event.Sender evt = config.Admin_UserID (Config b) ->
    event.Content evt = event.ParsedMessage (event.mkMessageEventContent msgtype body) ->
    let b' := (handleMatrixMessage env evt b).2 in
    trace b' = trace b /\ goroutines b' = goroutines b.
Proof.
  intros H. split.
  - unfold HandleCommand. now rewrite H.
  - intros evt msgtype Hroom Hsender Hcontent b'. subst b'.
    rewrite handleMatrixMessage_control by assumption.
    destruct (handleManagementCommand_admin env evt b _ Hsender Hcontent)
      as (user & users & ->).
    unfold HandleCommand. simpl. rewrite H. split; reflexivity.
Qed.

(** The theorem above on a body of two spaces and a tab, with Go's
    [strings.Fields] on ASCII. *)
Lemma HandleCommand_no_token_no_reply_witness :
  ascii_strings.all_space ("  " +:+ String "009"%char EmptyString) = true /\
  HandleCommand demo.env_ok (mkUser "@admin:hs.example") "!mgmt:hs.example"
    ("  " +:+ String "009"%char EmptyString) demo.started
  = (tt, demo.started).
Proof.
  split; [reflexivity|].
  refine (proj1 (HandleCommand_no_token_no_reply demo.env_ok (mkUser "@admin:hs.example")
                   "!mgmt:hs.example" ("  " +:+ String "009"%char EmptyString)
                   demo.started _)).
  reflexivity.
Defined.

(** C8. The dispatcher looks at the lower-cased first whitespace-delimited
    token only: two bodies whose first tokens agree up to case are handled
    alike. That token selects the reply: !help, !status, !list and !sync
    each get their own notice -- the help text, the status, the list of
    conversations, the announcement of the sync together with a goroutine
    that is started -- and a body whose lower-cased first token is none of
    the four gets exactly one message sent, the notice "Unknown command.
    Type !help for a list of available commands.", into the room the
    command came from, and starts nothing. *)
Theorem HandleCommand_keyed_on_first_token (env : Env) (u : User) (roomID : id.RoomID) :
  (forall body1 part1 args1 body2 part2 args2,
     strings_Fields env body1 = part1 :: args1 ->
     strings_Fields env body2 = part2 :: args2 ->
     strings_ToLower env part1 = strings_ToLower env part2 ->
     HandleCommand env u roomID body1 = HandleCommand env u roomID body2) /\
  (forall body part0 args b,
     strings_Fields env body = part0 :: args ->
     let command := strings_ToLower env part0 in
     let b' := (HandleCommand env u roomID body b).2 in
     let sent := matrix_sends (new_effects b b') in
     let reply text := [(roomID, event.mkMessageEventContent event.MsgNotice text)] in
     (command = "!help" ->
        sent = reply ("Available commands:" +:+ nl +:+
                      "!help - Show this help message" +:+ nl +:+
                      "!status - Show bridge status" +:+ nl +:+
                      "!list - List active conversations" +:+ nl +:+
                      "!sync - Force sync conversations from Hostex") /\
        goroutines b' = goroutines b) /\
     (command = "!status" ->
        sent = reply (status_text env b time.zero) /\ goroutines b' = goroutines b) /\
     (command = "!list" ->
        sent = reply (conversationList env b) /\ goroutines b' = goroutines b) /\
     (command = "!sync" ->
        sent = reply "Forcing sync of conversations from Hostex..." /\
        goroutines b' = goroutines b ++ [GoForceSync (MXID u) roomID]) /\
     (~ In command ["!help"; "!status"; "!list"; "!sync"] ->
        sent = reply "Unknown command. Type !help for a list of available commands." /\
        goroutines b' = goroutines b)).
Proof.
  split.
  - intros body1 part1 args1 body2 part2 args2 H1 H2 Hlower.
    rewrite (HandleCommand_dispatch env u roomID body1 part1 args1 H1).
    rewrite (HandleCommand_dispatch env u roomID body2 part2 args2 H2).
    cbv zeta. now rewrite Hlower.
  - intros body part0 args b Hfields command b' sent reply.
    subst sent b' reply command.
    rewrite (HandleCommand_dispatch env u roomID body part0 args Hfields). cbv zeta.
    split_and!.
    + intros E. rewrite E. rewrite decide_True by reflexivity.
      rewrite sendHelpMessage_run. simpl.
      erewrite new_effects_app by reflexivity. rewrite matrix_sends_reply.
      split; reflexivity.
    + intros E. rewrite E. rewrite decide_False by discriminate.
      rewrite decide_True by reflexivity.
      rewrite sendStatusMessage_run. simpl.
      erewrite new_effects_app by reflexivity. rewrite matrix_sends_reply.
      split; reflexivity.
    + intros E. rewrite E. rewrite !decide_False by discriminate.
      rewrite decide_True by reflexivity.
      rewrite listConversations_run. simpl.
      erewrite new_effects_app by reflexivity. rewrite matrix_sends_reply.
      split; reflexivity.
    + intros E. rewrite E. rewrite !decide_False by discriminate.
      rewrite decide_True by reflexivity.
      rewrite forceSyncConversations_run. simpl.
      erewrite new_effects_app by reflexivity. rewrite matrix_sends_reply.
      split; reflexivity.
    + intros Hunknown.
      repeat (destruct (decide _) as [E|_];
              [exfalso; apply Hunknown; rewrite E; simpl; tauto|]).
      rewrite sendUnknownCommandMessage_run. simpl.
      erewrite new_effects_app by reflexivity. rewrite matrix_sends_reply.
      split; reflexivity.
Qed.

(** The theorem above on the body "  !FooBar now", which gets the
    unknown-command notice, and on "!HELP me", which gets the help text. *)
Lemma HandleCommand_keyed_on_first_token_witness :
  strings_Fields demo.env_ok "  !FooBar now" = ["!FooBar"; "now"] /\
  strings_ToLower demo.env_ok "!FooBar" = "!foobar" /\
  matrix_sends (new_effects demo.started
                  (HandleCommand demo.env_ok (mkUser "@admin:hs.example")
                     "!mgmt:hs.example" "  !FooBar now" demo.started).2)
  = [("!mgmt:hs.example",
      event.mkMessageEventContent event.MsgNotice
        "Unknown command. Type !help for a list of available commands.")] /\
  matrix_sends (new_effects demo.started
                  (HandleCommand demo.env_ok (mkUser "@admin:hs.example")
                     "!mgmt:hs.example" "!HELP me" demo.started).2)
  = [("!mgmt:hs.example", notice help_text)].
Proof.
  split; [reflexivity|]. split; [reflexivity|]. split.
  - refine (proj1 (proj2 (proj2 (proj2 (proj2
             (proj2 (HandleCommand_keyed_on_first_token demo.env_ok
                       (mkUser "@admin:hs.example") "!mgmt:hs.example")
                "  !FooBar now" "!FooBar" ["now"] demo.started _)))) _)).
    + reflexivity.
    + vm_compute. intuition discriminate.
  - refine (proj1 (proj1
             (proj2 (HandleCommand_keyed_on_first_token demo.env_ok
                       (mkUser "@admin:hs.example") "!mgmt:hs.example")
                "!HELP me" "!HELP" ["me"] demo.started _) _)).
    + reflexivity.
    + reflexivity.
Defined.

(** Case does not matter, and neither does what follows the first token. *)
Example HandleCommand_help_any_case :
  HandleCommand demo.env_ok (mkUser "@admin:hs.example") "!mgmt:hs.example" "!HELP"
  = HandleCommand demo.env_ok (mkUser "@admin:hs.example") "!mgmt:hs.example" " !help me".
Proof. reflexivity. Qed.

(** ** The trace only grows *)

Section monotone.

Context (env : Env).

Lemma extends_refl b : extends b b.
Proof. exists []. now rewrite app_nil_r. Qed.

Lemma extends_trans b1 b2 b3 : extends b1 b2 -> extends b2 b3 -> extends b1 b3.
Proof. intros [d1 H1] [d2 H2]. exists (d1 ++ d2). now rewrite H2, H1, app_assoc. Qed.

Lemma new_effects_extends b b' : extends b b' -> trace b' = trace b ++ new_effects b b'.
Proof. intros [d H]. now rewrite (new_effects_app b b' d H). Qed.

Lemma new_effects_trans b1 b2 b3 :
  extends b1 b2 -> extends b2 b3 ->
  new_effects b1 b3 = new_effects b1 b2 ++ new_effects b2 b3.
Proof.
  intros H12 H23. apply new_effects_app.
  rewrite (new_effects_extends _ _ H23), (new_effects_extends _ _ H12).
  now rewrite app_assoc.
Qed.

Lemma monotone_ret {A} (a : A) : monotone (ret a).
Proof. intros b. apply extends_refl. Qed.

Lemma monotone_bind {A B} (m : M A) (k : A -> M B) :
  monotone m -> (forall a, monotone (k a)) -> monotone (bind m k).
Proof.
  intros Hm Hk b. unfold bind. specialize (Hm b).
  destruct (m b) as [a b1]. eapply extends_trans; [exact Hm | apply Hk].
Qed.

Lemma monotone_get : monotone get.
Proof. intros b. apply extends_refl. Qed.

Lemma monotone_modify (f : Bridge -> Bridge) :
  (forall b, trace (f b) = trace b) -> monotone (modify f).
Proof. intros H b. simpl. exists []. now rewrite H, app_nil_r. Qed.

Lemma monotone_emit e : monotone (emit e).
Proof. intros b. now exists [e]. Qed.

Lemma monotone_forM_ {A} (l : list A) (body : A -> M unit) :
  (forall x, monotone (body x)) -> monotone (forM_ l body).
Proof.
  intros H. induction l as [|x l IH]; simpl.
  - apply monotone_ret.
  - apply monotone_bind; [apply H | intros _; exact IH].
Qed.

Ltac mono :=
  repeat first
    [ apply monotone_ret
    | apply monotone_get
    | apply monotone_emit
    | apply monotone_modify; intros; reflexivity
    | apply monotone_bind; [|intros]
    | apply monotone_forM_; intros
    | match goal with
      | |- monotone (match ?x with _ => _ end) => destruct x
      | |- monotone (let '(_, _) := ?x in _) => destruct x
      end ].

Lemma monotone_DB_StorePortal h r n t a e : monotone (DB_StorePortal env h r n t a e).
Proof.
  unfold DB_StorePortal. apply monotone_bind; [mono|]. intros b.
  destruct (sql_fault env (trace b)); [mono|].
  destruct (database.StorePortal _ _ _ _ _ _ _). mono.
Qed.

Lemma monotone_DB_StoreMessage h ev ts s c : monotone (DB_StoreMessage env h ev ts s c).
Proof.
  unfold DB_StoreMessage. apply monotone_bind; [mono|]. intros b.
  destruct (sql_fault env (trace b)); [mono|].
  destruct (database.StoreMessage _ _ _ _ _ _). mono.
Qed.

Lemma monotone_DB_GetPortal h : monotone (DB_GetPortal env h).
Proof. unfold DB_GetPortal. mono. Qed.

Lemma monotone_DB_GetLastMessageTimestamp h : monotone (DB_GetLastMessageTimestamp env h).
Proof. unfold DB_GetLastMessageTimestamp. mono. Qed.

Lemma monotone_CreateMatrixRoom p : monotone (CreateMatrixRoom env p).
Proof.
  unfold CreateMatrixRoom, addToPersonalSpace, MatrixClient_CreateRoom,
    MatrixClient_SendStateEvent, Logger_Info, Logger_Error.
  destruct (decide _); [mono|].
  apply monotone_bind; [apply monotone_DB_GetPortal|]. intros [r [e|]]; [mono|].
  destruct (decide _); [mono|].
  apply monotone_bind; [mono|]. intros [roomID|e]; [|mono].
  apply monotone_bind; [mono|]. intros _.
  apply monotone_bind; [apply monotone_DB_StorePortal|]. intros [e|]; [mono|].
  apply monotone_bind; [mono|]. intros b.
  destruct (config.PersonalSpaceEnable (Config b)); mono.
Qed.

Lemma monotone_Portal_SendMessage p msg : monotone (Portal_SendMessage env p msg).
Proof.
  unfold Portal_SendMessage, MatrixClient_SendMessageEvent, Logger_Error.
  apply monotone_bind; [mono|]. intros b.
  apply monotone_bind; [destruct (time_LoadLocation env _); mono|]. intros loc.
  apply monotone_bind; [mono|]. intros [eventID|e]; [|mono].
  apply monotone_bind; [apply monotone_DB_StoreMessage|]. intros [e|]; mono.
Qed.

Lemma monotone_BackfillMessages p : monotone (BackfillMessages env p).
Proof.
  unfold BackfillMessages, HostexClient_GetMessages, Logger_Error.
  apply monotone_bind; [apply monotone_DB_GetLastMessageTimestamp|].
  intros [ts [e|]]; [mono|].
  apply monotone_bind; [mono|]. intros [messages|e]; [|mono].
  apply monotone_bind; [|mono].
  apply monotone_forM_. intros msg.
  apply monotone_bind; [apply monotone_Portal_SendMessage|]. intros [e|]; mono.
Qed.

Lemma monotone_handleHostexConversation conv : monotone (handleHostexConversation env conv).
Proof.
  unfold handleHostexConversation, Logger_Error.
  apply monotone_bind; [mono|]. intros b.
  apply monotone_bind; [destruct (portalsByID b !! _); mono|]. intros portal.
  apply monotone_bind; [mono|]. intros _.
  apply monotone_bind; [apply monotone_CreateMatrixRoom|]. intros [portal' err].
  apply monotone_bind; [mono|]. intros _.
  destruct err; [mono|].
  apply monotone_bind; [apply monotone_BackfillMessages|]. intros [e|]; mono.
Qed.

Lemma monotone_pollHostex : monotone (pollHostex env).
Proof.
  unfold pollHostex, time_Now_, HostexClient_GetConversations, Logger_Error.
  apply monotone_bind; [mono|]. intros now.
  apply monotone_bind; [mono|]. intros _.
  apply monotone_bind; [mono|]. intros [conversations|e]; [|mono].
  apply monotone_forM_. intros conv. apply monotone_handleHostexConversation.
Qed.

(** The goroutine of [!sync]: the poll, then one more notice. *)
Lemma run_goroutine_effects mxid roomID b1 :
  new_effects b1 (run_goroutine env (GoForceSync mxid roomID) b1).2
  = new_effects b1 (pollHostex env b1).2
    ++ reply_effects env (trace (pollHostex env b1).2) roomID
         (notice "Sync complete. Use !list to see updated conversations.")
         "Failed to send notice".
Proof.
  unfold run_goroutine. unfold bind at 1.
  pose proof (monotone_pollHostex b1) as Hpoll.
  destruct (pollHostex env b1) as [[] bp]. simpl in *.
  rewrite sendNotice_run. simpl.
  apply new_effects_app. simpl.
  rewrite (new_effects_extends _ _ Hpoll) at 1. now rewrite app_assoc.
Qed.

End monotone.

(** ** Commands in the control room *)

(** C6, as amended. For an event in the control room: a sender other than
    the configured admin gets nothing but a warning in the log -- no
    message is sent and nothing is started; for the admin, a body whose
    lower-cased first token is !help, !status or !list gets exactly one
    message sent, a notice into the control room; for !sync one notice is
    sent at once and a goroutine is started which, whenever it runs, polls
    Hostex and then sends one more notice into the control room. *)
Theorem management_command_replies (env : Env) (evt : event.Event) (b : Bridge) :
  event.RoomID evt = managementRoom b ->
  let b' := (handleMatrixMessage env evt b).2 in
  (event.Sender evt <> config.Admin_UserID (Config b) ->
     new_effects b b'
       = [Logger Warn "Unauthorized management command"
            [zap_String "sender" (event.Sender evt)]] /\
     matrix_sends (new_effects b b') = [] /\
     goroutines b' = goroutines b) /\
  (forall msgtype body part0 args,
     event.Sender evt = config.Admin_UserID (Config b) ->
     event.Content evt = event.ParsedMessage (event.mkMessageEventContent msgtype body) ->
     strings_Fields env body = part0 :: args ->
     (In (strings_ToLower env part0) ["!help"; "!status"; "!list"] ->
        (exists text, matrix_sends (new_effects b b') = [(event.RoomID evt, notice text)]) /\
        goroutines b' = goroutines b) /\
     (strings_ToLower env part0 = "!sync" ->
        matrix_sends (new_effects b b')
          = [(event.RoomID evt, notice "Forcing sync of conversations from Hostex...")] /\
        (exists mxid,
            goroutines b' = goroutines b ++ [GoForceSync mxid (event.RoomID evt)]) /\
        forall mxid b1,
          let task := GoForceSync mxid (event.RoomID evt) in
          matrix_sends (new_effects b1 (run_goroutine env task b1).2)
          = matrix_sends (new_effects b1 (pollHostex env b1).2)
            ++ [(event.RoomID evt,
                 notice "Sync complete. Use !list to see updated conversations.")])).
Proof.
  intros Hroom b'. subst b'. rewrite (handleMatrixMessage_control env evt b Hroom).
  split.
  - intros Hsender. rewrite handleManagementCommand_unauthorized by assumption. simpl.
    erewrite new_effects_app by reflexivity. repeat split.
  - intros msgtype body part0 args Hsender Hcontent Hfields.
    destruct (handleManagementCommand_admin env evt b _ Hsender Hcontent)
      as (user & users & ->).
    simpl event.Body.
    rewrite (HandleCommand_dispatch env user (event.RoomID evt) body part0 args Hfields).
    cbv zeta. split.
    + intros Hknown.
      destruct (decide (strings_ToLower env part0 = "!help")).
      { rewrite sendHelpMessage_run. simpl.
        erewrite new_effects_app by reflexivity. rewrite matrix_sends_reply. eauto. }
      destruct (decide (strings_ToLower env part0 = "!status")).
      { rewrite sendStatusMessage_run. simpl.
        erewrite new_effects_app by reflexivity. rewrite matrix_sends_reply. eauto. }
      destruct (decide (strings_ToLower env part0 = "!list")).
      { rewrite listConversations_run. simpl.
        erewrite new_effects_app by reflexivity. rewrite matrix_sends_reply. eauto. }
      exfalso. simpl in Hknown. intuition congruence.
    + intros Hsync. rewrite Hsync.
      repeat (destruct (decide _) as [E|_]; [discriminate E|]).
      destruct (decide _) as [_|E]; [|contradiction].
      rewrite forceSyncConversations_run. unfold snd at 1 2.
      erewrite new_effects_app by reflexivity. rewrite matrix_sends_reply.
      split; [reflexivity|]. split; [eauto|].
      intros mxid b1. cbv zeta. rewrite run_goroutine_effects.
      unfold matrix_sends at 1. rewrite omap_app.
      fold (matrix_sends (new_effects b1 (pollHostex env b1).2)).
      f_equal. apply matrix_sends_reply.
Qed.

(** The theorem above on a message of somebody who is not the admin. *)
Lemma management_command_replies_witness :
  let evt := demo.text_event "@mallory:hs.example" "!mgmt:hs.example" "!status" in
  event.RoomID evt = managementRoom demo.started /\
  event.Sender evt <> config.Admin_UserID (Config demo.started) /\
  matrix_sends (new_effects demo.started (handleMatrixMessage demo.env_ok evt demo.started).2)
  = [].
Proof.
  intros evt.
  assert (Hroom : event.RoomID evt = managementRoom demo.started) by reflexivity.
  assert (Hsender : event.Sender evt <> config.Admin_UserID (Config demo.started))
    by discriminate.
  split; [exact Hroom|]. split; [exact Hsender|].
  exact (proj1 (proj2 (proj1 (management_command_replies demo.env_ok evt demo.started Hroom)
                         Hsender))).
Defined.

(** C6 as stated fails for !sync, a known command: the admin's "!sync" is
    answered twice, once at once and once when the goroutine it started has
    run (here the poll itself sends nothing, Hostex being unreachable). *)
Lemma sync_command_is_answered_twice :
  let evt := demo.text_event "@admin:hs.example" "!mgmt:hs.example" "!sync" in
  let b1 := (handleMatrixMessage demo.env_hostex_list_fails evt demo.started).2 in
  let b2 := (run_goroutines demo.env_hostex_list_fails b1).2 in
  event.RoomID evt = managementRoom demo.started /\
  event.Sender evt = config.Admin_UserID (Config demo.started) /\
  strings_ToLower demo.env_hostex_list_fails "!sync" = "!sync" /\
  goroutines b1 = [GoForceSync "@admin:hs.example" "!mgmt:hs.example"] /\
  goroutines b2 = [] /\
  matrix_sends (new_effects demo.started b2)
  = [("!mgmt:hs.example", notice "Forcing sync of conversations from Hostex...");
     ("!mgmt:hs.example", notice "Sync complete. Use !list to see updated conversations.")].
Proof. vm_compute. repeat split. Qed.

(** ** Relay from the room to Hostex *)

Section relay.

Context (env : Env).

Lemma Portal_HandleMatrixMessage_other_kind p evt b :
  event.Type' evt <> event.EventMessage ->
  Portal_HandleMatrixMessage env p evt b = (tt, b).
Proof.
  intros H. unfold Portal_HandleMatrixMessage.
  destruct (decide _); [reflexivity | contradiction].
Qed.

Lemma Portal_HandleMatrixMessage_unparsed p evt b :
  event.Type' evt = event.EventMessage ->
  (forall content, event.Content evt <> event.ParsedMessage content) ->
  Portal_HandleMatrixMessage env p evt b
  = (tt, set_trace (trace b ++ [Logger Warn "Received non-message event" []]) b).
Proof.
  intros H Hc. unfold Portal_HandleMatrixMessage.
  destruct (decide _); [contradiction|].
  destruct (event.Content evt) as [|content|]; try reflexivity.
  now destruct (Hc content).
Qed.

Lemma Portal_HandleMatrixMessage_send_failed p evt content e b :
  event.Type' evt = event.EventMessage ->
  event.Content evt = event.ParsedMessage content ->
  hostex_SendMessage env (trace b) (Portal_ID p) (event.Body content) = Some e ->
  Portal_HandleMatrixMessage env p evt b
  = (tt, set_trace (trace b ++
           [SendMessage (Portal_ID p) (event.Body content) (Some e);
            Logger Error "Failed to send message to Hostex" [zap_Error e]]) b).
Proof.
  intros H Hc Hsend. unfold Portal_HandleMatrixMessage.
  destruct (decide _); [contradiction|]. rewrite Hc.
  unfold_monad. simpl. rewrite Hsend. same_bridge.
Qed.

(** After a successful send the row is written, and a failure to write it
    is only logged. *)
Lemma Portal_HandleMatrixMessage_sent p evt content b :
  event.Type' evt = event.EventMessage ->
  event.Content evt = event.ParsedMessage content ->
  hostex_SendMessage env (trace b) (Portal_ID p) (event.Body content) = None ->
  exists now resp complaint,
    new_effects b (Portal_HandleMatrixMessage env p evt b).2
    = [SendMessage (Portal_ID p) (event.Body content) None;
       Now now;
       StoreMessage (Portal_ID p) (event.ID evt) now (event.Sender evt)
         (event.Body content) resp] ++ complaint /\
    complaint = match resp with
                | Some e => [Logger Error "Failed to store message in database" [zap_Error e]]
                | None => []
                end.
Proof.
  intros H Hc Hsend. unfold Portal_HandleMatrixMessage.
  destruct (decide _); [contradiction|]. rewrite Hc.
  unfold_db. unfold_monad. simpl. rewrite Hsend. simpl.
  destruct (sql_fault env _) as [e|]; simpl.
  - eexists _, (Some e), _. split; [|reflexivity].
    apply new_effects_app. simpl. rewrite <- ?app_assoc. reflexivity.
  - destruct (database.StoreMessage _ _ _ _ _ _) as [d' [e|]]; simpl.
    + eexists _, (Some e), _. split; [|reflexivity].
      apply new_effects_app. simpl. rewrite <- ?app_assoc. reflexivity.
    + eexists _, None, _. split; [|reflexivity].
      apply new_effects_app. simpl. rewrite <- ?app_assoc. reflexivity.
Qed.

End relay.

(** C7, as amended. The relay looks at the kind of the event, not at the
    msgtype of its content: the send-message calls it makes to Hostex are
    exactly one, for the portal's conversation and with the body of the
    message, when the event is of the message kind (m.room.message) and
    carries message content -- text, notice, image or any other msgtype --
    and none otherwise; an event of any other kind changes nothing at
    all. *)
Theorem Portal_HandleMatrixMessage_relays_message_events_only (env : Env) (p : Portal)
    (evt : event.Event) (b : Bridge) :
  let b' := (Portal_HandleMatrixMessage env p evt b).2 in
  hostex_sends (new_effects b b')
  = (if decide (event.Type' evt = event.EventMessage)
     then match event.Content evt with
          | event.ParsedMessage content => [(Portal_ID p, event.Body content)]
          | _ => []
          end
     else []) /\
  (event.Type' evt <> event.EventMessage -> b' = b).
Proof.
  intros b'. subst b'. split.
  - destruct (decide (event.Type' evt = event.EventMessage)) as [Hty|Hty].
    + destruct (event.Content evt) as [|content|goType] eqn:Hc.
      * rewrite Portal_HandleMatrixMessage_unparsed by (auto; congruence).
        simpl. now erewrite new_effects_app by reflexivity.
      * destruct (hostex_SendMessage env (trace b) (Portal_ID p) (event.Body content))
          as [e|] eqn:Hsend.
        -- rewrite (Portal_HandleMatrixMessage_send_failed env p evt content e) by assumption.
           simpl. now erewrite new_effects_app by reflexivity.
        -- destruct (Portal_HandleMatrixMessage_sent env p evt content b Hty Hc Hsend)
             as (now & resp & complaint & -> & ->).
           destruct resp; reflexivity.
      * rewrite Portal_HandleMatrixMessage_unparsed by (auto; congruence).
        simpl. now erewrite new_effects_app by reflexivity.
    + rewrite Portal_HandleMatrixMessage_other_kind by assumption. simpl.
      now rewrite new_effects_same.
  - intros Hty. now rewrite Portal_HandleMatrixMessage_other_kind.
Qed.

(** The theorem above on a reaction: the bridge is left as it was. *)
Lemma Portal_HandleMatrixMessage_relays_message_events_only_witness :
  let evt := demo.reaction_event "@admin:hs.example" "!r1:hs.example" in
  event.Type' evt <> event.EventMessage /\
  (Portal_HandleMatrixMessage demo.env_ok demo.portal_c1 evt demo.polled).2 = demo.polled.
Proof.
  intros evt.
  assert (Hty : event.Type' evt <> event.EventMessage) by discriminate.
  split; [exact Hty|].
  exact (proj2 (Portal_HandleMatrixMessage_relays_message_events_only
                  demo.env_ok demo.portal_c1 evt demo.polled) Hty).
Defined.

(** A text message is forwarded under the conversation id of the portal. *)
Example Portal_HandleMatrixMessage_text :
  hostex_sends (new_effects demo.polled
    (Portal_HandleMatrixMessage demo.env_ok demo.portal_c1
       (demo.text_event "@admin:hs.example" "!r1:hs.example" "hello") demo.polled).2)
  = [("c1", "hello")].
Proof. reflexivity. Qed.

(** Not only text messages are forwarded: an image message, which is not
    a text message, has its body -- the file name -- sent to Hostex like
    any text. *)
Example Portal_HandleMatrixMessage_image :
  hostex_sends (new_effects demo.polled
    (Portal_HandleMatrixMessage demo.env_ok demo.portal_c1
       (event.mkEvent "@admin:hs.example" event.EventMessage 1700000100000 "$in3"
          "!r1:hs.example"
          (event.ParsedMessage (event.mkMessageEventContent event.MsgImage "photo.jpg")))
       demo.polled).2)
  = [("c1", "photo.jpg")].
Proof. reflexivity. Qed.

(** C3, as amended. When the send to Hostex fails, the failure is logged
    and the event is dropped: one send attempt and one error line are all
    that happens -- no retry, no attempt to write a Message row, the store
    unchanged. The Message row is written (best effort) after a send that
    succeeded. *)
Theorem Portal_HandleMatrixMessage_failed_send_is_dropped (env : Env) (p : Portal)
    (evt : event.Event) (content : event.MessageEventContent) (b : Bridge) :
  event.Type' evt = event.EventMessage ->
  event.Content evt = event.ParsedMessage content ->
  let b' := (Portal_HandleMatrixMessage env p evt b).2 in
  (forall e,
     hostex_SendMessage env (trace b) (Portal_ID p) (event.Body content) = Some e ->
     new_effects b b'
       = [SendMessage (Portal_ID p) (event.Body content) (Some e);
          Logger Error "Failed to send message to Hostex" [zap_Error e]] /\
     message_writes (new_effects b b') = [] /\
     DB b' = DB b) /\
  (hostex_SendMessage env (trace b) (Portal_ID p) (event.Body content) = None ->
     hostex_sends (new_effects b b') = [(Portal_ID p, event.Body content)] /\
     message_writes (new_effects b b') = [(Portal_ID p, event.ID evt)]).
Proof.
  intros Hty Hc b'. subst b'. split.
  - intros e Hsend.
    rewrite (Portal_HandleMatrixMessage_send_failed env p evt content e) by assumption.
    simpl. erewrite new_effects_app by reflexivity. repeat split.
  - intros Hsend.
    destruct (Portal_HandleMatrixMessage_sent env p evt content b Hty Hc Hsend)
      as (now & resp & complaint & -> & ->).
    destruct resp; split; reflexivity.
Qed.

(** The theorem above on "hello" typed into the room of c1 while Hostex
    refuses every message. *)
Lemma Portal_HandleMatrixMessage_failed_send_is_dropped_witness :
  let evt := demo.text_event "@admin:hs.example" "!r1:hs.example" "hello" in
  let b' := (Portal_HandleMatrixMessage demo.env_hostex_send_fails demo.portal_c1 evt
               demo.polled).2 in
  hostex_SendMessage demo.env_hostex_send_fails (trace demo.polled) "c1" "hello"
    = Some (ErrRemote "API request failed with status code: 500") /\
  message_writes (new_effects demo.polled b') = [] /\
  DB b' = DB demo.polled.
Proof.
  intros evt b'. split; [reflexivity|].
  exact (proj2 (proj1 (Portal_HandleMatrixMessage_failed_send_is_dropped
                         demo.env_hostex_send_fails demo.portal_c1 evt
                         (event.mkMessageEventContent event.MsgText "hello") demo.polled
                         eq_refl eq_refl)
                  (ErrRemote "API request failed with status code: 500") eq_refl)).
Defined.

(** C3 as stated fails: after a relay whose send to Hostex failed, no
    Message row has been written and none was attempted. *)
Lemma failed_send_writes_no_message_row :
  let evt := demo.text_event "@admin:hs.example" "!r1:hs.example" "hello" in
  let b' := (Portal_HandleMatrixMessage demo.env_hostex_send_fails demo.portal_c1 evt
               demo.polled).2 in
  new_effects demo.polled b'
  = [SendMessage "c1" "hello" (Some (ErrRemote "API request failed with status code: 500"));
     Logger Error "Failed to send message to Hostex"
       [zap_Error (ErrRemote "API request failed with status code: 500")]] /\
  database.message (DB b') = [] /\
  message_writes (trace b') = [].
Proof. vm_compute. repeat split. Qed.

(** ** Room creation *)

Section ensure_room.

Context (env : Env).

Lemma CreateMatrixRoom_set p b :
  Portal_RoomID p <> "" -> CreateMatrixRoom env p b = ((p, None), b).
Proof. intros H. unfold CreateMatrixRoom. now destruct (decide _). Qed.

(** What one call adds: at most one created room, and a created room is
    the one the portal holds afterwards. *)
Lemma CreateMatrixRoom_creates p b :
  exists d,
    trace (CreateMatrixRoom env p b).2 = trace b ++ d /\
    (created_rooms d = [] \/
     created_rooms d = [Portal_RoomID (CreateMatrixRoom env p b).1.1]) /\
    (created_rooms d <> [] -> Portal_RoomID (CreateMatrixRoom env p b).1.1 <> "") /\
    (Portal_RoomID p <> "" -> Portal_RoomID (CreateMatrixRoom env p b).1.1 <> "").
Proof.
  destruct (decide (Portal_RoomID p <> "")) as [Hset|Hunset].
  { rewrite CreateMatrixRoom_set by assumption. exists []. simpl.
    rewrite app_nil_r. repeat split; auto. }
  unfold CreateMatrixRoom, addToPersonalSpace. unfold_db. unfold_monad.
  destruct (decide (Portal_RoomID p <> "")); [contradiction|]. simpl.
  destruct (sql_fault env (trace b)) as [e|]; simpl.
  { eexists. split; [reflexivity|]. simpl. repeat split; auto; try congruence. }
  destruct (database.GetPortal (DB b) (Portal_ID p)) as [r [e|]]; simpl.
  { eexists. split; [reflexivity|]. simpl. repeat split; auto; try congruence. }
  destruct (decide (r <> "")); simpl.
  { eexists. split; [reflexivity|]. simpl. repeat split; auto; try congruence. }
  destruct (matrix_CreateRoom env _ _) as [roomID|e] eqn:Hcreate; simpl.
  2:{ eexists. split; [rewrite <- ?app_assoc; reflexivity|]. simpl.
      repeat split; auto; try congruence. }
  destruct (sql_fault env _) as [e|]; simpl;
    [|destruct (database.StorePortal _ _ _ _ _ _ _) as [d' [e|]]; simpl;
      [|destruct (config.PersonalSpaceEnable (Config b)); simpl;
        [destruct (matrix_SendStateEvent env _ _ _ _ _) as [ev|e]; simpl|]]];
    (eexists; split; [rewrite <- ?app_assoc; reflexivity|]);
    unfold created_rooms; simpl;
    destruct (decide (roomID <> "")); simpl; repeat split; auto; congruence.
Qed.

Lemma rooms_created_by_set calls p :
  Portal_RoomID p <> "" -> rooms_created_by env calls p = 0%nat.
Proof.
  revert p. induction calls as [|[info b] rest IH]; intros p Hset; [reflexivity|].
  simpl. rewrite CreateMatrixRoom_set by exact Hset. simpl.
  rewrite new_effects_same. now apply IH.
Qed.

Lemma rooms_created_by_le_1 calls p : (rooms_created_by env calls p <= 1)%nat.
Proof.
  revert p. induction calls as [|[info b] rest IH]; intros p; simpl; [lia|].
  destruct (CreateMatrixRoom_creates (UpdateInfo p info) b) as (d & Htr & Hd & Hnew & _).
  rewrite (new_effects_app _ _ d Htr).
  destruct Hd as [Hd|Hd].
  - rewrite Hd. simpl. apply IH.
  - rewrite rooms_created_by_set.
    + rewrite Hd. simpl. lia.
    + apply Hnew. now rewrite Hd.
Qed.

(** Two calls in a row. *)
Lemma CreateMatrixRoom_twice p b :
  let r1 := CreateMatrixRoom env p b in
  let r2 := CreateMatrixRoom env r1.1.1 r1.2 in
  (length (created_rooms (new_effects b r2.2)) <= 1)%nat.
Proof.
  intros r1 r2.
  pose proof (rooms_created_by_le_1
                [(Portal_Info p, b); (Portal_Info r1.1.1, r1.2)] p) as H.
  assert (Hid : forall q, UpdateInfo q (Portal_Info q) = q) by now intros [].
  cbn [rooms_created_by] in H. rewrite Hid in H. fold r1 in H.
  rewrite Hid in H. fold r2 in H.
  rewrite (new_effects_trans b r1.2 r2.2)
    by (subst r1 r2; apply monotone_CreateMatrixRoom).
  unfold created_rooms at 1. rewrite omap_app, length_app.
  unfold created_rooms in H. lia.
Qed.

(** A mapping found in the store is adopted; nothing is created. *)
Lemma CreateMatrixRoom_adopts p b r :
  Portal_RoomID p = "" ->
  sql_fault env (trace b) = None ->
  database.GetPortal (DB b) (Portal_ID p) = (r, None) ->
  r <> "" ->
  CreateMatrixRoom env p b
  = ((mkPortal (Portal_ID p) r (Portal_Info p), None),
     set_trace (trace b ++ [GetPortal (Portal_ID p) (r, None)]) b).
Proof.
  intros Hunset Hsql Hget Hr. unfold CreateMatrixRoom. unfold_db. unfold_monad.
  destruct (decide (Portal_RoomID p <> "")); [congruence|]. simpl.
  rewrite Hsql, Hget. simpl.
  destruct (decide (r <> "")); [reflexivity | contradiction].
Qed.

Lemma GetPortal_after_StorePortal d h r n t a e d' :
  database.constraints d ->
  database.StorePortal d h r n t a e = (d', None) ->
  database.GetPortal d' h = (r, None).
Proof.
  intros Hc Hs. destruct (StorePortal_rows _ _ _ _ _ _ _ _ Hc Hs) as [ts Hrows].
  unfold database.GetPortal. unfold database.portal_rows in Hrows. rewrite Hrows.
  reflexivity.
Qed.

(** A created room is written to the store at once. *)
Lemma CreateMatrixRoom_persists p b req roomID :
  In (CreateRoom req (Ok roomID)) (new_effects b (CreateMatrixRoom env p b).2) ->
  exists resp post,
    new_effects b (CreateMatrixRoom env p b).2
    = [GetPortal (Portal_ID p) ("", None);
       CreateRoom req (Ok roomID);
       Logger Info "Created Matrix room" [zap_String "room_id" roomID];
       StorePortal (Portal_ID p) roomID (mautrix.Name req) (mautrix.Topic req) "" false resp]
      ++ post /\
    create_calls post = [] /\
    req = createRoom_req p /\
    Portal_RoomID (CreateMatrixRoom env p b).1.1 = roomID /\
    (resp = None -> database.constraints (DB b) ->
     database.GetPortal (DB (CreateMatrixRoom env p b).2) (Portal_ID p) = (roomID, None)).
Proof.
  destruct (decide (Portal_RoomID p <> "")) as [Hset|Hunset].
  { rewrite CreateMatrixRoom_set by assumption. simpl.
    rewrite new_effects_same. intros []. }
  unfold CreateMatrixRoom, addToPersonalSpace. unfold_db. unfold_monad.
  destruct (decide (Portal_RoomID p <> "")); [contradiction|]. simpl.
  destruct (sql_fault env (trace b)) as [e|]; simpl.
  { erewrite new_effects_app by reflexivity. simpl. intuition discriminate. }
  destruct (database.GetPortal (DB b) (Portal_ID p)) as [r [e|]]; simpl.
  { erewrite new_effects_app by reflexivity. simpl. intuition discriminate. }
  destruct (decide (r <> "")) as [|Hr]; simpl.
  { erewrite new_effects_app by reflexivity. simpl. intuition discriminate. }
  assert (r = "") as -> by (destruct (decide (r = "")); [assumption | contradiction]).
  destruct (matrix_CreateRoom env _ _) as [roomID0|e] eqn:Hcreate; simpl.
  2:{ erewrite new_effects_app by (simpl; rewrite <- ?app_assoc; reflexivity).
      simpl. intuition discriminate. }
  destruct (sql_fault env _) as [e|] eqn:Hsql; simpl;
    [|destruct (database.StorePortal _ _ _ _ _ _ _) as [d' [e|]] eqn:Hstore; simpl;
      [|destruct (config.PersonalSpaceEnable (Config b)); simpl;
        [destruct (matrix_SendStateEvent env _ _ _ _ _) as [ev|e]; simpl|]]];
    (erewrite new_effects_app by (simpl; rewrite <- ?app_assoc; reflexivity));
    simpl; intros [H|[H|H]]; try discriminate H; try (exfalso; intuition discriminate);
    injection H as <- <-;
    (eexists _, _; split; [reflexivity|]); simpl;
    (split; [reflexivity|]); (split; [reflexivity|]); (split; [reflexivity|]);
    intros Hresp Hc; try discriminate Hresp;
    eapply GetPortal_after_StorePortal; eassumption.
Qed.

End ensure_room.

(** ** Poll cycles create at most one room per conversation *)

Lemma rooms_assigned_insert (m : gmap string Portal) k p :
  (rooms_assigned (<[k := p]> m) + has_room (m !! k) = rooms_assigned m + has_room (Some p))%nat.
Proof.
  unfold rooms_assigned, has_room.
  set (P := fun kp : string * Portal => Portal_RoomID kp.2 <> "").
  assert (Hin : forall q, m !! k = Some q -> Portal_RoomID q <> "" -> filter P m !! k = Some q).
  { intros q Hk Hq. now apply map_lookup_filter_Some. }
  assert (Hout : forall q, m !! k = Some q -> ~ Portal_RoomID q <> "" -> filter P m !! k = None).
  { intros q Hk Hq. apply map_lookup_filter_None. right. intros q' Hq'.
    rewrite Hk in Hq'. injection Hq' as <-. exact Hq. }
  assert (Hnone : m !! k = None -> filter P m !! k = None).
  { intros Hk. apply map_lookup_filter_None. now left. }
  destruct (decide (Portal_RoomID p <> "")) as [Hp|Hp].
  - rewrite (map_filter_insert_True P m k p) by exact Hp.
    destruct (m !! k) as [q|] eqn:Hk.
    + destruct (decide (Portal_RoomID q <> "")) as [Hq|Hq].
      * rewrite map_size_insert_Some; [lia|]. rewrite (Hin q eq_refl Hq). eauto.
      * rewrite map_size_insert_None; [lia|]. now apply (Hout q).
    + rewrite map_size_insert_None; [lia|]. now apply Hnone.
  - rewrite (map_filter_insert_False P m k p) by exact Hp.
    rewrite map_filter_delete.
    destruct (m !! k) as [q|] eqn:Hk.
    + destruct (decide (Portal_RoomID q <> "")) as [Hq|Hq].
      * rewrite map_size_delete_Some by (rewrite (Hin q eq_refl Hq); eauto).
        assert (size (filter P m) <> 0%nat).
        { intros H0. apply map_size_empty_inv in H0.
          pose proof (Hin q eq_refl Hq) as Hl. rewrite H0 in Hl.
          now rewrite lookup_empty in Hl. }
        lia.
      * rewrite map_size_delete_None; [lia|]. now apply (Hout q).
    + rewrite map_size_delete_None; [lia|]. now apply Hnone.
Qed.

Section respects.

Context (R : Bridge -> Bridge -> Prop).
Hypothesis R_refl : forall b, R b b.
Hypothesis R_trans : forall b1 b2 b3, R b1 b2 -> R b2 b3 -> R b1 b3.

Lemma respects_ret {A} (a : A) : respects R (ret a).
Proof. intros b. apply R_refl. Qed.

Lemma respects_get : respects R get.
Proof. intros b. apply R_refl. Qed.

Lemma respects_bind {A B} (m : M A) (k : A -> M B) :
  respects R m -> (forall a, respects R (k a)) -> respects R (bind m k).
Proof.
  intros Hm Hk b. unfold bind. specialize (Hm b).
  destruct (m b) as [a b1]. eapply R_trans; [exact Hm | apply Hk].
Qed.

Lemma respects_forM_ {A} (l : list A) (body : A -> M unit) :
  (forall x, respects R (body x)) -> respects R (forM_ l body).
Proof.
  intros H. induction l as [|x l IH]; simpl.
  - apply respects_ret.
  - apply respects_bind; [apply H | intros _; exact IH].
Qed.

End respects.

Section polling.

Context (env : Env).

Lemma created_rooms_app d1 d2 : created_rooms (d1 ++ d2) = created_rooms d1 ++ created_rooms d2.
Proof. apply omap_app. Qed.

Lemma same_registry_refl b : same_registry b b.
Proof. reflexivity. Qed.

Lemma same_registry_trans b1 b2 b3 :
  same_registry b1 b2 -> same_registry b2 b3 -> same_registry b1 b3.
Proof. unfold same_registry. congruence. Qed.

Lemma no_room_created_refl b : no_room_created b b.
Proof. split; [reflexivity|]. exists []. now rewrite app_nil_r. Qed.

Lemma no_room_created_trans b1 b2 b3 :
  no_room_created b1 b2 -> no_room_created b2 b3 -> no_room_created b1 b3.
Proof.
  intros (Hreg1 & d1 & Htr1 & Hd1) (Hreg2 & d2 & Htr2 & Hd2).
  split; [congruence|]. exists (d1 ++ d2). split.
  - now rewrite Htr2, Htr1, app_assoc.
  - now rewrite created_rooms_app, Hd1, Hd2.
Qed.

Lemma no_room_created_emit e :
  created_rooms [e] = [] -> respects no_room_created (emit e).
Proof. intros He b. split; [reflexivity|]. now exists [e]. Qed.

Lemma no_room_created_set_DB d : respects no_room_created (modify (set_DB d)).
Proof. intros b. apply (no_room_created_refl (set_DB d b)). Qed.

Lemma same_registry_emit e : respects same_registry (emit e).
Proof. intros b. reflexivity. Qed.

Lemma same_registry_set_DB d : respects same_registry (modify (set_DB d)).
Proof. intros b. reflexivity. Qed.

Ltac quiet :=
  repeat first
    [ apply (respects_ret _ no_room_created_refl)
    | apply (respects_get _ no_room_created_refl)
    | apply no_room_created_emit; reflexivity
    | apply no_room_created_set_DB
    | apply (respects_bind _ no_room_created_trans); [|intros]
    | match goal with
      | |- respects _ (match ?x with _ => _ end) => destruct x
      | |- respects _ (let '(_, _) := ?x in _) => destruct x
      end ].

Ltac framed :=
  repeat first
    [ apply (respects_ret _ same_registry_refl)
    | apply (respects_get _ same_registry_refl)
    | apply same_registry_emit
    | apply same_registry_set_DB
    | apply (respects_bind _ same_registry_trans); [|intros]
    | match goal with
      | |- respects _ (match ?x with _ => _ end) => destruct x
      | |- respects _ (let '(_, _) := ?x in _) => destruct x
      end ].

Lemma no_room_created_DB_StoreMessage h ev ts s c :
  respects no_room_created (DB_StoreMessage env h ev ts s c).
Proof.
  unfold DB_StoreMessage. apply (respects_bind _ no_room_created_trans); [quiet|]. intros b.
  destruct (sql_fault env (trace b)); [quiet|].
  destruct (database.StoreMessage _ _ _ _ _ _). quiet.
Qed.

Lemma no_room_created_Portal_SendMessage p msg :
  respects no_room_created (Portal_SendMessage env p msg).
Proof.
  unfold Portal_SendMessage, MatrixClient_SendMessageEvent, Logger_Error.
  apply (respects_bind _ no_room_created_trans); [quiet|]. intros b.
  apply (respects_bind _ no_room_created_trans);
    [destruct (time_LoadLocation env _); quiet|]. intros loc.
  apply (respects_bind _ no_room_created_trans); [quiet|]. intros [eventID|e]; [|quiet].
  apply (respects_bind _ no_room_created_trans);
    [apply no_room_created_DB_StoreMessage|]. intros [e|]; quiet.
Qed.

Lemma no_room_created_BackfillMessages p :
  respects no_room_created (BackfillMessages env p).
Proof.
  unfold BackfillMessages, DB_GetLastMessageTimestamp, HostexClient_GetMessages, Logger_Error.
  apply (respects_bind _ no_room_created_trans); [quiet|]. intros [ts [e|]]; [quiet|].
  apply (respects_bind _ no_room_created_trans); [quiet|]. intros [messages|e]; [|quiet].
  apply (respects_bind _ no_room_created_trans); [|quiet].
  apply (respects_forM_ _ no_room_created_refl no_room_created_trans). intros msg.
  apply (respects_bind _ no_room_created_trans);
    [apply no_room_created_Portal_SendMessage|]. intros [e|]; quiet.
Qed.

Lemma same_registry_CreateMatrixRoom p : respects same_registry (CreateMatrixRoom env p).
Proof.
  unfold CreateMatrixRoom, addToPersonalSpace, MatrixClient_CreateRoom,
    MatrixClient_SendStateEvent, Logger_Info, Logger_Error, DB_GetPortal, DB_StorePortal.
  destruct (decide _); [framed|].
  apply (respects_bind _ same_registry_trans); [framed|]. intros [r [e|]]; [framed|].
  destruct (decide _); [framed|].
  apply (respects_bind _ same_registry_trans); [framed|]. intros [roomID|e]; [|framed].
  apply (respects_bind _ same_registry_trans); [framed|]. intros _.
  apply (respects_bind _ same_registry_trans).
  { apply (respects_bind _ same_registry_trans); [framed|]. intros b.
    destruct (sql_fault env (trace b)); [framed|].
    destruct (database.StorePortal _ _ _ _ _ _ _). framed. }
  intros [e|]; [framed|].
  apply (respects_bind _ same_registry_trans); [framed|]. intros b.
  destruct (config.PersonalSpaceEnable (Config b)); framed.
Qed.

End polling.

Section poll_cycles.

Context (env : Env).

Lemma poll_progress_refl b : poll_progress b b.
Proof. exists []. rewrite app_nil_r. split; [reflexivity | simpl; lia]. Qed.

Lemma poll_progress_trans b1 b2 b3 :
  poll_progress b1 b2 -> poll_progress b2 b3 -> poll_progress b1 b3.
Proof.
  intros (d1 & Htr1 & Hd1) (d2 & Htr2 & Hd2). exists (d1 ++ d2). split.
  - now rewrite Htr2, Htr1, app_assoc.
  - rewrite created_rooms_app, length_app. lia.
Qed.

Lemma no_room_created_progress b b' : no_room_created b b' -> poll_progress b b'.
Proof.
  intros (Hreg & d & Htr & Hd). exists d. split; [exact Htr|].
  rewrite Hd, Hreg. simpl. lia.
Qed.

Lemma handleHostexConversation_progress conv :
  respects poll_progress (handleHostexConversation env conv).
Proof.
  intros b. unfold handleHostexConversation.
  set (cid := hostexapi.Conversation_ID conv).
  unfold bind at 1. unfold get at 1.
  set (portal0 := match portalsByID b !! cid with
                  | Some portal => portal
                  | None => NewPortal cid
                  end).
  set (p1 := UpdateInfo portal0 conv).
  set (b2 := set_portalsByID (<[cid := p1]> (portalsByID b)) b).
  assert (Hstep : forall (k : Portal -> M unit),
            bind (match portalsByID b !! cid with
                  | Some portal => ret portal
                  | None =>
                      bind (modify (fun b0 => set_portalsByID
                                      (<[cid := NewPortal cid]> (portalsByID b0)) b0))
                           (fun _ => ret (NewPortal cid))
                  end)
              (fun portal =>
                 bind (modify (fun b0 => set_portalsByID
                                 (<[cid := UpdateInfo portal conv]> (portalsByID b0)) b0))
                      (fun _ => k portal)) b
            = k portal0 b2).
  { intros k. subst b2 p1 portal0. unfold bind, modify, ret.
    destruct (portalsByID b !! cid) as [portal|]; simpl; [reflexivity|].
    unfold set_portalsByID. simpl. now rewrite insert_insert_eq. }
  cbv zeta. rewrite Hstep. clear Hstep. fold p1.
  unfold bind at 1.
  pose proof (CreateMatrixRoom_creates env p1 b2) as (d & Htr & Hd & Hnew & Hkeep).
  pose proof (same_registry_CreateMatrixRoom env p1 b2) as Hreg.
  pose proof (CreateMatrixRoom_set env p1 b2) as Hset.
  destruct (CreateMatrixRoom env p1 b2) as [[p' err] b3]. simpl in *.
  unfold bind at 1, modify at 1.
  set (b4 := set_portalsByID _ b3).
  assert (Hb4 : poll_progress b b4).
  { exists d. split; [exact Htr|].
    assert (Hm : portalsByID b4 = <[cid := p']> (portalsByID b)).
    { change (portalsByID b4) with (<[cid := p']> (portalsByID b3)).
      unfold same_registry in Hreg. rewrite Hreg.
      subst b2. cbn [portalsByID set_portalsByID].
      apply insert_insert_eq. }
    rewrite Hm.
    pose proof (rooms_assigned_insert (portalsByID b) cid p') as Hins.
    assert (Hp1 : has_room (portalsByID b !! cid) = has_room (Some p1)).
    { subst p1 portal0. destruct (portalsByID b !! cid); reflexivity. }
    rewrite Hp1 in Hins.
    assert (Hyes : forall q, Portal_RoomID q <> "" -> has_room (Some q) = 1%nat).
    { intros q Hq. unfold has_room. now destruct (decide _). }
    assert (Hno : forall q, ~ Portal_RoomID q <> "" -> has_room (Some q) = 0%nat).
    { intros q Hq. unfold has_room. now destruct (decide _). }
    destruct (decide (Portal_RoomID p1 <> "")) as [H1|H1].
    - specialize (Hset H1). injection Hset as Hp' _ Hb3.
      assert (d = []) as ->.
      { apply (app_inv_head (trace b)). rewrite app_nil_r, <- Htr. now rewrite Hb3. }
      rewrite Hp' in Hins |- *. rewrite (Hyes p1 H1) in Hins.
      change (length (created_rooms [])) with 0%nat. lia.
    - rewrite (Hno p1 H1) in Hins.
      destruct (decide (Portal_RoomID p' <> "")) as [H'|H'].
      + rewrite (Hyes p' H') in Hins.
        destruct Hd as [-> | ->]; cbn [length]; lia.
      + destruct Hd as [-> | Hd]; [cbn [length]; rewrite (Hno p' H') in Hins; lia|].
        exfalso. apply H', Hnew. rewrite Hd. discriminate. }
  eapply poll_progress_trans; [exact Hb4|].
  apply no_room_created_progress.
  destruct err as [e|].
  - apply (no_room_created_emit
             (Logger Error "Failed to create Matrix room" [zap_Error e]) eq_refl b4).
  - pose proof (no_room_created_BackfillMessages env p' b4) as Hback.
    unfold bind. destruct (BackfillMessages env p' b4) as [[e|] b5]; simpl in *.
    + eapply no_room_created_trans; [exact Hback|].
      apply (no_room_created_emit
               (Logger Error "Failed to backfill messages" [zap_Error e]) eq_refl b5).
    + exact Hback.
Qed.

Lemma pollHostex_progress : respects poll_progress (pollHostex env).
Proof.
  unfold pollHostex, time_Now_, HostexClient_GetConversations, Logger_Error.
  assert (Hemit : forall e, created_rooms [e] = [] -> respects poll_progress (emit e)).
  { intros e He b. apply no_room_created_progress. now apply no_room_created_emit. }
  apply (respects_bind _ poll_progress_trans).
  { apply (respects_bind _ poll_progress_trans); [apply (respects_get _ poll_progress_refl)|].
    intros b. apply (respects_bind _ poll_progress_trans); [now apply Hemit|].
    intros _. apply (respects_ret _ poll_progress_refl). }
  intros now.
  apply (respects_bind _ poll_progress_trans).
  { intros b. apply (poll_progress_refl (set_lastPollTime now b)). }
  intros _.
  apply (respects_bind _ poll_progress_trans).
  { apply (respects_bind _ poll_progress_trans); [apply (respects_get _ poll_progress_refl)|].
    intros b. apply (respects_bind _ poll_progress_trans); [now apply Hemit|].
    intros _. apply (respects_ret _ poll_progress_refl). }
  intros [conversations|e]; [|now apply Hemit].
  apply (respects_forM_ _ poll_progress_refl poll_progress_trans).
  apply handleHostexConversation_progress.
Qed.

(** Over any number of poll cycles, the rooms created are at most as many
    as the conversations that got a room. *)
Lemma polls_progress n : respects poll_progress (polls env n).
Proof.
  induction n as [|n IH]; simpl.
  - apply (respects_ret _ poll_progress_refl).
  - apply (respects_bind _ poll_progress_trans); [apply pollHostex_progress|].
    intros _. exact IH.
Qed.

End poll_cycles.

(** C2, as amended. Across any series of [CreateMatrixRoom] calls on the
    portal of a conversation -- whatever happens to the bridge between the
    calls, and in particular for two calls in a row -- at most one room is
    created; a creation that the homeserver refused is tried again by the
    next call. Over any number of poll cycles the rooms created are at most
    as many as the conversations of the registry that got a room. A call on
    a portal whose in-memory room id is set does nothing; a call that finds
    a persisted mapping for the conversation adopts it and creates nothing;
    and when a room is created, the write of its mapping to the store is
    what comes next (after the log line), so that, the write accepted, the
    store maps the conversation to the new room. *)
Theorem CreateMatrixRoom_creates_at_most_one_room (env : Env) :
  (forall calls p, (rooms_created_by env calls p <= 1)%nat) /\
  (forall p b,
     let r1 := CreateMatrixRoom env p b in
     let r2 := CreateMatrixRoom env r1.1.1 r1.2 in
     (length (created_rooms (new_effects b r2.2)) <= 1)%nat) /\
  (forall n b,
     let b' := (polls env n b).2 in
     (length (created_rooms (new_effects b b')) + rooms_assigned (portalsByID b)
      <= rooms_assigned (portalsByID b'))%nat) /\
  (forall p b,
     Portal_RoomID p <> "" -> CreateMatrixRoom env p b = ((p, None), b)) /\
  (forall p b r,
     Portal_RoomID p = "" ->
     sql_fault env (trace b) = None ->
     database.GetPortal (DB b) (Portal_ID p) = (r, None) ->
     r <> "" ->
     CreateMatrixRoom env p b
     = ((mkPortal (Portal_ID p) r (Portal_Info p), None),
        set_trace (trace b ++ [GetPortal (Portal_ID p) (r, None)]) b)) /\
  (forall p b req roomID,
     In (CreateRoom req (Ok roomID)) (new_effects b (CreateMatrixRoom env p b).2) ->
     exists resp post,
       new_effects b (CreateMatrixRoom env p b).2
       = [GetPortal (Portal_ID p) ("", None);
          CreateRoom req (Ok roomID);
          Logger Info "Created Matrix room" [zap_String "room_id" roomID];
          StorePortal (Portal_ID p) roomID (mautrix.Name req) (mautrix.Topic req) ""
            false resp] ++ post /\
       create_calls post = [] /\
       req = createRoom_req p /\
       Portal_RoomID (CreateMatrixRoom env p b).1.1 = roomID /\
       (resp = None -> database.constraints (DB b) ->
        database.GetPortal (DB (CreateMatrixRoom env p b).2) (Portal_ID p)
        = (roomID, None))).
Proof.
  repeat apply conj.
  - apply rooms_created_by_le_1.
  - apply CreateMatrixRoom_twice.
  - intros n b b'. destruct (polls_progress env n b) as (d & Htr & Hd).
    subst b'. now rewrite (new_effects_app _ _ d Htr).
  - apply CreateMatrixRoom_set.
  - apply CreateMatrixRoom_adopts.
  - apply CreateMatrixRoom_persists.
Qed.

(** The theorem above after the first poll, for a fresh portal object of
    conversation c1 (as after a restart): the persisted room is adopted. *)
Lemma CreateMatrixRoom_creates_at_most_one_room_witness :
  Portal_RoomID demo.portal_new = "" /\
  database.GetPortal (DB demo.polled) "c1" = ("!r1:hs.example", None) /\
  (CreateMatrixRoom demo.env_ok demo.portal_new demo.polled).1
  = (demo.portal_c1, None).
Proof.
  split; [reflexivity|]. split; [reflexivity|].
  rewrite (proj1 (proj2 (proj2 (proj2 (proj2
             (CreateMatrixRoom_creates_at_most_one_room demo.env_ok)))))
             demo.portal_new demo.polled "!r1:hs.example" eq_refl eq_refl eq_refl
             ltac:(discriminate)).
  reflexivity.
Defined.

(** Two poll cycles that list conversation c1 create its room once. *)
Example two_polls_create_one_room :
  created_rooms (new_effects demo.started (polls demo.env_poll 2 demo.started).2)
  = ["!r1:hs.example"].
Proof. reflexivity. Qed.

(** C2 as stated fails: when the homeserver refuses the first creation,
    two calls in a row fire the room-creation operation twice (and one room
    is created). *)
Lemma CreateMatrixRoom_retried_after_failure :
  let r1 := CreateMatrixRoom demo.env_create_fails_once demo.portal_new demo.started in
  let r2 := CreateMatrixRoom demo.env_create_fails_once r1.1.1 r1.2 in
  r1.1.2 = Some (Errorf "failed to create Matrix room" (ErrRemote "M_LIMIT_EXCEEDED")) /\
  length (create_calls (new_effects demo.started r2.2)) = 2%nat /\
  created_rooms (new_effects demo.started r2.2) = ["!r2:hs.example"].
Proof. vm_compute. repeat split. Qed.

(** ** Start does not look at the time zone *)

Section startup.

Context (env : Env).

Lemma timezone_blind_ret {A} (a : A) : timezone_blind (ret a).
Proof. intros tz b. reflexivity. Qed.

Lemma timezone_blind_bind {A B} (m : M A) (k : A -> M B) :
  timezone_blind m -> (forall a, timezone_blind (k a)) -> timezone_blind (bind m k).
Proof.
  intros Hm Hk tz b. unfold bind. rewrite Hm.
  destruct (m b) as [a b1]. simpl. apply Hk.
Qed.

Lemma timezone_blind_bind_get {A} (k : Bridge -> M A) :
  (forall tz b, k (set_Timezone tz b) = k b) ->
  (forall b, timezone_blind (k b)) -> timezone_blind (bind get k).
Proof. intros Hsame Hk tz b. unfold bind, get. rewrite Hsame. apply Hk. Qed.

Lemma timezone_blind_emit e : timezone_blind (emit e).
Proof. intros tz b. reflexivity. Qed.

Lemma timezone_blind_JoinedRooms : timezone_blind (MatrixClient_JoinedRooms env).
Proof. intros tz b. reflexivity. Qed.

Lemma timezone_blind_StateEvent roomID ty key :
  timezone_blind (MatrixClient_StateEvent env roomID ty key).
Proof. intros tz b. reflexivity. Qed.

Lemma timezone_blind_CreateRoom req : timezone_blind (MatrixClient_CreateRoom env req).
Proof. intros tz b. reflexivity. Qed.

Lemma timezone_blind_SendMessageEvent roomID ty content extra :
  timezone_blind (MatrixClient_SendMessageEvent env roomID ty content extra).
Proof. intros tz b. reflexivity. Qed.

Lemma timezone_blind_first_room rooms found :
  (forall roomID, timezone_blind (found roomID)) ->
  timezone_blind (first_room rooms found).
Proof.
  intros Hfound. induction rooms as [|roomID rooms IH]; simpl.
  - apply timezone_blind_ret.
  - apply timezone_blind_bind; [apply Hfound|].
    intros [|]; [apply timezone_blind_ret | exact IH].
Qed.

Lemma timezone_blind_createOrFindManagementRoom :
  timezone_blind (createOrFindManagementRoom env).
Proof.
  unfold createOrFindManagementRoom.
  apply timezone_blind_bind; [apply timezone_blind_JoinedRooms|].
  intros [joined|e]; [|apply timezone_blind_ret].
  apply timezone_blind_bind.
  { apply timezone_blind_first_room. intros roomID.
    apply timezone_blind_bind; [apply timezone_blind_StateEvent|].
    intros [name|e]; apply timezone_blind_ret. }
  intros [roomID|]; [apply timezone_blind_ret|].
  apply timezone_blind_bind_get; [reflexivity|]. intros b.
  apply timezone_blind_bind; [apply timezone_blind_CreateRoom|].
  intros [roomID|e]; apply timezone_blind_ret.
Qed.

Lemma timezone_blind_createOrFindPersonalSpace :
  timezone_blind (createOrFindPersonalSpace env).
Proof.
  unfold createOrFindPersonalSpace.
  apply timezone_blind_bind; [apply timezone_blind_JoinedRooms|].
  intros [joined|e]; [|apply timezone_blind_ret].
  apply timezone_blind_bind.
  { apply timezone_blind_first_room. intros roomID.
    apply timezone_blind_bind; [apply timezone_blind_StateEvent|].
    intros [type|e]; [|apply timezone_blind_ret].
    destruct (decide _) as [Hspace|Hspace]; [|apply timezone_blind_ret].
    apply timezone_blind_bind; [apply timezone_blind_StateEvent|].
    intros [name|e]; apply timezone_blind_ret. }
  intros [roomID|]; [apply timezone_blind_ret|].
  apply timezone_blind_bind; [apply timezone_blind_CreateRoom|].
  intros [roomID|e]; apply timezone_blind_ret.
Qed.

Lemma timezone_blind_sendSetupMessage : timezone_blind (sendSetupMessage env).
Proof.
  unfold sendSetupMessage.
  apply timezone_blind_bind_get; [reflexivity|]. intros b.
  apply timezone_blind_bind; [apply timezone_blind_SendMessageEvent|].
  intros [ev|e]; [apply timezone_blind_ret | apply timezone_blind_emit].
Qed.

Lemma timezone_blind_Start : timezone_blind (Start env).
Proof.
  unfold Start.
  apply timezone_blind_bind; [apply timezone_blind_emit|]. intros _.
  apply timezone_blind_bind; [apply timezone_blind_createOrFindManagementRoom|].
  intros [room err].
  apply timezone_blind_bind; [intros tz b; reflexivity|]. intros _.
  destruct err as [e|]; [apply timezone_blind_ret|].
  apply timezone_blind_bind_get; [reflexivity|]. intros b.
  apply timezone_blind_bind.
  { destruct (config.PersonalSpaceEnable (Config b)); [|apply timezone_blind_ret].
    apply timezone_blind_bind; [apply timezone_blind_createOrFindPersonalSpace|].
    intros [room' err'].
    apply timezone_blind_bind; [intros tz b'; reflexivity|]. intros _.
    apply timezone_blind_ret. }
  intros [e|]; [apply timezone_blind_ret|].
  apply timezone_blind_bind; [apply timezone_blind_emit|]. intros _.
  apply timezone_blind_bind; [apply timezone_blind_emit|]. intros _.
  apply timezone_blind_bind; [apply timezone_blind_sendSetupMessage|]. intros _.
  apply timezone_blind_ret.
Qed.

End startup.

(** ** Backfill *)

Section backfill.

Context (env : Env).

Lemma GetLastMessageTimestamp_none d hostexID :
  database.conversation_messages d hostexID = [] ->
  database.GetLastMessageTimestamp d hostexID
  = (time.Unix 0 0, Some (ErrScanNull "int64")).
Proof. intros H. unfold database.GetLastMessageTimestamp. rewrite H. reflexivity. Qed.

Lemma GetLastMessageTimestamp_some d hostexID ts :
  database.MAX (map database.message_timestamp (database.conversation_messages d hostexID))
  = Some ts ->
  database.GetLastMessageTimestamp d hostexID = (time.Unix ts 0, None).
Proof. intros H. unfold database.GetLastMessageTimestamp. rewrite H. reflexivity. Qed.

(** With a cursor read from the store, the page of ten messages after it
    is asked for, and the backfill fails only if that request does. *)
Lemma BackfillMessages_cursor p b ts :
  sql_fault env (trace b) = None ->
  database.GetLastMessageTimestamp (DB b) (Portal_ID p) = (ts, None) ->
  exists resp rest,
    new_effects b (BackfillMessages env p b).2
    = [GetLastMessageTimestamp (Portal_ID p) (ts, None);
       GetMessages (Portal_ID p) ts 10 resp] ++ rest /\
    ((BackfillMessages env p b).1 = None <-> exists messages, resp = Ok messages).
Proof.
  intros Hsql Hget. unfold BackfillMessages. unfold bind at 1.
  unfold DB_GetLastMessageTimestamp. unfold_monad. simpl. rewrite Hsql, Hget. simpl.
  destruct (hostex_GetMessages env _ _ _ _) as [messages|e] eqn:Hresp.
  - set (b2 := set_trace _ (set_trace _ b)).
    set (loop := forM_ messages _).
    assert (Hmono : monotone loop).
    { subst loop. apply monotone_forM_. intros msg.
      apply monotone_bind; [apply monotone_Portal_SendMessage|].
      intros [e|]; [apply monotone_emit | apply monotone_ret]. }
    specialize (Hmono b2). destruct (loop b2) as [[] b3]. simpl in *.
    destruct Hmono as [d Hd]. exists (Ok messages), d. split; [|split; eauto].
    apply new_effects_app. rewrite Hd. subst b2. simpl. now rewrite <- !app_assoc.
  - simpl. exists (Fail e), []. split.
    + apply new_effects_app. simpl. now rewrite <- !app_assoc.
    + split; [discriminate | intros [? [=]]].
Qed.

End backfill.

(** C4: what the code does on a conversation without stored messages. The
    aggregate query yields one row holding NULL, which [Scan] cannot store
    in an [int64]; the error is not [sql.ErrNoRows], so
    [GetLastMessageTimestamp] hands it on and [BackfillMessages] fails with
    it, without asking Hostex for any message. *)
Theorem BackfillMessages_fails_without_stored_messages (env : Env) (p : Portal) (b : Bridge) :
  sql_fault env (trace b) = None ->
  database.conversation_messages (DB b) (Portal_ID p) = [] ->
  BackfillMessages env p b
  = (Some (Errorf "failed to get last message timestamp" (ErrScanNull "int64")),
     set_trace (trace b ++ [GetLastMessageTimestamp (Portal_ID p)
                              (time.Unix 0 0, Some (ErrScanNull "int64"))]) b) /\
  message_fetches (new_effects b (BackfillMessages env p b).2) = [].
Proof.
  intros Hsql Hrows.
  assert (BackfillMessages env p b
          = (Some (Errorf "failed to get last message timestamp" (ErrScanNull "int64")),
             set_trace (trace b ++ [GetLastMessageTimestamp (Portal_ID p)
                                      (time.Unix 0 0, Some (ErrScanNull "int64"))]) b)) as ->.
  { unfold BackfillMessages. unfold_db. unfold_monad. simpl.
    rewrite Hsql, (GetLastMessageTimestamp_none _ _ Hrows). reflexivity. }
  split; [reflexivity|]. simpl. now erewrite new_effects_app by reflexivity.
Qed.

(** The theorem above on conversation c1 right after its room was created:
    the first backfill fails. *)
Lemma BackfillMessages_fails_without_stored_messages_witness :
  database.conversation_messages (DB demo.polled) "c1" = [] /\
  (BackfillMessages demo.env_poll demo.portal_c1 demo.polled).1
  = Some (Errorf "failed to get last message timestamp" (ErrScanNull "int64")).
Proof.
  split; [reflexivity|].
  rewrite (proj1 (BackfillMessages_fails_without_stored_messages demo.env_poll
                    demo.portal_c1 demo.polled eq_refl eq_refl)).
  reflexivity.
Defined.

(** With a stored message the cursor is its timestamp and the page size is
    ten. *)
Example BackfillMessages_with_stored_message :
  let d := (database.StoreMessage (DB demo.polled) "c1" "$e1"
              (time.mkTime 1700000000 0 time.UTC) "Alice" "hi").1 in
  message_fetches (new_effects (set_DB d demo.polled)
                     (BackfillMessages demo.env_poll demo.portal_c1 (set_DB d demo.polled)).2)
  = [("c1", time.Unix 1700000000 0, 10)].
Proof. reflexivity. Qed.

(** C9. With a configured time zone that [time.LoadLocation] does not
    know, [Portal.SendMessage] logs the failure and goes on with UTC: the
    message is sent with the timestamp of the Hostex message taken in UTC,
    and whether the relay succeeds depends on the homeserver alone -- when
    it accepts the message, [SendMessage] returns nil and the row written to
    the store carries the UTC timestamp. And startup is not affected:
    [Start] returns the same, error or nil, whatever time zone string is
    configured. *)
Theorem Portal_SendMessage_invalid_timezone_uses_UTC (env : Env) (p : Portal)
    (msg : hostexapi.Message) (b : Bridge) (e : err) :
  time_LoadLocation env (config.Timezone (Config b)) = Fail e ->
  let timestamp := time.In (hostexapi.Timestamp msg) time.UTC in
  let content := event.mkMessageEventContent event.MsgText (hostexapi.Content msg) in
  let extra := [mautrix.mkReqSendEvent (Z.quot (time.UnixNano timestamp) 1000000)] in
  let complaint := Logger Error "Failed to load timezone" [zap_Error e] in
  let sent := matrix_SendMessageEvent env (trace b ++ [complaint]) (Portal_RoomID p)
                event.EventMessage content extra in
  let r := Portal_SendMessage env p msg b in
  time.loc timestamp = time.UTC /\
  match sent with
  | Ok eventID =>
      r.1 = None /\
      exists resp rest,
        new_effects b r.2
        = [complaint;
           SendMessageEvent (Portal_RoomID p) event.EventMessage content extra (Ok eventID);
           StoreMessage (Portal_ID p) eventID timestamp (hostexapi.Sender msg)
             (hostexapi.Content msg) resp] ++ rest /\
        matrix_sends rest = []
  | Fail e' =>
      r.1 = Some (Errorf "failed to send Matrix message" e') /\
      new_effects b r.2
      = [complaint;
         SendMessageEvent (Portal_RoomID p) event.EventMessage content extra (Fail e')]
  end /\
  (forall b0 tz, (Start env (set_Timezone tz b0)).1 = (Start env b0).1).
Proof.
  intros Hloc timestamp content extra complaint sent r.
  split; [reflexivity|].
  split; [|intros b0 tz; now rewrite timezone_blind_Start].
  subst r sent. unfold Portal_SendMessage. unfold_db. unfold_monad. simpl.
  rewrite Hloc. simpl.
  fold timestamp. fold content. fold extra. fold complaint.
  destruct (matrix_SendMessageEvent env _ _ _ _ _) as [eventID|e']; simpl.
  - split.
    + destruct (sql_fault env _); simpl; [reflexivity|].
      destruct (database.StoreMessage _ _ _ _ _ _) as [d' [e'|]]; reflexivity.
    + destruct (sql_fault env _) as [e'|]; simpl.
      * eexists (Some e'), _.
        split; [apply new_effects_app; simpl; rewrite <- ?app_assoc; reflexivity|].
        reflexivity.
      * destruct (database.StoreMessage _ _ _ _ _ _) as [d' [e'|]]; simpl.
        -- eexists (Some e'), _.
           split; [apply new_effects_app; simpl; rewrite <- ?app_assoc; reflexivity|].
           reflexivity.
        -- eexists None, [].
           split; [apply new_effects_app; simpl; rewrite <- ?app_assoc; reflexivity|].
           reflexivity.
  - split; [reflexivity|]. apply new_effects_app. simpl. now rewrite <- ?app_assoc.
Qed.

(** The theorem above on message m1 with the time zone "Mars/Olympus_Mons":
    the bridge starts and the relay succeeds. *)
Lemma Portal_SendMessage_invalid_timezone_uses_UTC_witness :
  time_LoadLocation demo.env_ok (config.Timezone (Config demo.started_bad_timezone))
    = Fail (ErrUnknownTimeZone "Mars/Olympus_Mons") /\
  (Start demo.env_ok (NewBridge demo.cfg_bad_timezone database.createTables)).1 = None /\
  (Portal_SendMessage demo.env_ok demo.portal_c1 demo.m1 demo.started_bad_timezone).1 = None.
Proof.
  split; [reflexivity|]. split; [reflexivity|].
  exact (proj1 (proj1 (proj2 (Portal_SendMessage_invalid_timezone_uses_UTC demo.env_ok
                                demo.portal_c1 demo.m1 demo.started_bad_timezone
                                (ErrUnknownTimeZone "Mars/Olympus_Mons") eq_refl)))).
Defined.

(** ** Routing of inbound events *)

(** C1: what the code does with a message typed into a bridged room. After
    the first poll the registry holds, under the conversation id "c1", the
    portal whose room is !r1:hs.example; a message event in that room --
    which is not the control room -- is looked up under the room id, not
    found, and dropped with the unknown-portal warning. Nothing is sent to
    Hostex. *)
Theorem handleMatrixMessage_drops_event_of_bridged_room :
  let evt := demo.text_event "@admin:hs.example" "!r1:hs.example" "hello" in
  portalsByID demo.polled !! "c1" = Some demo.portal_c1 /\
  Portal_RoomID demo.portal_c1 = event.RoomID evt /\
  event.RoomID evt <> managementRoom demo.polled /\
  handleMatrixMessage demo.env_poll evt demo.polled
  = (tt, set_trace (trace demo.polled ++
                      [Logger Warn "Received message for unknown portal"
                         [zap_String "room_id" "!r1:hs.example"]]) demo.polled) /\
  hostex_sends (new_effects demo.polled (handleMatrixMessage demo.env_poll evt demo.polled).2)
  = [].
Proof.
  intros evt. split; [reflexivity|]. split; [reflexivity|]. split; [discriminate|].
  assert (Hrun : handleMatrixMessage demo.env_poll evt demo.polled
                 = (tt, set_trace (trace demo.polled ++
                      [Logger Warn "Received message for unknown portal"
                         [zap_String "room_id" "!r1:hs.example"]]) demo.polled)).
  { rewrite handleMatrixMessage_portal by discriminate. reflexivity. }
  split; [exact Hrun|]. rewrite Hrun. simpl snd.
  now erewrite new_effects_app by reflexivity.
Qed.

(** An event whose room id happens to spell a conversation id is handed to
    that conversation's portal, whatever room the portal has. *)
Example handleMatrixMessage_room_named_like_conversation :
  hostex_sends (new_effects demo.polled
    (handleMatrixMessage demo.env_poll
       (demo.text_event "@admin:hs.example" "c1" "hello") demo.polled).2)
  = [("c1", "hello")].
Proof. reflexivity. Qed.

(** ** The store: lookups after writes *)

Section keyed_lookups.

Context {A : Type} (key : A -> string).

Lemma filter_key_update_where_same k f l :
  (forall r, key (f r) = k) ->
  List.filter (fun r => String.eqb (key r) k) (database.update_where key k f l)
  = map f (List.filter (fun r => String.eqb (key r) k) l).
Proof.
  intros Hf. induction l as [|x l IH]; [reflexivity|].
  rewrite update_where_cons. simpl.
  destruct (String.eqb_spec (key x) k) as [E|E]; simpl.
  - rewrite Hf, String.eqb_refl. now rewrite IH.
  - apply String.eqb_neq in E. now rewrite E.
Qed.

Lemma filter_key_update_where_other k k' f l :
  (forall r, key (f r) = k) -> k' <> k ->
  List.filter (fun r => String.eqb (key r) k') (database.update_where key k f l)
  = List.filter (fun r => String.eqb (key r) k') l.
Proof.
  intros Hf Hk. induction l as [|x l IH]; [reflexivity|].
  rewrite update_where_cons. simpl.
  destruct (String.eqb_spec (key x) k) as [E|E]; simpl.
  - rewrite Hf. subst k. apply not_eq_sym in Hk. apply String.eqb_neq in Hk.
    now rewrite Hk.
  - now rewrite IH.
Qed.

Lemma filter_key_app_other k' l x :
  key x <> k' ->
  List.filter (fun r => String.eqb (key r) k') (l ++ [x])
  = List.filter (fun r => String.eqb (key r) k') l.
Proof.
  intros Hx. rewrite List.filter_app. simpl.
  apply String.eqb_neq in Hx. rewrite Hx. apply app_nil_r.
Qed.

Lemma filter_key_present k l :
  In k (map key l) ->
  exists r rest, List.filter (fun r => String.eqb (key r) k) l = r :: rest.
Proof.
  induction l as [|x l IH]; simpl; [intros []|].
  intros Hin. destruct (String.eqb_spec (key x) k) as [E|E]; [eauto|].
  destruct Hin as [Hin|Hin]; [contradiction | auto].
Qed.

End keyed_lookups.

Section store_lookups.

Import database.

Lemma GetPortal_rows d h :
  GetPortal d h = match portal_rows d h with
                  | [] => ("", None)
                  | r :: _ => (portal_matrix_room_id r, None)
                  end.
Proof.
  unfold GetPortal, portal_rows.
  destruct (List.filter _ (portal d)); reflexivity.
Qed.

Lemma GetUser_rows d m :
  GetUser d m = match user_rows d m with
                | [] => ("", None)
                | r :: _ => (user_hostex_id r, None)
                end.
Proof.
  unfold GetUser, user_rows.
  destruct (List.filter _ (user d)); reflexivity.
Qed.

Lemma portal_rows_StorePortal d h r n t a e :
  (StorePortal d h r n t a e).2 = None ->
  exists ts rest, portal_rows (StorePortal d h r n t a e).1 h
                  = mkPortalRow h r n t a e ts :: rest.
Proof.
  unfold StorePortal, portal_rows.
  destruct (existsb _ (portal d)); [discriminate|].
  destruct (existsb _ (portal d)) eqn:Hkey; intros _; simpl.
  - rewrite (filter_key_update_where_same portal_hostex_id) by reflexivity.
    apply existsb_key in Hkey.
    destruct (filter_key_present portal_hostex_id h (portal d) Hkey) as (row & rest & ->).
    simpl. eauto.
  - rewrite List.filter_app. simpl. rewrite String.eqb_refl.
    rewrite filter_key_absent; [simpl; eauto|].
    intros Hin. apply (existsb_key portal_hostex_id) in Hin. congruence.
Qed.

Lemma portal_rows_StorePortal_other d h r n t a e h' :
  h' <> h -> portal_rows (StorePortal d h r n t a e).1 h' = portal_rows d h'.
Proof.
  intros Hne. unfold StorePortal, portal_rows.
  destruct (existsb _ (portal d)); [reflexivity|].
  destruct (existsb _ (portal d)); simpl.
  - now apply (filter_key_update_where_other portal_hostex_id).
  - apply (filter_key_app_other portal_hostex_id). simpl. congruence.
Qed.

Lemma user_rows_StoreUser d m h :
  (StoreUser d m h).2 = None ->
  exists rest, user_rows (StoreUser d m h).1 m = mkUserRow m h :: rest.
Proof.
  unfold StoreUser, user_rows.
  destruct (existsb _ (user d)); [discriminate|].
  destruct (existsb _ (user d)) eqn:Hkey; intros _; simpl.
  - rewrite (filter_key_update_where_same user_mxid) by reflexivity.
    apply existsb_key in Hkey.
    destruct (filter_key_present user_mxid m (user d) Hkey) as (row & rest & ->).
    simpl. eauto.
  - rewrite List.filter_app. simpl. rewrite String.eqb_refl.
    rewrite filter_key_absent; [simpl; eauto|].
    intros Hin. apply (existsb_key user_mxid) in Hin. congruence.
Qed.

Lemma user_rows_StoreUser_other d m h m' :
  m' <> m -> user_rows (StoreUser d m h).1 m' = user_rows d m'.
Proof.
  intros Hne. unfold StoreUser, user_rows.
  destruct (existsb _ (user d)); [reflexivity|].
  destruct (existsb _ (user d)); simpl.
  - now apply (filter_key_update_where_other user_mxid).
  - apply (filter_key_app_other user_mxid). simpl. congruence.
Qed.

Lemma MAX_snoc l x :
  MAX (l ++ [x]) = Some (match MAX l with Some m => Z.max m x | None => x end).
Proof.
  induction l as [|y l IH]; [reflexivity|]. simpl. rewrite IH.
  destruct (MAX l) as [m|]; f_equal; lia.
Qed.

Lemma MAX_None l : MAX l = None <-> l = [].
Proof.
  destruct l as [|x l]; simpl; [tauto|].
  destruct (MAX l); split; discriminate.
Qed.

Lemma MAX_Some l m :
  MAX l = Some m -> In m l /\ forall x, In x l -> x <= m.
Proof.
  revert m. induction l as [|y l IH]; simpl; [discriminate|]. intros m.
  destruct (MAX l) as [m'|] eqn:Hl.
  - intros [= <-]. destruct (IH m' eq_refl) as [Hin Hle]. split.
    + destruct (Z.max_spec y m') as [[_ ->]|[_ ->]]; auto.
    + intros x [<-|Hx]; [lia|]. specialize (Hle x Hx). lia.
  - intros [= <-]. apply MAX_None in Hl. subst l. split; [now left|].
    intros x [<-|[]]. lia.
Qed.

End store_lookups.

(** X1. What [StorePortal] writes, [GetPortal] reads: after an accepted
    write for a conversation, the lookup of that conversation gives the room
    id just written, and no error; and the lookup of any other conversation
    gives what it gave before the write, accepted or not. *)
Theorem GetPortal_after_StorePortal_round_trip (d : database.Database) (h : string)
    (r : id.RoomID) (n t a : string) (e : bool) :
  let w := database.StorePortal d h r n t a e in
  (w.2 = None -> database.GetPortal w.1 h = (r, None)) /\
  (forall h', h' <> h -> database.GetPortal w.1 h' = database.GetPortal d h').
Proof.
  intros w. subst w. split.
  - intros Hok. rewrite GetPortal_rows.
    destruct (portal_rows_StorePortal d h r n t a e Hok) as (ts & rest & ->). reflexivity.
  - intros h' Hne. rewrite !GetPortal_rows.
    now rewrite portal_rows_StorePortal_other.
Qed.

Lemma GetPortal_after_StorePortal_round_trip_witness :
  let d := (database.StorePortal database.createTables "c1" "!r1:hs.example" "n" "t" "" false).1 in
  let w := database.StorePortal d "c1" "!r9:hs.example" "n2" "t2" "" false in
  w.2 = None /\ "c2" <> "c1" /\
  database.GetPortal w.1 "c1" = ("!r9:hs.example", None) /\
  database.GetPortal w.1 "c2" = database.GetPortal d "c2".
Proof.
  intros d w. split; [reflexivity|]. split; [discriminate|]. split.
  - exact (proj1 (GetPortal_after_StorePortal_round_trip d "c1" "!r9:hs.example" "n2" "t2" "" false)
             eq_refl).
  - exact (proj2 (GetPortal_after_StorePortal_round_trip d "c1" "!r9:hs.example" "n2" "t2" "" false)
             "c2" ltac:(discriminate)).
Defined.

(** X2. What [StoreUser] writes, [GetUser] reads: after an accepted write
    for a Matrix user, the lookup of that user gives the Hostex id just
    written, and no error; and the lookup of any other user gives what it
    gave before the write, accepted or not. *)
Theorem GetUser_after_StoreUser_round_trip (d : database.Database) (m : id.UserID)
    (h : string) :
  let w := database.StoreUser d m h in
  (w.2 = None -> database.GetUser w.1 m = (h, None)) /\
  (forall m', m' <> m -> database.GetUser w.1 m' = database.GetUser d m').
Proof.
  intros w. subst w. split.
  - intros Hok. rewrite GetUser_rows.
    destruct (user_rows_StoreUser d m h Hok) as (rest & ->). reflexivity.
  - intros m' Hne. rewrite !GetUser_rows.
    now rewrite user_rows_StoreUser_other.
Qed.

Lemma GetUser_after_StoreUser_round_trip_witness :
  let d := (database.StoreUser database.createTables "@admin:hs.example" "host-1").1 in
  let w := database.StoreUser d "@admin:hs.example" "host-2" in
  w.2 = None /\ "@bob:hs.example" <> "@admin:hs.example" /\
  database.GetUser w.1 "@admin:hs.example" = ("host-2", None) /\
  database.GetUser w.1 "@bob:hs.example" = database.GetUser d "@bob:hs.example".
Proof.
  intros d w. split; [reflexivity|]. split; [discriminate|]. split.
  - exact (proj1 (GetUser_after_StoreUser_round_trip d "@admin:hs.example" "host-2") eq_refl).
  - exact (proj2 (GetUser_after_StoreUser_round_trip d "@admin:hs.example" "host-2")
             "@bob:hs.example" ltac:(discriminate)).
Defined.

(** X3. Whatever rows the store holds, the statements of [GetPortal]
    and [GetUser] return no error, so that a lookup can fail only with the
    driver: a key that has no row reads as the empty string with a nil
    error, not as [sql.ErrNoRows]. *)
Theorem lookups_never_fail (d : database.Database) :
  (forall h, (database.GetPortal d h).2 = None) /\
  (forall m, (database.GetUser d m).2 = None) /\
  (forall h, ~ In h (map database.portal_hostex_id (database.portal d)) ->
             database.GetPortal d h = ("", None)) /\
  (forall m, ~ In m (map database.user_mxid (database.user d)) ->
             database.GetUser d m = ("", None)).
Proof.
  repeat apply conj.
  - intros h. rewrite GetPortal_rows. now destruct (database.portal_rows d h).
  - intros m. rewrite GetUser_rows. now destruct (database.user_rows d m).
  - intros h Hh. rewrite GetPortal_rows. unfold database.portal_rows.
    now rewrite filter_key_absent.
  - intros m Hm. rewrite GetUser_rows. unfold database.user_rows.
    now rewrite filter_key_absent.
Qed.

Lemma lookups_never_fail_witness :
  let d := (database.StorePortal database.createTables "c1" "!r1:hs.example" "n" "t" "" false).1 in
  ~ In "c2" (map database.portal_hostex_id (database.portal d)) /\
  database.GetPortal d "c2" = ("", None).
Proof.
  intros d.
  assert (H : ~ In "c2" (map database.portal_hostex_id (database.portal d))).
  { simpl. intros [H|[]]. discriminate H. }
  split; [exact H|].
  exact (proj1 (proj2 (proj2 (lookups_never_fail d))) "c2" H).
Defined.

Section cursor.

Import database.

Lemma conversation_messages_StoreMessage d h ev ts s c h' :
  (StoreMessage d h ev ts s c).2 = None ->
  conversation_messages (StoreMessage d h ev ts s c).1 h'
  = conversation_messages d h'
    ++ (if String.eqb h h' then [mkMessageRow h ev (time.Unix_ ts) s c] else []).
Proof.
  unfold StoreMessage, conversation_messages.
  destruct (existsb _ (message d)); [discriminate|]. intros _. simpl.
  now rewrite List.filter_app.
Qed.

Lemma GetLastMessageTimestamp_MAX d h :
  GetLastMessageTimestamp d h
  = match MAX (map message_timestamp (conversation_messages d h)) with
    | Some m => (time.Unix m 0, None)
    | None => (time.Unix 0 0, Some (ErrScanNull "int64"))
    end.
Proof.
  unfold GetLastMessageTimestamp.
  destruct (MAX _); reflexivity.
Qed.

End cursor.

(** X4. [GetLastMessageTimestamp] succeeds exactly when the conversation
    has a stored message. The time it then returns is the greatest timestamp
    stored for the conversation -- that of one of its rows and not before
    any of them -- in whole seconds, in the local zone. *)
Theorem GetLastMessageTimestamp_is_latest (d : database.Database) (hostexID : string) :
  let rows := database.conversation_messages d hostexID in
  let r := database.GetLastMessageTimestamp d hostexID in
  (r.2 = None <-> rows <> []) /\
  (r.2 = None ->
     r.1 = time.mkTime (time.sec r.1) 0 time.Local /\
     (exists row, In row rows /\ database.message_timestamp row = time.sec r.1) /\
     (forall row, In row rows -> database.message_timestamp row <= time.sec r.1)).
Proof.
  intros rows r. subst r. rewrite GetLastMessageTimestamp_MAX. fold rows.
  destruct (database.MAX (map database.message_timestamp rows)) as [m|] eqn:Hmax; simpl.
  - split.
    + split; [intros _ | reflexivity]. intros ->. discriminate Hmax.
    + intros _. apply MAX_Some in Hmax as [Hin Hle].
      unfold time.Unix. rewrite Z.add_0_r. simpl. split; [reflexivity|]. split.
      * apply in_map_iff in Hin as (row & E & Hin). eauto.
      * intros row Hrow. apply Hle. now apply in_map.
  - split; [|discriminate]. split; [discriminate|].
    intros Hne. exfalso. apply Hne. apply MAX_None in Hmax.
    now destruct rows.
Qed.

Lemma GetLastMessageTimestamp_is_latest_witness :
  let t1 := time.mkTime 1700000000 5 time.UTC in
  let t2 := time.mkTime 1600000000 7 time.UTC in
  let d1 := (database.StoreMessage database.createTables "c1" "$e1" t1 "Alice" "hi").1 in
  let d2 := (database.StoreMessage d1 "c1" "$e2" t2 "Alice" "again").1 in
  (database.GetLastMessageTimestamp d2 "c1").2 = None /\
  (database.GetLastMessageTimestamp d2 "c1").1 = time.mkTime 1700000000 0 time.Local.
Proof.
  intros t1 t2 d1 d2.
  assert (H : (database.GetLastMessageTimestamp d2 "c1").2 = None) by reflexivity.
  split; [exact H|].
  rewrite (proj1 (proj2 (GetLastMessageTimestamp_is_latest d2 "c1") H)).
  reflexivity.
Defined.

(** X5. An accepted [StoreMessage] moves the cursor of its own
    conversation only: afterwards [GetLastMessageTimestamp] succeeds for
    that conversation, with the later of the old cursor and the new
    timestamp in seconds (the new timestamp alone when the read failed
    before), and reads every other conversation as it did before. *)
Theorem StoreMessage_moves_cursor (d : database.Database) (h : string) (ev : id.EventID)
    (ts : time.Time) (s c : string) :
  let w := database.StoreMessage d h ev ts s c in
  w.2 = None ->
  database.GetLastMessageTimestamp w.1 h
  = (time.Unix (match database.GetLastMessageTimestamp d h with
                | (last, None) => Z.max (time.Unix_ last) (time.Unix_ ts)
                | (_, Some _) => time.Unix_ ts
                end) 0, None) /\
  (forall h', h' <> h ->
     database.GetLastMessageTimestamp w.1 h' = database.GetLastMessageTimestamp d h').
Proof.
  intros w Hok. subst w. split.
  - rewrite !GetLastMessageTimestamp_MAX.
    rewrite conversation_messages_StoreMessage by exact Hok.
    rewrite String.eqb_refl, map_app. simpl map. rewrite MAX_snoc.
    destruct (database.MAX _) as [m|]; [|reflexivity].
    replace (time.Unix_ (time.Unix m 0)) with m; [reflexivity|].
    unfold time.Unix_, time.Unix. cbn [time.sec]. rewrite Zdiv_0_l. lia.
  - intros h' Hne. rewrite !GetLastMessageTimestamp_MAX.
    rewrite conversation_messages_StoreMessage by exact Hok.
    apply not_eq_sym in Hne. apply String.eqb_neq in Hne. rewrite Hne.
    now rewrite app_nil_r.
Qed.

Lemma StoreMessage_moves_cursor_witness :
  let t1 := time.mkTime 1700000000 5 time.UTC in
  let w := database.StoreMessage database.createTables "c1" "$e1" t1 "Alice" "hi" in
  w.2 = None /\
  database.GetLastMessageTimestamp w.1 "c1" = (time.mkTime 1700000000 0 time.Local, None).
Proof.
  intros t1 w. subst w. split; [reflexivity|].
  rewrite (proj1 (StoreMessage_moves_cursor database.createTables "c1" "$e1" t1 "Alice" "hi"
                    eq_refl)).
  reflexivity.
Defined.

(** X6. When a write is accepted: [StorePortal], resp. [StoreUser],
    exactly when no row under another key holds the room id, resp. the
    Hostex id; [StoreMessage] exactly when no row of the table, of whatever
    conversation, holds the event id. A write that is refused returns the
    constraint error of its table and leaves the store as it was. *)
Theorem store_write_accepted_iff (d : database.Database) :
  (forall h r n t a e,
     let w := database.StorePortal d h r n t a e in
     (w.2 = None <->
      forall row, In row (database.portal d) ->
                  database.portal_hostex_id row <> h ->
                  database.portal_matrix_room_id row <> r) /\
     (w.2 <> None -> w = (d, Some (ErrConstraint "portal")))) /\
  (forall m h,
     let w := database.StoreUser d m h in
     (w.2 = None <->
      forall row, In row (database.user d) ->
                  database.user_mxid row <> m -> database.user_hostex_id row <> h) /\
     (w.2 <> None -> w = (d, Some (ErrConstraint "user")))) /\
  (forall h ev ts s c,
     let w := database.StoreMessage d h ev ts s c in
     (w.2 = None <-> ~ In ev (map database.message_matrix_event_id (database.message d))) /\
     (w.2 <> None -> w = (d, Some (ErrConstraint "message")))).
Proof.
  repeat apply conj.
  - intros h r n t a e w. subst w. unfold database.StorePortal.
    rewrite <- (existsb_other database.portal_hostex_id database.portal_matrix_room_id).
    destruct (existsb _ (database.portal d)); simpl.
    + split; [split; discriminate | reflexivity].
    + destruct (existsb _ (database.portal d)); simpl;
        (split; [split; reflexivity | intros H; now destruct H]).
  - intros m h w. subst w. unfold database.StoreUser.
    rewrite <- (existsb_other database.user_mxid database.user_hostex_id).
    destruct (existsb _ (database.user d)); simpl.
    + split; [split; discriminate | reflexivity].
    + destruct (existsb _ (database.user d)); simpl;
        (split; [split; reflexivity | intros H; now destruct H]).
  - intros h ev ts s c w. subst w. unfold database.StoreMessage.
    rewrite <- (existsb_key database.message_matrix_event_id).
    destruct (existsb _ (database.message d)); simpl.
    + split; [split; [discriminate | intros H; now destruct H] | reflexivity].
    + split; [split; [discriminate | reflexivity] | intros H; now destruct H].
Qed.

Lemma store_write_accepted_iff_witness :
  let t := time.mkTime 1700000000 0 time.UTC in
  let d := (database.StoreMessage database.createTables "c1" "$e1" t "Alice" "hi").1 in
  (database.StoreMessage d "c2" "$e1" t "Bob" "hello").2 <> None /\
  database.StoreMessage d "c2" "$e1" t "Bob" "hello" = (d, Some (ErrConstraint "message")).
Proof.
  intros t d.
  assert (H : (database.StoreMessage d "c2" "$e1" t "Bob" "hello").2 <> None) by discriminate.
  split; [exact H|].
  exact (proj2 (proj2 (proj2 (store_write_accepted_iff d)) "c2" "$e1" t "Bob" "hello") H).
Defined.

(** ** What the bridge keeps while it runs *)

Lemma respects_bind_get {A} (R : Bridge -> Bridge -> Prop) (k : Bridge -> M A) :
  (forall b, R b (k b b).2) -> respects R (bind get k).
Proof. intros H b. apply H. Qed.

Lemma respects_impl {A} (R R' : Bridge -> Bridge -> Prop) (m : M A) :
  (forall b b', R b b' -> R' b b') -> respects R m -> respects R' m.
Proof. intros H Hm b. apply H, Hm. Qed.

(** Walks through code built from [bind], [ret], [get], loops and case
    distinctions; [leaf] settles the calls it knows. *)
Ltac walk refl trans leaf :=
  repeat first
    [ apply (respects_ret _ refl)
    | apply (respects_get _ refl)
    | leaf
    | apply (respects_bind _ trans); [|intros]
    | apply (respects_forM_ _ refl trans); intros
    | match goal with
      | |- respects _ (match ?x with _ => _ end) => destruct x
      | |- respects _ (let '(_, _) := ?x in _) => destruct x
      | |- respects _ (if ?c then _ else _) => destruct c
      end
    | progress cbv zeta
    | progress unfold Logger_Info, Logger_Warn, Logger_Error,
        MatrixClient_CreateRoom, MatrixClient_SendMessageEvent, MatrixClient_SendStateEvent,
        MatrixClient_JoinedRooms, MatrixClient_StateEvent,
        HostexClient_GetConversations, HostexClient_GetMessages, HostexClient_SendMessage,
        time_Now_, DB_GetPortal, DB_GetLastMessageTimestamp, go ].

Section steady_facts.

Context (env : Env).

Lemma no_row_deleted_trans d1 d2 d3 :
  database.no_row_deleted d1 d2 -> database.no_row_deleted d2 d3 ->
  database.no_row_deleted d1 d3.
Proof.
  intros (P1 & M1 & U1) (P2 & M2 & U2). repeat split; etransitivity; eassumption.
Qed.

Lemma steady_refl b : steady b b.
Proof.
  unfold steady. split_and!; auto. apply no_row_deleted_refl.
Qed.

Lemma steady_trans b1 b2 b3 : steady b1 b2 -> steady b2 b3 -> steady b1 b3.
Proof.
  intros (C1 & M1 & S1 & K1 & R1 & P1 & U1 & X1) (C2 & M2 & S2 & K2 & R2 & P2 & U2 & X2).
  unfold steady. split_and!; try congruence; auto.
  - eapply no_row_deleted_trans; eassumption.
  - etransitivity; eassumption.
  - intros k u Hk. destruct (X2 k u Hk) as [H|[H1 H2]]; [auto|].
    right. split; congruence.
Qed.

(** A step that leaves the configuration, the rooms, the store and the
    users alone. *)
Lemma steady_same b b' :
  Config b' = Config b -> managementRoom b' = managementRoom b ->
  spaceRoom b' = spaceRoom b -> DB b' = DB b -> usersByMXID b' = usersByMXID b ->
  steady b b'.
Proof.
  intros HC HM HS HD HU. unfold steady. rewrite HD, HU, HC, HM, HS.
  apply steady_refl.
Qed.

Lemma steady_emit e : respects steady (emit e).
Proof. intros b. now apply steady_same. Qed.

Lemma steady_modify (f : Bridge -> Bridge) :
  (forall b, Config (f b) = Config b) ->
  (forall b, managementRoom (f b) = managementRoom b) ->
  (forall b, spaceRoom (f b) = spaceRoom b) ->
  (forall b, DB (f b) = DB b) ->
  (forall b, usersByMXID (f b) = usersByMXID b) ->
  respects steady (modify f).
Proof. intros HC HM HS HD HU b. apply steady_same; simpl; auto. Qed.

Lemma steady_DB_StorePortal h r n t a e : respects steady (DB_StorePortal env h r n t a e).
Proof.
  intros b. unfold DB_StorePortal. unfold_monad. simpl.
  destruct (sql_fault env (trace b)); simpl; [now apply steady_same|].
  pose proof (StorePortal_constraints (DB b) h r n t a e) as Hc.
  pose proof (StorePortal_no_row_deleted (DB b) h r n t a e) as Hd.
  assert (Hm : database.message (database.StorePortal (DB b) h r n t a e).1
               = database.message (DB b)).
  { unfold database.StorePortal. now repeat destruct (existsb _ _). }
  assert (Hu : database.user (database.StorePortal (DB b) h r n t a e).1
               = database.user (DB b)).
  { unfold database.StorePortal. now repeat destruct (existsb _ _). }
  destruct (database.StorePortal _ _ _ _ _ _ _) as [d' err]. simpl in *.
  unfold steady. split_and!; auto. simpl. rewrite Hm. reflexivity.
Qed.

Lemma steady_DB_StoreMessage h ev ts s c : respects steady (DB_StoreMessage env h ev ts s c).
Proof.
  intros b. unfold DB_StoreMessage. unfold_monad. simpl.
  destruct (sql_fault env (trace b)); simpl; [now apply steady_same|].
  pose proof (StoreMessage_constraints (DB b) h ev ts s c) as Hc.
  pose proof (StoreMessage_no_row_deleted (DB b) h ev ts s c) as Hd.
  assert (Hm : database.message (DB b)
               `prefix_of` database.message (database.StoreMessage (DB b) h ev ts s c).1).
  { unfold database.StoreMessage. destruct (existsb _ _); simpl; [reflexivity|].
    now apply prefix_app_r. }
  assert (Hu : database.user (database.StoreMessage (DB b) h ev ts s c).1
               = database.user (DB b)).
  { unfold database.StoreMessage. now destruct (existsb _ _). }
  destruct (database.StoreMessage _ _ _ _ _ _) as [d' err]. simpl in *.
  unfold steady. split_and!; auto.
Qed.

Ltac steady_leaf :=
  first
    [ apply steady_emit
    | apply steady_modify; reflexivity
    | apply steady_DB_StorePortal
    | apply steady_DB_StoreMessage ].

Ltac steadily := walk steady_refl steady_trans steady_leaf.

Lemma steady_CreateMatrixRoom p : respects steady (CreateMatrixRoom env p).
Proof. unfold CreateMatrixRoom, addToPersonalSpace. steadily. Qed.

Lemma steady_Portal_SendMessage p msg : respects steady (Portal_SendMessage env p msg).
Proof. unfold Portal_SendMessage. steadily. Qed.

Lemma steady_BackfillMessages p : respects steady (BackfillMessages env p).
Proof.
  unfold BackfillMessages.
  walk steady_refl steady_trans ltac:(first [steady_leaf | apply steady_Portal_SendMessage]).
Qed.

Lemma steady_handleHostexConversation conv :
  respects steady (handleHostexConversation env conv).
Proof.
  unfold handleHostexConversation.
  walk steady_refl steady_trans
    ltac:(first [steady_leaf | apply steady_CreateMatrixRoom | apply steady_BackfillMessages]).
Qed.

Lemma steady_pollHostex : respects steady (pollHostex env).
Proof.
  unfold pollHostex.
  walk steady_refl steady_trans
    ltac:(first [steady_leaf | apply steady_handleHostexConversation]).
Qed.

Lemma steady_Portal_HandleMatrixMessage p evt :
  respects steady (Portal_HandleMatrixMessage env p evt).
Proof. unfold Portal_HandleMatrixMessage. steadily. Qed.

Lemma steady_HandleCommand u roomID body : respects steady (HandleCommand env u roomID body).
Proof.
  unfold HandleCommand, sendHelpMessage, sendStatusMessage, listConversations,
    forceSyncConversations, sendNotice, sendUnknownCommandMessage.
  steadily.
Qed.

Lemma steady_handleManagementCommand evt :
  respects steady (handleManagementCommand env evt).
Proof.
  unfold handleManagementCommand. apply respects_bind_get. intros b.
  destruct (decide _) as [Hsender|Hsender]; [apply steady_emit|].
  destruct (event.Content evt) as [|content|]; try apply steady_refl.
  unfold bind at 1.
  destruct (usersByMXID b !! event.Sender evt) as [user|] eqn:Huser; simpl.
  - apply steady_HandleCommand.
  - eapply steady_trans; [|apply steady_HandleCommand].
    unfold steady. split_and!; auto; try apply no_row_deleted_refl. simpl.
    intros k u. destruct (decide (k = event.Sender evt)) as [->|Hk].
    + rewrite lookup_insert_eq. intros [= <-]. right. split; [|reflexivity].
      destruct (decide (event.Sender evt = config.Admin_UserID (Config b))); [assumption|].
      contradiction.
    + rewrite lookup_insert_ne by congruence. auto.
Qed.

Lemma steady_handleMatrixMessage evt : respects steady (handleMatrixMessage env evt).
Proof.
  unfold handleMatrixMessage.
  walk steady_refl steady_trans
    ltac:(first [steady_leaf | apply steady_handleManagementCommand
                | apply steady_Portal_HandleMatrixMessage]).
Qed.

Lemma steady_run_goroutines : respects steady (run_goroutines env).
Proof.
  unfold run_goroutines, run_goroutine, sendNotice.
  walk steady_refl steady_trans ltac:(first [steady_leaf | apply steady_pollHostex]).
Qed.

Lemma steady_step i : respects steady (step env i).
Proof.
  unfold step, OnEventType.
  walk steady_refl steady_trans
    ltac:(first [steady_leaf | apply steady_pollHostex | apply steady_handleMatrixMessage
                | apply steady_run_goroutines]).
Qed.

Lemma steady_run inputs : respects steady (run env inputs).
Proof.
  unfold run. apply (respects_forM_ _ steady_refl steady_trans). apply steady_step.
Qed.

End steady_facts.

Section registry_facts.

Context (env : Env).

Lemma registry_grows_refl b : registry_grows b b.
Proof. split; [|auto]. intros k p Hk. exists p. auto. Qed.

Lemma registry_grows_trans b1 b2 b3 :
  registry_grows b1 b2 -> registry_grows b2 b3 -> registry_grows b1 b3.
Proof.
  intros [G1 K1] [G2 K2]. split; [|auto].
  intros k p Hk. destruct (G1 k p Hk) as (p' & Hk' & Hid' & Hroom').
  destruct (G2 k p' Hk') as (p'' & Hk'' & Hid'' & Hroom'').
  exists p''. split; [assumption|]. split; [congruence|].
  intros Hp. rewrite Hroom'' by (rewrite Hroom'; assumption). auto.
Qed.

Lemma same_registry_grows b b' : same_registry b b' -> registry_grows b b'.
Proof.
  unfold same_registry. intros H. unfold registry_grows. rewrite H.
  apply registry_grows_refl.
Qed.

Lemma same_registry_modify (f : Bridge -> Bridge) :
  (forall b, portalsByID (f b) = portalsByID b) -> respects same_registry (modify f).
Proof. intros H b. apply H. Qed.

Ltac framed_leaf :=
  first
    [ apply same_registry_emit
    | apply same_registry_modify; reflexivity ].

Ltac framed := walk same_registry_refl same_registry_trans framed_leaf.

Lemma same_registry_DB_StoreMessage h ev ts s c :
  respects same_registry (DB_StoreMessage env h ev ts s c).
Proof. unfold DB_StoreMessage. framed. Qed.

Lemma same_registry_Portal_SendMessage p msg :
  respects same_registry (Portal_SendMessage env p msg).
Proof.
  unfold Portal_SendMessage.
  walk same_registry_refl same_registry_trans
    ltac:(first [framed_leaf | apply same_registry_DB_StoreMessage]).
Qed.

Lemma same_registry_BackfillMessages p : respects same_registry (BackfillMessages env p).
Proof.
  unfold BackfillMessages.
  walk same_registry_refl same_registry_trans
    ltac:(first [framed_leaf | apply same_registry_Portal_SendMessage]).
Qed.

Lemma same_registry_Portal_HandleMatrixMessage p evt :
  respects same_registry (Portal_HandleMatrixMessage env p evt).
Proof.
  unfold Portal_HandleMatrixMessage.
  walk same_registry_refl same_registry_trans
    ltac:(first [framed_leaf | apply same_registry_DB_StoreMessage]).
Qed.

Lemma same_registry_HandleCommand u roomID body :
  respects same_registry (HandleCommand env u roomID body).
Proof.
  unfold HandleCommand, sendHelpMessage, sendStatusMessage, listConversations,
    forceSyncConversations, sendNotice, sendUnknownCommandMessage.
  framed.
Qed.

Lemma same_registry_handleMatrixMessage evt :
  respects same_registry (handleMatrixMessage env evt).
Proof.
  unfold handleMatrixMessage, handleManagementCommand.
  walk same_registry_refl same_registry_trans
    ltac:(first [framed_leaf | apply same_registry_HandleCommand
                | apply same_registry_Portal_HandleMatrixMessage]).
Qed.

(** [CreateMatrixRoom] assigns to the room id of its receiver only. *)
Lemma CreateMatrixRoom_portal p b :
  exists r, (CreateMatrixRoom env p b).1.1 = mkPortal (Portal_ID p) r (Portal_Info p).
Proof.
  unfold CreateMatrixRoom, addToPersonalSpace. unfold_db. unfold_monad.
  destruct (decide (Portal_RoomID p <> "")); simpl; [destruct p; eauto|].
  destruct (sql_fault env (trace b)) as [e|]; simpl; [destruct p; eauto|].
  destruct (database.GetPortal (DB b) (Portal_ID p)) as [r [e|]]; simpl; [destruct p; eauto|].
  destruct (decide (r <> "")); simpl; [eauto|].
  destruct (matrix_CreateRoom env _ _) as [roomID|e]; simpl; [|destruct p; eauto].
  destruct (sql_fault env _) as [e|]; simpl; [eauto|].
  destruct (database.StorePortal _ _ _ _ _ _ _) as [d' [e|]]; simpl; [eauto|].
  destruct (config.PersonalSpaceEnable (Config b)); simpl; [|eauto].
  destruct (matrix_SendStateEvent env _ _ _ _ _); simpl; eauto.
Qed.

(** What one conversation of a poll does to the registry: the portal under
    its id is the one that was there, or a new one, with the snapshot of the
    conversation and the room [CreateMatrixRoom] left in it. *)
Lemma handleHostexConversation_registry conv b :
  let cid := hostexapi.Conversation_ID conv in
  let portal0 := default (NewPortal cid) (portalsByID b !! cid) in
  exists r,
    portalsByID (handleHostexConversation env conv b).2
    = <[cid := mkPortal (Portal_ID portal0) r conv]> (portalsByID b) /\
    (Portal_RoomID portal0 <> "" -> r = Portal_RoomID portal0).
Proof.
  intros cid portal0. unfold handleHostexConversation. fold cid.
  unfold bind at 1. unfold get at 1.
  set (p1 := UpdateInfo portal0 conv).
  set (b2 := set_portalsByID (<[cid := p1]> (portalsByID b)) b).
  assert (Hstep : forall (k : Portal -> M unit),
            bind (match portalsByID b !! cid with
                  | Some portal => ret portal
                  | None =>
                      bind (modify (fun b0 => set_portalsByID
                                      (<[cid := NewPortal cid]> (portalsByID b0)) b0))
                           (fun _ => ret (NewPortal cid))
                  end)
              (fun portal =>
                 bind (modify (fun b0 => set_portalsByID
                                 (<[cid := UpdateInfo portal conv]> (portalsByID b0)) b0))
                      (fun _ => k portal)) b
            = k portal0 b2).
  { intros k. subst b2 p1 portal0. unfold bind, modify, ret.
    destruct (portalsByID b !! cid) as [portal|]; simpl; [reflexivity|].
    unfold set_portalsByID. simpl. now rewrite insert_insert_eq. }
  cbv zeta. rewrite Hstep. clear Hstep. fold p1.
  unfold bind at 1.
  destruct (CreateMatrixRoom_portal p1 b2) as [r Hp'].
  pose proof (same_registry_CreateMatrixRoom env p1 b2) as Hreg.
  pose proof (CreateMatrixRoom_set env p1 b2) as Hset.
  destruct (CreateMatrixRoom env p1 b2) as [[p' err] b3]. simpl in *.
  unfold bind at 1, modify at 1.
  set (b4 := set_portalsByID _ b3).
  assert (Hm : portalsByID b4 = <[cid := p']> (portalsByID b)).
  { change (portalsByID b4) with (<[cid := p']> (portalsByID b3)).
    unfold same_registry in Hreg. rewrite Hreg.
    subst b2. cbn [portalsByID set_portalsByID].
    apply insert_insert_eq. }
  exists r. split.
  - rewrite <- Hp', <- Hm.
    destruct err as [e|]; [reflexivity|].
    pose proof (same_registry_BackfillMessages p' b4) as Hback.
    unfold bind. destruct (BackfillMessages env p' b4) as [[e|] b5]; exact Hback.
  - intros H0. specialize (Hset H0). injection Hset as Hp _ _.
    rewrite Hp in Hp'. subst p1. now injection Hp'.
Qed.

Lemma registry_grows_handleHostexConversation conv :
  respects registry_grows (handleHostexConversation env conv).
Proof.
  intros b. destruct (handleHostexConversation_registry conv b) as (r & Hm & Hr).
  set (cid := hostexapi.Conversation_ID conv) in *.
  split.
  - intros k p Hk. rewrite Hm. destruct (decide (k = cid)) as [->|Hne].
    + rewrite lookup_insert_eq. rewrite Hk in Hr |- *. simpl in *.
      eexists. split; [reflexivity|]. simpl. split; [reflexivity|]. exact Hr.
    + rewrite lookup_insert_ne by congruence. eauto.
  - intros Hkeyed k p. rewrite Hm. destruct (decide (k = cid)) as [->|Hne].
    + rewrite lookup_insert_eq. intros [= <-]. simpl.
      destruct (portalsByID b !! cid) as [q|] eqn:Hq; simpl; [eauto | reflexivity].
    + rewrite lookup_insert_ne by congruence. apply Hkeyed.
Qed.

Ltac growing_leaf :=
  first
    [ apply (respects_impl _ _ _ same_registry_grows); first
        [ apply same_registry_emit
        | apply same_registry_modify; reflexivity
        | apply same_registry_handleMatrixMessage
        | apply same_registry_HandleCommand ]
    | apply registry_grows_handleHostexConversation ].

Lemma registry_grows_pollHostex : respects registry_grows (pollHostex env).
Proof. unfold pollHostex. walk registry_grows_refl registry_grows_trans growing_leaf. Qed.

Lemma registry_grows_run_goroutines : respects registry_grows (run_goroutines env).
Proof.
  unfold run_goroutines, run_goroutine, sendNotice.
  walk registry_grows_refl registry_grows_trans
    ltac:(first [growing_leaf | apply registry_grows_pollHostex]).
Qed.

Lemma registry_grows_run inputs : respects registry_grows (run env inputs).
Proof.
  unfold run, step, OnEventType.
  walk registry_grows_refl registry_grows_trans
    ltac:(first [growing_leaf | apply registry_grows_pollHostex
                | apply registry_grows_run_goroutines]).
Qed.

End registry_facts.

(** X7. While the bridge runs -- polls, inbound events, failed syncs and
    command goroutines in any order, one handler at a time -- the store
    keeps the constraints of its schema, so there is at most one row per
    primary key, and no row of any table is deleted. *)
Theorem run_keeps_store_constraints (env : Env) (inputs : list Input) (b : Bridge) :
  database.constraints (DB b) ->
  let b' := (run env inputs b).2 in
  database.constraints (DB b') /\
  database.one_row_per_key (DB b') /\
  database.no_row_deleted (DB b) (DB b').
Proof.
  intros Hc b'. subst b'.
  destruct (steady_run env inputs b) as (_ & _ & _ & Hk & Hd & _).
  split; [auto|]. split; [|exact Hd]. now apply constraints_one_row_per_key, Hk.
Qed.

Lemma run_keeps_store_constraints_witness :
  let evt := demo.text_event "@admin:hs.example" "c1" "hello" in
  let b' := (run demo.env_poll [Tick; Synced evt; Tick] demo.started).2 in
  database.constraints (DB demo.started) /\
  database.constraints (DB b') /\
  length (database.message (DB b')) = 1%nat.
Proof.
  intros evt b'.
  assert (Hc : database.constraints (DB demo.started)) by exact createTables_constraints.
  split; [exact Hc|]. split.
  - exact (proj1 (run_keeps_store_constraints demo.env_poll [Tick; Synced evt; Tick]
                    demo.started Hc)).
  - reflexivity.
Defined.

(** X8. While the bridge runs, the message table only grows at its end:
    the rows written earlier are neither changed nor removed; and the user
    table is never written. *)
Theorem run_appends_messages_only (env : Env) (inputs : list Input) (b : Bridge) :
  let b' := (run env inputs b).2 in
  database.message (DB b) `prefix_of` database.message (DB b') /\
  database.user (DB b') = database.user (DB b).
Proof.
  intros b'. subst b'.
  destruct (steady_run env inputs b) as (_ & _ & _ & _ & _ & Hm & Hu & _). auto.
Qed.

(** X9. While the bridge runs, every portal stays in the registry under
    its key, keeps its conversation id and, once it has a room, keeps that
    room; and a registry in which every portal sits under its own
    conversation id stays so. *)
Theorem run_keeps_registry (env : Env) (inputs : list Input) (b : Bridge) :
  let b' := (run env inputs b).2 in
  (forall k p, portalsByID b !! k = Some p ->
     exists p', portalsByID b' !! k = Some p' /\
                Portal_ID p' = Portal_ID p /\
                (Portal_RoomID p <> "" -> Portal_RoomID p' = Portal_RoomID p)) /\
  ((forall k p, portalsByID b !! k = Some p -> Portal_ID p = k) ->
   (forall k p, portalsByID b' !! k = Some p -> Portal_ID p = k)).
Proof. intros b'. exact (registry_grows_run env inputs b). Qed.

Lemma run_keeps_registry_witness :
  let evt := demo.text_event "@admin:hs.example" "!mgmt:hs.example" "!sync" in
  let b' := (run demo.env_poll [Synced evt; Scheduled; Tick] demo.polled).2 in
  portalsByID demo.polled !! "c1" = Some demo.portal_c1 /\
  Portal_RoomID demo.portal_c1 <> "" /\
  exists p', portalsByID b' !! "c1" = Some p' /\ Portal_RoomID p' = "!r1:hs.example".
Proof.
  intros evt b'.
  assert (Hk : portalsByID demo.polled !! "c1" = Some demo.portal_c1) by reflexivity.
  assert (Hr : Portal_RoomID demo.portal_c1 <> "") by discriminate.
  split; [exact Hk|]. split; [exact Hr|].
  destruct (proj1 (run_keeps_registry demo.env_poll [Synced evt; Scheduled; Tick] demo.polled)
              "c1" demo.portal_c1 Hk) as (p' & Hk' & _ & Hroom).
  exists p'. split; [exact Hk'|]. exact (Hroom Hr).
Defined.

(** X10. While the bridge runs, its configuration, its control room and
    its space stay what they were, and the only user object that is ever
    added to the registry of users is the one of the configured admin. *)
Theorem run_creates_admin_user_only (env : Env) (inputs : list Input) (b : Bridge) :
  let b' := (run env inputs b).2 in
  Config b' = Config b /\
  managementRoom b' = managementRoom b /\
  spaceRoom b' = spaceRoom b /\
  (forall k u, usersByMXID b' !! k = Some u ->
     usersByMXID b !! k = Some u \/
     (k = config.Admin_UserID (Config b) /\ u = mkUser k)).
Proof.
  intros b'. subst b'.
  destruct (steady_run env inputs b) as (HC & HM & HS & _ & _ & _ & _ & HU). auto.
Qed.

Lemma run_creates_admin_user_only_witness :
  let mallory := demo.text_event "@mallory:hs.example" "!mgmt:hs.example" "!help" in
  let admin := demo.text_event "@admin:hs.example" "!mgmt:hs.example" "!help" in
  let b' := (run demo.env_ok [Synced mallory; Synced admin] demo.started).2 in
  usersByMXID b' !! "@admin:hs.example" = Some (mkUser "@admin:hs.example") /\
  (usersByMXID demo.started !! "@admin:hs.example" = Some (mkUser "@admin:hs.example") \/
   ("@admin:hs.example" = config.Admin_UserID (Config demo.started) /\
    mkUser "@admin:hs.example" = mkUser "@admin:hs.example")) /\
  usersByMXID b' !! "@mallory:hs.example" = None.
Proof.
  intros mallory admin b'.
  assert (Hk : usersByMXID b' !! "@admin:hs.example" = Some (mkUser "@admin:hs.example"))
    by reflexivity.
  split; [exact Hk|]. split; [|reflexivity].
  exact (proj2 (proj2 (proj2 (run_creates_admin_user_only demo.env_ok
                                [Synced mallory; Synced admin] demo.started)))
           "@admin:hs.example" (mkUser "@admin:hs.example") Hk).
Defined.

Section registering.

Context (env : Env).

Lemma forM_handleHostexConversation_other conversations k b :
  ~ In k (map hostexapi.Conversation_ID conversations) ->
  portalsByID (forM_ conversations (handleHostexConversation env) b).2 !! k
  = portalsByID b !! k.
Proof.
  revert b. induction conversations as [|conv rest IH]; intros b Hk; [reflexivity|].
  simpl in *. unfold bind.
  destruct (handleHostexConversation_registry env conv b) as (r & Hm & _).
  destruct (handleHostexConversation env conv b) as [[] b1]. simpl in *.
  rewrite IH by tauto. rewrite Hm. apply lookup_insert_ne. tauto.
Qed.

Lemma forM_handleHostexConversation_registers conversations b :
  forall conv, In conv conversations ->
    exists p conv',
      portalsByID (forM_ conversations (handleHostexConversation env) b).2
        !! hostexapi.Conversation_ID conv = Some p /\
      In conv' conversations /\
      hostexapi.Conversation_ID conv' = hostexapi.Conversation_ID conv /\
      Portal_Info p = conv'.
Proof.
  revert b. induction conversations as [|c rest IH]; intros b conv Hin; [destruct Hin|].
  simpl forM_. unfold bind.
  destruct (handleHostexConversation_registry env c b) as (r & Hm & _).
  destruct (handleHostexConversation env c b) as [[] b1]. simpl in Hm |- *.
  destruct (in_dec String.string_dec (hostexapi.Conversation_ID conv)
                   (map hostexapi.Conversation_ID rest)) as [Hlater|Hlast].
  - apply in_map_iff in Hlater as (conv2 & Hid & Hin2).
    destruct (IH b1 conv2 Hin2) as (p & conv' & Hk & Hin' & Hid' & Hinfo).
    exists p, conv'. rewrite <- Hid. split; [exact Hk|]. split; [now right|].
    split; [congruence | exact Hinfo].
  - destruct Hin as [->|Hin]; [|exfalso; apply Hlast; now apply in_map].
    rewrite forM_handleHostexConversation_other by exact Hlast.
    rewrite Hm, lookup_insert_eq.
    eexists _, conv. split; [reflexivity|]. split; [now left|]. split; reflexivity.
Qed.

End registering.

(** X11. A poll to which Hostex answers with a list of conversations
    registers every one of them: afterwards the registry holds, under the
    id of each listed conversation, a portal that carries a snapshot listed
    under that id. *)
Theorem pollHostex_registers_conversations (env : Env) (b : Bridge)
    (conversations : list hostexapi.Conversation) :
  let now := time_Now env (trace b) in
  hostex_GetConversations env (trace b ++ [Now now]) = Ok conversations ->
  let b' := (pollHostex env b).2 in
  forall conv, In conv conversations ->
    exists p conv',
      portalsByID b' !! hostexapi.Conversation_ID conv = Some p /\
      In conv' conversations /\
      hostexapi.Conversation_ID conv' = hostexapi.Conversation_ID conv /\
      Portal_Info p = conv'.
Proof.
  intros now Hresp b' conv Hin. subst b'.
  unfold pollHostex. unfold_monad. simpl. fold now. rewrite Hresp.
  now apply forM_handleHostexConversation_registers.
Qed.

Lemma pollHostex_registers_conversations_witness :
  hostex_GetConversations demo.env_poll
    (trace demo.started ++ [Now (time_Now demo.env_poll (trace demo.started))])
  = Ok [demo.alice] /\
  exists p conv',
    portalsByID (pollHostex demo.env_poll demo.started).2 !! "c1" = Some p /\
    In conv' [demo.alice] /\
    hostexapi.Conversation_ID conv' = "c1" /\
    Portal_Info p = conv'.
Proof.
  split; [reflexivity|].
  exact (pollHostex_registers_conversations demo.env_poll demo.started [demo.alice]
           eq_refl demo.alice (or_introl eq_refl)).
Defined.

(** ** The time of the last poll *)

Section last_poll.

Context (env : Env).

Lemma same_lastPollTime_refl b : same_lastPollTime b b.
Proof. reflexivity. Qed.

Lemma same_lastPollTime_trans b1 b2 b3 :
  same_lastPollTime b1 b2 -> same_lastPollTime b2 b3 -> same_lastPollTime b1 b3.
Proof. unfold same_lastPollTime. congruence. Qed.

Lemma same_lastPollTime_emit e : respects same_lastPollTime (emit e).
Proof. intros b. reflexivity. Qed.

Lemma same_lastPollTime_modify (f : Bridge -> Bridge) :
  (forall b, lastPollTime (f b) = lastPollTime b) -> respects same_lastPollTime (modify f).
Proof. intros H b. apply H. Qed.

Ltac timeless_leaf :=
  first
    [ apply same_lastPollTime_emit
    | apply same_lastPollTime_modify; reflexivity ].

Lemma same_lastPollTime_handleHostexConversation conv :
  respects same_lastPollTime (handleHostexConversation env conv).
Proof.
  unfold handleHostexConversation, CreateMatrixRoom, addToPersonalSpace, BackfillMessages,
    Portal_SendMessage, DB_StorePortal, DB_StoreMessage.
  walk same_lastPollTime_refl same_lastPollTime_trans timeless_leaf.
Qed.

Lemma lastPollTime_pollHostex b :
  lastPollTime (pollHostex env b).2 = time_Now env (trace b).
Proof.
  unfold pollHostex. unfold_monad. simpl.
  destruct (hostex_GetConversations env _) as [conversations|e]; [|reflexivity].
  set (b1 := set_trace _ _).
  change (time_Now env (trace b)) with (lastPollTime b1).
  apply (respects_forM_ _ same_lastPollTime_refl same_lastPollTime_trans).
  apply same_lastPollTime_handleHostexConversation.
Qed.

End last_poll.

(** X12. A poll that cannot list the conversations ends there: the time
    of the poll is stamped all the same, the failure is logged, and nothing
    else changes -- no portal is registered, no room created, nothing
    written. *)
Theorem pollHostex_failed_listing (env : Env) (b : Bridge) (e : err) :
  let now := time_Now env (trace b) in
  hostex_GetConversations env (trace b ++ [Now now]) = Fail e ->
  pollHostex env b
  = (tt, set_trace (trace b ++ [Now now; GetConversations (Fail e);
                                Logger Error "Failed to get conversations" [zap_Error e]])
           (set_lastPollTime now b)).
Proof.
  intros now H. unfold pollHostex. unfold_monad. simpl. fold now. rewrite H.
  unfold set_trace, set_lastPollTime. simpl. now rewrite <- !app_assoc.
Qed.

Lemma pollHostex_failed_listing_witness :
  let b' := (pollHostex demo.env_hostex_list_fails demo.started).2 in
  hostex_GetConversations demo.env_hostex_list_fails
    (trace demo.started ++ [Now (time_Now demo.env_hostex_list_fails (trace demo.started))])
  = Fail (ErrRemote "API request failed with status code: 503") /\
  lastPollTime b' = time_Now demo.env_hostex_list_fails (trace demo.started) /\
  portalsByID b' = portalsByID demo.started /\
  DB b' = DB demo.started.
Proof.
  intros b'. subst b'. split; [reflexivity|].
  rewrite (pollHostex_failed_listing demo.env_hostex_list_fails demo.started
             (ErrRemote "API request failed with status code: 503") eq_refl).
  repeat split.
Defined.

(** X13. After [ForceSyncConversations], whether or not the poll could
    list the conversations, [GetLastPollTime] is the time read when that
    poll started, and the status command of the second copy of user.go
    sends it; the status command of the first copy prints the zero time
    whatever happened. *)
Theorem status_reports_last_poll (env : Env) (u : User) (roomID : id.RoomID) (b : Bridge) :
  let b1 := (ctx.ForceSyncConversations env b).2 in
  let polled_at := time_Now env (trace b) in
  ctx.GetLastPollTime b1 = polled_at /\
  matrix_sends (new_effects b1 (ctx.sendStatusMessage env u roomID b1).2)
  = [(roomID, notice (status_text env b1 polled_at))] /\
  matrix_sends (new_effects b1 (sendStatusMessage env u roomID b1).2)
  = [(roomID, notice (status_text env b1 time.zero))].
Proof.
  intros b1 polled_at.
  assert (Hlast : ctx.GetLastPollTime b1 = polled_at) by apply lastPollTime_pollHostex.
  split; [exact Hlast|]. split.
  - unfold ctx.sendStatusMessage. unfold_monad. simpl. rewrite Hlast.
    destruct (matrix_SendMessageEvent env _ _ _ _ _); simpl;
      (erewrite new_effects_app by (simpl; rewrite <- ?app_assoc; reflexivity));
      reflexivity.
  - rewrite sendStatusMessage_run. simpl.
    erewrite new_effects_app by reflexivity. apply matrix_sends_reply.
Qed.

(** ** Room creation: what goes wrong *)

Lemma StorePortal_rejected d h r n t a e :
  (database.StorePortal d h r n t a e).2 <> None ->
  (database.StorePortal d h r n t a e).1 = d.
Proof.
  unfold database.StorePortal.
  destruct (existsb _ _); [reflexivity|].
  destruct (existsb _ _); simpl; intros H; now destruct H.
Qed.

Ltac new_trace := simpl; rewrite <- ?app_assoc; reflexivity.

(** X14. Whenever [CreateMatrixRoom] returns an error the store is as it
    was, and the error is one of three. The lookup of the mapping failed:
    no room was asked for and the portal is unchanged. The homeserver
    refused the room: it was asked once, no room exists and the portal is
    unchanged. Or the room was created and the write of its mapping
    failed: the portal holds the new room in memory while the store has no
    mapping for the conversation. *)
Theorem CreateMatrixRoom_errors (env : Env) (p : Portal) (b : Bridge) (e : err) :
  let r := CreateMatrixRoom env p b in
  r.1.2 = Some e ->
  DB r.2 = DB b /\
  ((exists e', e = Errorf "failed to check existing portal" e' /\
               r.1.1 = p /\ create_calls (new_effects b r.2) = []) \/
   (exists e', e = Errorf "failed to create Matrix room" e' /\
               r.1.1 = p /\
               create_calls (new_effects b r.2) = [createRoom_req p] /\
               created_rooms (new_effects b r.2) = []) \/
   (exists e' roomID,
       e = Errorf "failed to store portal in database" e' /\
       r.1.1 = mkPortal (Portal_ID p) roomID (Portal_Info p) /\
       In (CreateRoom (createRoom_req p) (Ok roomID)) (new_effects b r.2) /\
       database.GetPortal (DB r.2) (Portal_ID p) = ("", None))).
Proof.
  intros r. subst r.
  unfold CreateMatrixRoom, addToPersonalSpace. unfold_db. unfold_monad.
  destruct (decide (Portal_RoomID p <> "")); simpl; [discriminate|].
  destruct (sql_fault env (trace b)) as [e0|]; simpl.
  { intros [= <-]. split; [reflexivity|]. left. eexists. split; [reflexivity|].
    split; [reflexivity|]. now erewrite new_effects_app by reflexivity. }
  destruct (database.GetPortal (DB b) (Portal_ID p)) as [r0 [e0|]] eqn:Hget; simpl.
  { intros [= <-]. split; [reflexivity|]. left. eexists. split; [reflexivity|].
    split; [reflexivity|]. now erewrite new_effects_app by reflexivity. }
  destruct (decide (r0 <> "")) as [|Hr0]; simpl; [discriminate|].
  assert (r0 = "") as -> by (destruct (decide (r0 = "")); [assumption | contradiction]).
  destruct (matrix_CreateRoom env _ _) as [roomID|e0]; simpl.
  2:{ intros [= <-]. split; [reflexivity|]. right. left. eexists. split; [reflexivity|].
      split; [reflexivity|]. erewrite new_effects_app by new_trace. split; reflexivity. }
  destruct (sql_fault env _) as [e0|]; simpl.
  { intros [= <-]. split; [reflexivity|]. right. right. exists e0, roomID.
    split; [reflexivity|]. split; [reflexivity|].
    erewrite new_effects_app by new_trace. split; [simpl; tauto | exact Hget]. }
  pose proof (StorePortal_rejected (DB b) (Portal_ID p) roomID
                (mautrix.Name (createRoom_req p)) (mautrix.Topic (createRoom_req p)) "" false)
    as Hrej.
  destruct (database.StorePortal _ _ _ _ _ _ _) as [d' [e0|]]; simpl in *.
  { intros [= <-]. rewrite Hrej by discriminate. split; [reflexivity|]. right. right.
    exists e0, roomID. split; [reflexivity|]. split; [reflexivity|].
    erewrite new_effects_app by new_trace. split; [simpl; tauto | exact Hget]. }
  destruct (config.PersonalSpaceEnable (Config b)); simpl;
    [destruct (matrix_SendStateEvent env _ _ _ _ _); simpl|]; discriminate.
Qed.

Lemma CreateMatrixRoom_errors_witness :
  let r := CreateMatrixRoom demo.env_create_fails_once demo.portal_new demo.started in
  r.1.2 = Some (Errorf "failed to create Matrix room" (ErrRemote "M_LIMIT_EXCEEDED")) /\
  DB r.2 = DB demo.started.
Proof.
  intros r.
  assert (He : r.1.2 = Some (Errorf "failed to create Matrix room"
                               (ErrRemote "M_LIMIT_EXCEEDED"))) by reflexivity.
  split; [exact He|].
  exact (proj1 (CreateMatrixRoom_errors demo.env_create_fails_once demo.portal_new
                  demo.started _ He)).
Defined.

(** X15. [CreateMatrixRoom] and the personal space: with the space
    switched off no state event is ever sent; a state event that is sent is
    the only one, it makes the new room a child of the space, via the
    domain of the homeserver, and whatever the homeserver answers to it the
    call returns nil; and with the space switched on, every call that
    created a room and returns nil has sent it. *)
Theorem CreateMatrixRoom_personal_space (env : Env) (p : Portal) (b : Bridge) :
  let r := CreateMatrixRoom env p b in
  let sent := state_events (new_effects b r.2) in
  (config.PersonalSpaceEnable (Config b) = false -> sent = []) /\
  (sent <> [] ->
     sent = [(spaceRoom b, event.StateSpaceChild, Portal_RoomID r.1.1,
              [config.Homeserver_Domain (Config b)])] /\
     r.1.2 = None /\
     create_calls (new_effects b r.2) = [createRoom_req p]) /\
  (config.PersonalSpaceEnable (Config b) = true ->
   create_calls (new_effects b r.2) <> [] -> r.1.2 = None -> sent <> []).
Proof.
  intros r sent. subst r sent.
  unfold CreateMatrixRoom, addToPersonalSpace. unfold_db. unfold_monad.
  destruct (decide (Portal_RoomID p <> "")); simpl.
  { rewrite new_effects_same. simpl. repeat split; congruence. }
  destruct (sql_fault env (trace b)) as [e0|]; simpl.
  { erewrite new_effects_app by new_trace. simpl. repeat split; congruence. }
  destruct (database.GetPortal (DB b) (Portal_ID p)) as [r0 [e0|]]; simpl.
  { erewrite new_effects_app by new_trace. simpl. repeat split; congruence. }
  destruct (decide (r0 <> "")); simpl.
  { erewrite new_effects_app by new_trace. simpl. repeat split; congruence. }
  destruct (matrix_CreateRoom env _ _) as [roomID|e0]; simpl.
  2:{ erewrite new_effects_app by new_trace. simpl. repeat split; congruence. }
  destruct (sql_fault env _) as [e0|]; simpl.
  { erewrite new_effects_app by new_trace. simpl. repeat split; congruence. }
  destruct (database.StorePortal _ _ _ _ _ _ _) as [d' [e0|]]; simpl.
  { erewrite new_effects_app by new_trace. simpl. repeat split; congruence. }
  destruct (config.PersonalSpaceEnable (Config b)); simpl;
    [destruct (matrix_SendStateEvent env _ _ _ _ _); simpl|];
    (erewrite new_effects_app by new_trace); simpl; repeat split; congruence.
Qed.

Lemma CreateMatrixRoom_personal_space_witness :
  let r := CreateMatrixRoom demo.env_ok demo.portal_new demo_space.started in
  let sent := state_events (new_effects demo_space.started r.2) in
  sent <> [] /\
  sent = [("!r1:hs.example", event.StateSpaceChild, "!r2:hs.example", ["hs.example"])] /\
  r.1.2 = None.
Proof.
  intros r sent.
  assert (Hsent : sent <> []) by (vm_compute; discriminate).
  split; [exact Hsent|].
  destruct (proj1 (proj2 (CreateMatrixRoom_personal_space demo.env_ok demo.portal_new
                            demo_space.started)) Hsent) as (Heq & Herr & _).
  split; [exact Heq | exact Herr].
Defined.

(** What one relayed Hostex message adds to the trace. *)
Lemma Portal_SendMessage_effects (env : Env) (p : Portal) (msg : hostexapi.Message)
    (b : Bridge) :
  let r := Portal_SendMessage env p msg b in
  let content := event.mkMessageEventContent event.MsgText (hostexapi.Content msg) in
  let ms := Z.quot (time.UnixNano (hostexapi.Timestamp msg)) 1000000 in
  let row eventID :=
    database.mkMessageRow (Portal_ID p) eventID (time.Unix_ (hostexapi.Timestamp msg))
      (hostexapi.Sender msg) (hostexapi.Content msg) in
  exists pre resp post,
    new_effects b r.2
    = pre ++ [SendMessageEvent (Portal_RoomID p) event.EventMessage content
                [mautrix.mkReqSendEvent ms] resp] ++ post /\
    matrix_sends pre = [] /\ message_writes pre = [] /\
    message_fetches (new_effects b r.2) = [] /\
    match resp with
    | Fail e =>
        r.1 = Some (Errorf "failed to send Matrix message" e) /\
        post = [] /\ DB r.2 = DB b
    | Ok eventID =>
        r.1 = None /\
        matrix_sends post = [] /\
        message_writes post = [(Portal_ID p, eventID)] /\
        (DB r.2 = DB b \/
         database.message (DB r.2) = database.message (DB b) ++ [row eventID])
    end.
Proof.
  intros r content ms row. subst r.
  unfold Portal_SendMessage. unfold_db. unfold_monad. fold content.
  assert (Hms : forall loc,
            Z.quot (time.UnixNano (time.In (hostexapi.Timestamp msg) loc)) 1000000 = ms)
    by (intros loc; reflexivity).
  destruct (time_LoadLocation env (config.Timezone (Config b))) as [loc|e0];
    cbv beta iota; rewrite Hms;
    [set (pre := @nil Effect)
    |set (pre := [Logger Error "Failed to load timezone" [zap_Error e0]])];
    (destruct (matrix_SendMessageEvent env _ _ _ _ _) as [eventID|e1];
     [cbv beta iota; unfold fst, snd; cbn [trace set_trace];
      destruct (sql_fault env _) as [e2|];
      [|cbn [DB set_trace]; unfold database.StoreMessage;
        destruct (existsb _ (database.message (DB b)))]|]);
    cbv beta iota; unfold fst, snd;
    (eexists pre, _, _;
     match goal with
     | |- ?lhs = _ /\ _ =>
         assert (Hnew : lhs = lhs) by reflexivity;
         erewrite new_effects_app in Hnew at 2
           by (cbn [trace set_trace set_DB]; rewrite <- ?app_assoc;
               subst pre; cbn [app]; reflexivity);
         rewrite Hnew; clear Hnew
     end;
     split; [subst pre; cbn [app]; reflexivity|]);
    subst pre; cbn [DB set_trace set_DB]; simpl; auto 10.
Qed.

(** [UnixNano()/1e6] of an instant between the epoch and the year 2262,
    where the nanoseconds fit in an int64, is its milliseconds since the
    epoch. *)
Lemma UnixNano_milliseconds (t : time.Time) :
  0 <= time.sec t -> 0 <= time.nsec t < 1000000000 ->
  time.sec t * 1000000000 + time.nsec t < 2 ^ 63 ->
  Z.quot (time.UnixNano t) 1000000 = time.sec t * 1000 + time.nsec t / 1000000.
Proof.
  intros Hsec Hnsec Hmax. unfold time.UnixNano, wrap64.
  assert (Hwrap : (time.sec t * 1000000000 + time.nsec t + 2 ^ 63) mod 2 ^ 64
                  = time.sec t * 1000000000 + time.nsec t + 2 ^ 63)
    by (apply Z.mod_small; lia).
  rewrite Hwrap.
  replace (time.sec t * 1000000000 + time.nsec t + 2 ^ 63 - 2 ^ 63)
    with (time.sec t * 1000 * 1000000 + time.nsec t) by lia.
  rewrite Z.quot_div_nonneg by lia.
  rewrite Z.div_add_l by lia. reflexivity.
Qed.

(** X16. [Portal.SendMessage] sends the message into the room of the
    portal exactly once, as a text message stamped with [UnixNano()/1e6]
    of the Hostex timestamp, whatever time zone is configured, valid or
    not. That stamp is the milliseconds of the timestamp when it lies
    between the epoch and the year 2262, where its nanoseconds fit in an
    int64; outside that range the nanoseconds wrap around, and a message
    decoded without a timestamp (Go's zero time) is stamped
    -6795364578871, which is not its milliseconds, -62135596800000. When
    the homeserver refuses the message, the error is returned and nothing
    is written. When it accepts it, nil is returned and one write of the
    row is attempted, with the seconds of the Hostex timestamp: the store
    then has that row appended, or is as it was when the write failed. *)
Theorem Portal_SendMessage_outcome (env : Env) (p : Portal) (msg : hostexapi.Message)
    (b : Bridge) :
  let r := Portal_SendMessage env p msg b in
  let content := event.mkMessageEventContent event.MsgText (hostexapi.Content msg) in
  let ts := hostexapi.Timestamp msg in
  let ms := Z.quot (time.UnixNano ts) 1000000 in
  let row eventID :=
    database.mkMessageRow (Portal_ID p) eventID (time.Unix_ ts)
      (hostexapi.Sender msg) (hostexapi.Content msg) in
  (exists pre resp post,
    new_effects b r.2
    = pre ++ [SendMessageEvent (Portal_RoomID p) event.EventMessage content
                [mautrix.mkReqSendEvent ms] resp] ++ post /\
    matrix_sends pre = [] /\ message_writes pre = [] /\
    match resp with
    | Fail e =>
        r.1 = Some (Errorf "failed to send Matrix message" e) /\
        post = [] /\ DB r.2 = DB b
    | Ok eventID =>
        r.1 = None /\
        matrix_sends post = [] /\
        message_writes post = [(Portal_ID p, eventID)] /\
        (DB r.2 = DB b \/
         database.message (DB r.2) = database.message (DB b) ++ [row eventID])
    end) /\
  (0 <= time.sec ts -> 0 <= time.nsec ts < 1000000000 ->
   time.sec ts * 1000000000 + time.nsec ts < 2 ^ 63 ->
   ms = time.sec ts * 1000 + time.nsec ts / 1000000) /\
  (ts = time.zero ->
   ms = -6795364578871 /\ ms <> time.sec ts * 1000 + time.nsec ts / 1000000).
Proof.
  intros r content ts ms row. split_and!.
  - destruct (Portal_SendMessage_effects env p msg b)
      as (pre & resp & post & Hnew & Hs & Hw & _ & Hresp).
    exists pre, resp, post. auto.
  - intros Hsec Hnsec Hmax. exact (UnixNano_milliseconds ts Hsec Hnsec Hmax).
  - intros Hzero. subst ms. rewrite Hzero. split; [reflexivity | discriminate].
Qed.

(** The theorem above on a message of 14 November 2023, 22:13:20 UTC: it
    is stamped 1700000000000. *)
Lemma Portal_SendMessage_outcome_witness :
  Z.quot (time.UnixNano (hostexapi.Timestamp demo.m1)) 1000000 = 1700000000000.
Proof.
  refine (proj1 (proj2 (Portal_SendMessage_outcome demo.env_ok demo.portal_c1 demo.m1
                          demo.polled)) _ _ _).
  - discriminate.
  - split; [discriminate | reflexivity].
  - reflexivity.
Defined.

(** ** Backfill relays the page it fetched *)

Section backfill_page.

Context (env : Env).

Lemma message_fetches_In tr c since limit resp :
  In (GetMessages c since limit resp) tr -> message_fetches tr <> [].
Proof.
  induction tr as [|x tr IH]; simpl; [tauto|].
  intros [->|Hin]; [discriminate|].
  unfold message_fetches in *. simpl. destruct x; simpl; try discriminate; auto.
Qed.

Lemma matrix_sends_app d1 d2 : matrix_sends (d1 ++ d2) = matrix_sends d1 ++ matrix_sends d2.
Proof. apply omap_app. Qed.

Lemma message_fetches_app d1 d2 :
  message_fetches (d1 ++ d2) = message_fetches d1 ++ message_fetches d2.
Proof. apply omap_app. Qed.

Lemma message_writes_app d1 d2 :
  message_writes (d1 ++ d2) = message_writes d1 ++ message_writes d2.
Proof. apply omap_app. Qed.

(** The loop of [BackfillMessages]: one send per message, in order,
    whether or not the sends before it succeeded. *)
Lemma BackfillMessages_loop p messages b :
  let body := fun msg =>
    bind (Portal_SendMessage env p msg)
      (fun err => match err with
                  | Some e => Logger_Error "Failed to send backfilled message" [zap_Error e]
                  | None => ret tt
                  end) in
  exists d,
    trace (forM_ messages body b).2 = trace b ++ d /\
    matrix_sends d
    = map (fun msg => (Portal_RoomID p,
                       event.mkMessageEventContent event.MsgText (hostexapi.Content msg)))
          messages /\
    message_fetches d = [].
Proof.
  intros body. revert b. induction messages as [|msg rest IH]; intros b.
  - exists []. simpl. now rewrite app_nil_r.
  - simpl forM_. unfold bind at 1. unfold body at 1. unfold bind at 1.
    destruct (Portal_SendMessage_effects env p msg b)
      as (pre & resp & post & Hnew & Hpre & _ & Hfetch & Hresp).
    pose proof (monotone_Portal_SendMessage env p msg b) as Hmono.
    apply new_effects_extends in Hmono.
    assert (Hsends : matrix_sends (new_effects b (Portal_SendMessage env p msg b).2)
                     = [(Portal_RoomID p,
                         event.mkMessageEventContent event.MsgText (hostexapi.Content msg))]).
    { rewrite Hnew, !matrix_sends_app, Hpre. simpl.
      destruct resp as [eventID|e]; [destruct Hresp as (_ & -> & _) | destruct Hresp as (_ & -> & _)];
        reflexivity. }
    destruct (Portal_SendMessage env p msg b) as [err b1]. simpl in Hmono, Hsends, Hfetch.
    set (d1 := new_effects b b1) in *.
    destruct err as [e|].
    + unfold Logger_Error, emit, modify. simpl.
      destruct (IH (set_trace (trace b1 ++
                      [Logger Error "Failed to send backfilled message" [zap_Error e]]) b1))
        as (d & Htr & Hd & Hf).
      simpl in Htr. exists (d1 ++ [Logger Error "Failed to send backfilled message"
                                     [zap_Error e]] ++ d).
      split; [rewrite Htr, Hmono, <- !app_assoc; reflexivity|].
      rewrite !matrix_sends_app, !message_fetches_app, Hsends, Hd, Hfetch, Hf.
      split; reflexivity.
    + unfold ret. simpl. destruct (IH b1) as (d & Htr & Hd & Hf).
      exists (d1 ++ d). split; [rewrite Htr, Hmono, <- !app_assoc; reflexivity|].
      rewrite !matrix_sends_app, !message_fetches_app, Hsends, Hd, Hfetch, Hf.
      split; reflexivity.
Qed.

End backfill_page.

(** X17. [BackfillMessages] relays the page it fetched: when Hostex
    answers the request with a list of messages, each of them is sent into
    the room of the portal once, in the order of the list and whether or
    not the sends before it succeeded, and nil is returned. When it returns
    an error nothing was sent and nothing written. *)
Theorem BackfillMessages_relays_page (env : Env) (p : Portal) (b : Bridge) :
  let r := BackfillMessages env p b in
  (forall c since limit messages,
     In (GetMessages c since limit (Ok messages)) (new_effects b r.2) ->
     r.1 = None /\
     matrix_sends (new_effects b r.2)
     = map (fun msg => (Portal_RoomID p,
                        event.mkMessageEventContent event.MsgText (hostexapi.Content msg)))
           messages) /\
  (r.1 <> None ->
     matrix_sends (new_effects b r.2) = [] /\
     message_writes (new_effects b r.2) = [] /\
     DB r.2 = DB b).
Proof.
  intros r. subst r. unfold BackfillMessages. unfold bind at 1.
  unfold DB_GetLastMessageTimestamp. unfold_monad. simpl.
  set (got := match sql_fault env (trace b) with
              | Some e => (time.Unix 0 0, Some e)
              | None => database.GetLastMessageTimestamp (DB b) (Portal_ID p)
              end).
  destruct got as [ts [e|]]; simpl.
  { erewrite new_effects_app by reflexivity. split.
    - intros c since limit messages [H|[]]. discriminate H.
    - intros _. repeat split. }
  destruct (hostex_GetMessages env _ _ _ _) as [messages|e]; simpl.
  2:{ erewrite new_effects_app by new_trace. split.
      - intros c since limit messages' [H|[H|[]]]; discriminate H.
      - intros _. repeat split. }
  match goal with
  | |- context [forM_ messages ?body ?b2] =>
      assert (exists d,
                trace (forM_ messages body b2).2 = trace b2 ++ d /\
                matrix_sends d
                = map (fun msg => (Portal_RoomID p,
                                   event.mkMessageEventContent event.MsgText
                                     (hostexapi.Content msg))) messages /\
                message_fetches d = []) as (d & Htr & Hd & Hf)
        by exact (BackfillMessages_loop env p messages b2);
      destruct (forM_ messages body b2) as [[] b3]
  end.
  simpl in Htr |- *. erewrite new_effects_app by (rewrite Htr; new_trace).
  split; [|intros H; now destruct H].
  intros c since limit messages' [H|[H|H]]; [discriminate H | |].
  - injection H as _ _ _ <-. split; [reflexivity|]. exact Hd.
  - apply message_fetches_In in H. contradiction.
Qed.

Lemma BackfillMessages_relays_page_witness :
  let b := demo_backfill.polled in
  let r := BackfillMessages demo_backfill.env demo.portal_c1 b in
  In (GetMessages "c1" (time.Unix 1600000000 0) 10 (Ok [demo.m1])) (new_effects b r.2) /\
  matrix_sends (new_effects b r.2)
  = [("!r1:hs.example", event.mkMessageEventContent event.MsgText "hi")].
Proof.
  intros b r.
  assert (Hin : In (GetMessages "c1" (time.Unix 1600000000 0) 10 (Ok [demo.m1]))
                   (new_effects b r.2)).
  { vm_compute. tauto. }
  split; [exact Hin|].
  exact (proj2 (proj1 (BackfillMessages_relays_page demo_backfill.env demo.portal_c1 b)
                  "c1" (time.Unix 1600000000 0) 10 [demo.m1] Hin)).
Defined.

(** ** Inbound events *)

Section inbound.

Context (env : Env).

Lemma create_calls_app d1 d2 : create_calls (d1 ++ d2) = create_calls d1 ++ create_calls d2.
Proof. apply omap_app. Qed.








Lemma no_reply_refl b : no_reply b b.
Proof. unfold no_reply. split_and!; auto. exists []. now rewrite app_nil_r. Qed.

Lemma no_reply_trans b1 b2 b3 : no_reply b1 b2 -> no_reply b2 b3 -> no_reply b1 b3.
Proof.
  intros (U1 & G1 & d1 & Htr1 & S1) (U2 & G2 & d2 & Htr2 & S2).
  unfold no_reply. split_and!; try congruence.
  exists (d1 ++ d2). split; [now rewrite Htr2, Htr1, app_assoc|].
  unfold matrix_sends in *. rewrite omap_app. now rewrite S1, S2.
Qed.

Lemma no_reply_emit e : matrix_sends [e] = [] -> respects no_reply (emit e).
Proof. intros Hs b. unfold no_reply. split_and!; auto. now exists [e]. Qed.

Lemma no_reply_modify (f : Bridge -> Bridge) :
  (forall b, usersByMXID (f b) = usersByMXID b) ->
  (forall b, goroutines (f b) = goroutines b) ->
  (forall b, trace (f b) = trace b) ->
  respects no_reply (modify f).
Proof.
  intros HU HG HT b. unfold no_reply. simpl. split_and!; auto.
  exists []. now rewrite app_nil_r.
Qed.

Ltac no_reply_leaf :=
  first
    [ apply no_reply_emit; reflexivity
    | apply no_reply_modify; reflexivity ].

Lemma no_reply_Portal_HandleMatrixMessage p evt :
  respects no_reply (Portal_HandleMatrixMessage env p evt).
Proof.
  unfold Portal_HandleMatrixMessage, DB_StoreMessage.
  walk no_reply_refl no_reply_trans no_reply_leaf.
Qed.

Lemma Portal_HandleMatrixMessage_sends_once p evt b :
  (length (hostex_sends (new_effects b (Portal_HandleMatrixMessage env p evt b).2)) <= 1)%nat.
Proof.
  destruct (decide (event.Type' evt = event.EventMessage)) as [Hty|Hty].
  - destruct (event.Content evt) as [|content|goType] eqn:Hc.
    + rewrite Portal_HandleMatrixMessage_unparsed by (auto; congruence).
      simpl. erewrite new_effects_app by reflexivity. simpl. lia.
    + destruct (hostex_SendMessage env (trace b) (Portal_ID p) (event.Body content))
        as [e|] eqn:Hsend.
      * rewrite (Portal_HandleMatrixMessage_send_failed env p evt content e) by assumption.
        simpl. erewrite new_effects_app by reflexivity. simpl. lia.
      * destruct (Portal_HandleMatrixMessage_sent env p evt content b Hty Hc Hsend)
          as (now & resp & complaint & -> & ->).
        destruct resp; simpl; lia.
    + rewrite Portal_HandleMatrixMessage_unparsed by (auto; congruence).
      simpl. erewrite new_effects_app by reflexivity. simpl. lia.
  - rewrite Portal_HandleMatrixMessage_other_kind by assumption. simpl.
    rewrite new_effects_same. simpl. lia.
Qed.

End inbound.


(** X19. An event from a room other than the control room is never
    answered: nothing is sent into any Matrix room, no user is registered
    and no goroutine is started; at most one message goes to Hostex. *)
Theorem handleMatrixMessage_outside_control_room (env : Env) (evt : event.Event)
    (b : Bridge) :
  event.RoomID evt <> managementRoom b ->
  let b' := (handleMatrixMessage env evt b).2 in
  matrix_sends (new_effects b b') = [] /\
  usersByMXID b' = usersByMXID b /\
  goroutines b' = goroutines b /\
  (length (hostex_sends (new_effects b b')) <= 1)%nat.
Proof.
  intros Hroom b'. subst b'. rewrite handleMatrixMessage_portal by exact Hroom.
  destruct (portalsByID b !! event.RoomID evt) as [portal|].
  - destruct (no_reply_Portal_HandleMatrixMessage env portal evt b) as (HU & HG & d & Htr & Hs).
    rewrite (new_effects_app _ _ d Htr) at 1. split_and!; auto.
    apply Portal_HandleMatrixMessage_sends_once.
  - simpl. erewrite new_effects_app by reflexivity. simpl. split_and!; auto.
Qed.

Lemma handleMatrixMessage_outside_control_room_witness :
  let evt := demo.text_event "@admin:hs.example" "c1" "hello" in
  let b' := (handleMatrixMessage demo.env_poll evt demo.polled).2 in
  event.RoomID evt <> managementRoom demo.polled /\
  hostex_sends (new_effects demo.polled b') = [("c1", "hello")] /\
  matrix_sends (new_effects demo.polled b') = [].
Proof.
  intros evt b'.
  assert (Hroom : event.RoomID evt <> managementRoom demo.polled) by discriminate.
  split; [exact Hroom|]. split; [reflexivity|].
  exact (proj1 (handleMatrixMessage_outside_control_room demo.env_poll evt demo.polled Hroom)).
Defined.

(** ** Startup *)

Section starting.

Context (env : Env).

Lemma set_trace_same b : set_trace (trace b ++ []) b = b.
Proof. destruct b. unfold set_trace. simpl. now rewrite app_nil_r. Qed.

Lemma set_trace_twice d1 d2 b :
  set_trace (trace (set_trace (trace b ++ d1) b) ++ d2) (set_trace (trace b ++ d1) b)
  = set_trace (trace b ++ d1 ++ d2) b.
Proof. unfold set_trace. simpl. now rewrite app_assoc. Qed.

Lemma probes_only_refl b : probes_only b b.
Proof. exists []. now rewrite set_trace_same. Qed.

Lemma probes_only_trans b1 b2 b3 :
  probes_only b1 b2 -> probes_only b2 b3 -> probes_only b1 b3.
Proof.
  intros (d1 & -> & S1 & L1) (d2 & -> & S2 & L2). exists (d1 ++ d2).
  rewrite set_trace_twice. split; [reflexivity|].
  unfold matrix_sends, loops_started in *. rewrite !omap_app.
  now rewrite S1, S2, L1, L2.
Qed.

Lemma probes_only_emit e :
  matrix_sends [e] = [] -> loops_started [e] = [] -> respects probes_only (emit e).
Proof. intros Hs Hl b. now exists [e]. Qed.

Lemma respects_first_room (R : Bridge -> Bridge -> Prop) rooms found :
  (forall b, R b b) -> (forall b1 b2 b3, R b1 b2 -> R b2 b3 -> R b1 b3) ->
  (forall roomID, respects R (found roomID)) -> respects R (first_room rooms found).
Proof.
  intros Hrefl Htrans Hfound. induction rooms as [|roomID rooms IH]; simpl.
  - now apply respects_ret.
  - apply (respects_bind _ Htrans); [apply Hfound|].
    intros [|]; [now apply respects_ret | exact IH].
Qed.

Ltac probing_leaf :=
  first
    [ apply probes_only_emit; reflexivity
    | apply (respects_first_room _ _ _ probes_only_refl probes_only_trans); intros ].

Lemma probes_only_createOrFindManagementRoom :
  respects probes_only (createOrFindManagementRoom env).
Proof.
  unfold createOrFindManagementRoom.
  walk probes_only_refl probes_only_trans probing_leaf.
Qed.

Lemma probes_only_createOrFindPersonalSpace :
  respects probes_only (createOrFindPersonalSpace env).
Proof.
  unfold createOrFindPersonalSpace.
  walk probes_only_refl probes_only_trans probing_leaf.
Qed.

End starting.

Ltac observed :=
  unfold loops_started, matrix_sends in *; rewrite ?omap_app; simpl;
  repeat match goal with H : omap _ _ = [] |- _ => rewrite H; clear H end;
  reflexivity.

(** What [Start] does, step by step. *)
Lemma Start_run (env : Env) (b : Bridge) :
  let r := Start env b in
  let d := new_effects b r.2 in
  DB r.2 = DB b /\ portalsByID r.2 = portalsByID b /\
  usersByMXID r.2 = usersByMXID b /\ Config r.2 = Config b /\
  match r.1 with
  | None =>
      loops_started d = ["startSyncing"; "startPolling"] /\
      matrix_sends d
      = [(managementRoom r.2,
          event.mkMessageEventContent event.MsgText
            "Hostex bridge has been set up and is now running.")]
  | Some e =>
      loops_started d = [] /\ matrix_sends d = [] /\
      exists e',
        e = Errorf "failed to create or find management room" e' \/
        e = Errorf "failed to create or find personal space" e'
  end.
Proof.
  intros r d. subst d. remember (Start env b) as r0 eqn:Hr. subst r.
  unfold Start in Hr.
  unfold bind at 1 in Hr. unfold Logger_Info at 1 in Hr. unfold emit at 1, modify at 1 in Hr.
  set (b0 := set_trace (trace b ++ [Logger Info "Starting Hostex bridge" []]) b) in Hr.
  unfold bind at 1 in Hr.
  destruct (probes_only_createOrFindManagementRoom env b0) as (d1 & Hb1 & Hs1 & Hl1).
  destruct (createOrFindManagementRoom env b0) as [[room err] b1]. simpl in Hb1. subst b1.
  unfold bind at 1, modify at 1 in Hr.
  destruct err as [e|].
  { subst r0. simpl. erewrite new_effects_app by (simpl; rewrite <- ?app_assoc; reflexivity).
    split_and!; auto; first [observed | eauto]. }
  unfold bind at 1, get at 1 in Hr.
  set (b2 := set_managementRoom room _) in Hr.
  assert (Hspace : exists d2 space err,
            (if config.PersonalSpaceEnable (Config b2)
             then bind (createOrFindPersonalSpace env)
                    (fun x => let '(room0, err0) := x in
                              bind (modify (set_spaceRoom room0)) (fun _ => ret err0))
             else ret None) b2
            = (err, set_spaceRoom space (set_trace (trace b2 ++ d2) b2)) /\
            matrix_sends d2 = [] /\ loops_started d2 = []).
  { destruct (config.PersonalSpaceEnable (Config b2)).
    - unfold bind at 1.
      destruct (probes_only_createOrFindPersonalSpace env b2) as (d2 & Hb3 & Hs2 & Hl2).
      destruct (createOrFindPersonalSpace env b2) as [[space err] b3]. simpl in Hb3. subst b3.
      exists d2, space, err. split; [reflexivity|]. auto.
    - exists [], (spaceRoom b2), None. split; [|auto].
      unfold ret. f_equal. rewrite set_trace_same. now destruct b2. }
  destruct Hspace as (d2 & space & err & Hrun & Hs2 & Hl2).
  unfold bind at 1 in Hr. rewrite Hrun in Hr. clear Hrun.
  destruct err as [e|].
  { subst r0. simpl. erewrite new_effects_app by (simpl; rewrite <- ?app_assoc; reflexivity).
    split_and!; auto; first [observed | eauto]. }
  unfold sendSetupMessage in Hr. unfold_monad. simpl in Hr.
  destruct (matrix_SendMessageEvent env _ _ _ _ _) as [ev|e]; subst r0; simpl;
    (erewrite new_effects_app by (simpl; rewrite <- ?app_assoc; reflexivity));
    (split_and!; auto; observed).
Qed.


(** X20. [Start] either fails before anything is started, or starts the
    two loops and sends the setup message: when it returns an error no loop
    has been started and no message sent; when it returns nil the sync loop
    and the poll loop have each been started once, in that order, and
    exactly one message has been sent, the setup text into the control
    room. Either way the store, the registries and the configuration are
    as they were. *)
Theorem Start_outcome (env : Env) (b : Bridge) :
  let r := Start env b in
  let d := new_effects b r.2 in
  DB r.2 = DB b /\ portalsByID r.2 = portalsByID b /\
  usersByMXID r.2 = usersByMXID b /\ Config r.2 = Config b /\
  match r.1 with
  | None =>
      loops_started d = ["startSyncing"; "startPolling"] /\
      matrix_sends d
      = [(managementRoom r.2,
          event.mkMessageEventContent event.MsgText
            "Hostex bridge has been set up and is now running.")]
  | Some e =>
      loops_started d = [] /\ matrix_sends d = [] /\
      exists e',
        e = Errorf "failed to create or find management room" e' \/
        e = Errorf "failed to create or find personal space" e'
  end.
Proof. exact (Start_run env b). Qed.

Section finding.

Context (env : Env).

(** The search of [createOrFindManagementRoom] through the joined rooms:
    it asks no room to be created, stops at the first room that answers
    the name, and returns that room. *)
Lemma first_room_named name rooms b :
  let probe := fun roomID =>
    bind (MatrixClient_StateEvent env roomID event.StateRoomName "")
      (fun answer => match answer with
                     | Ok n => ret (bool_decide (n = name))
                     | Fail _ => ret false
                     end) in
  let r := first_room rooms probe b in
  exists d,
    r.2 = set_trace (trace b ++ d) b /\
    create_calls d = [] /\
    match r.1 with
    | Some roomID =>
        In roomID rooms /\
        forall roomID' ty key,
          In (StateEvent roomID' ty key (Ok name)) d -> roomID' = roomID
    | None =>
        forall roomID' ty key, ~ In (StateEvent roomID' ty key (Ok name)) d
    end.
Proof.
  intros probe. revert b. induction rooms as [|roomID rooms IH]; intros b.
  - exists []. simpl. rewrite set_trace_same. split; [reflexivity|]. split; [reflexivity|].
    intros ? ? ? [].
  - simpl first_room. unfold bind at 1.
    set (answer := matrix_StateEvent env (trace b) roomID event.StateRoomName "").
    set (b1 := set_trace (trace b ++ [StateEvent roomID event.StateRoomName "" answer]) b).
    assert (Hprobe : probe roomID b
                     = (match answer with
                        | Ok n => bool_decide (n = name)
                        | Fail _ => false
                        end, b1)).
    { subst probe b1 answer. unfold MatrixClient_StateEvent. unfold_monad. simpl.
      now destruct (matrix_StateEvent env _ _ _ _). }
    rewrite Hprobe. clear Hprobe.
    destruct answer as [n|e] eqn:Hanswer; simpl.
    + destruct (bool_decide (n = name)) eqn:Hn.
      * apply bool_decide_eq_true in Hn. subst n.
        exists [StateEvent roomID event.StateRoomName "" (Ok name)]. simpl.
        split; [reflexivity|]. split; [reflexivity|]. split; [now left|].
        intros roomID' ty key [H|[]]. now injection H.
      * apply bool_decide_eq_false in Hn.
        destruct (IH b1) as (d & Hb & Hc & Hfound). cbv zeta in Hb, Hfound.
        exists (StateEvent roomID event.StateRoomName "" (Ok n) :: d).
        split; [rewrite Hb; subst b1; apply set_trace_twice|].
        split; [exact Hc|].
        destruct (first_room rooms probe b1).1 as [found|].
        -- destruct Hfound as [Hin Hfirst]. split; [now right|].
           intros roomID' ty key [H|H]; [congruence | eauto].
        -- intros roomID' ty key [H|H]; [congruence | now apply Hfound in H].
    + destruct (IH b1) as (d & Hb & Hc & Hfound). cbv zeta in Hb, Hfound.
      exists (StateEvent roomID event.StateRoomName "" (Fail e) :: d).
      split; [rewrite Hb; subst b1; apply set_trace_twice|].
      split; [exact Hc|].
      destruct (first_room rooms probe b1).1 as [found|].
      * destruct Hfound as [Hin Hfirst]. split; [now right|].
        intros roomID' ty key [H|H]; [discriminate H | eauto].
      * intros roomID' ty key [H|H]; [discriminate H | now apply Hfound in H].
Qed.

End finding.

(** X21. [createOrFindManagementRoom] asks for a room to be created at
    most once, and only after none of the rooms it asked has answered the
    name of the control room; the room it asks for is private, carries that
    name and invites the configured admin. When a joined room answers the
    name, that room is returned and nothing is created. *)
Theorem createOrFindManagementRoom_finds_before_creating (env : Env) (b : Bridge) :
  let r := createOrFindManagementRoom env b in
  let d := new_effects b r.2 in
  let name := "Hostex Bridge Management" in
  (length (create_calls d) <= 1)%nat /\
  (forall req, In req (create_calls d) ->
     req = mautrix.mkReqCreateRoom "private" name "Management room for Hostex bridge"
             [config.Admin_UserID (Config b)] [] [] /\
     forall roomID ty key, ~ In (StateEvent roomID ty key (Ok name)) d) /\
  (forall roomID ty key,
     In (StateEvent roomID ty key (Ok name)) d ->
     r.1 = (roomID, None) /\ create_calls d = []).
Proof.
  intros r d name. subst d. remember (createOrFindManagementRoom env b) as r0 eqn:Hr.
  subst r. unfold createOrFindManagementRoom in Hr.
  unfold bind at 1 in Hr. unfold MatrixClient_JoinedRooms in Hr. unfold_monad. simpl in Hr.
  destruct (matrix_JoinedRooms env (trace b)) as [joined|e].
  2:{ subst r0. simpl. erewrite new_effects_app by reflexivity. simpl.
      split; [lia|]. split; [intros req []|]. intros ? ? ? [H|[]]. discriminate H. }
  set (b1 := set_trace (trace b ++ [JoinedRooms (Ok joined)]) b) in Hr.
  match type of Hr with
  | context [first_room joined ?probe b1] =>
      assert (exists d1,
                (first_room joined probe b1).2 = set_trace (trace b1 ++ d1) b1 /\
                create_calls d1 = [] /\
                match (first_room joined probe b1).1 with
                | Some roomID =>
                    In roomID joined /\
                    forall roomID' ty key,
                      In (StateEvent roomID' ty key (Ok name)) d1 -> roomID' = roomID
                | None =>
                    forall roomID' ty key, ~ In (StateEvent roomID' ty key (Ok name)) d1
                end) as (d1 & Hb2 & Hc1 & Hfound)
        by exact (first_room_named env name joined b1);
      destruct (first_room joined probe b1) as [found b2]
  end.
  simpl in Hb2, Hfound. subst b2.
  destruct found as [roomID|].
  - subst r0. simpl. erewrite new_effects_app by (simpl; rewrite <- ?app_assoc; reflexivity).
    simpl. rewrite Hc1. split; [simpl; lia|]. split; [intros req []|].
    intros roomID' ty key [H|H]; [discriminate H|].
    destruct Hfound as [_ Hfirst]. rewrite (Hfirst _ _ _ H). auto.
  - destruct (matrix_CreateRoom env _ _) as [roomID|e]; subst r0; simpl;
      (erewrite new_effects_app by (simpl; rewrite <- ?app_assoc; reflexivity));
      simpl; unfold create_calls in *; rewrite omap_app, Hc1; simpl;
      (split; [lia|]); (split;
       [intros req [<-|[]]; split; [reflexivity|];
         intros roomID' ty key [H|H]; [discriminate H|];
         apply in_app_or in H as [H|[H|[]]]; [now apply Hfound in H | discriminate H]
       |intros roomID' ty key [H|H]; [discriminate H|];
         apply in_app_or in H as [H|[H|[]]]; [now apply Hfound in H | discriminate H]]).
Qed.

Lemma createOrFindManagementRoom_finds_before_creating_witness :
  let b := NewBridge demo.cfg database.createTables in
  let r := createOrFindManagementRoom demo_joined.env b in
  In (StateEvent "!old:hs.example" event.StateRoomName "" (Ok "Hostex Bridge Management"))
     (new_effects b r.2) /\
  r.1 = ("!old:hs.example", None) /\
  create_calls (new_effects b r.2) = [].
Proof.
  intros b r.
  assert (Hin : In (StateEvent "!old:hs.example" event.StateRoomName ""
                      (Ok "Hostex Bridge Management")) (new_effects b r.2)).
  { vm_compute. tauto. }
  split; [exact Hin|].
  exact (proj2 (proj2 (createOrFindManagementRoom_finds_before_creating demo_joined.env b))
           "!old:hs.example" event.StateRoomName "" Hin).
Defined.

(** ** From a new bridge on *)

(** X22. A bridge made by [NewBridge] on a store that satisfies its
    constraints, started, and then run through any polls, events, failed
    syncs and command goroutines: the store still satisfies its
    constraints; every portal of the registry sits under its own
    conversation id; the only user registered, if any, is the configured
    admin; and the configuration and the control room are those it was
    started with. *)
Theorem bridge_invariants (env : Env) (cfg : config.Config) (db : database.Database)
    (inputs : list Input) :
  database.constraints db ->
  let started := (Start env (NewBridge cfg db)).2 in
  let b := (run env inputs started).2 in
  database.constraints (DB b) /\
  (forall k p, portalsByID b !! k = Some p -> Portal_ID p = k) /\
  (forall k u, usersByMXID b !! k = Some u ->
               k = config.Admin_UserID cfg /\ u = mkUser k) /\
  Config b = cfg /\
  managementRoom b = managementRoom started.
Proof.
  intros Hdb started b. subst b.
  destruct (Start_run env (NewBridge cfg db)) as (HD & HP & HU & HC & _).
  fold started in HD, HP, HU, HC. simpl in HD, HP, HU, HC.
  destruct (steady_run env inputs started) as (SC & SM & _ & SK & _ & _ & _ & SU).
  destruct (registry_grows_run env inputs started) as [_ Hkeyed].
  split_and!.
  - apply SK. now rewrite HD.
  - apply Hkeyed. intros k p. rewrite HP. now rewrite lookup_empty.
  - intros k u Hk. destruct (SU k u Hk) as [H|H].
    + rewrite HU, lookup_empty in H. discriminate.
    + now rewrite HC in H.
  - congruence.
  - exact SM.
Qed.

Lemma bridge_invariants_witness :
  let admin := demo.text_event "@admin:hs.example" "!mgmt:hs.example" "!sync" in
  let b := (run demo.env_poll [Tick; Synced admin; Scheduled]
              (Start demo.env_poll (NewBridge demo.cfg database.createTables)).2).2 in
  database.constraints database.createTables /\
  database.constraints (DB b) /\
  managementRoom b = "!mgmt:hs.example".
Proof.
  intros admin b.
  assert (Hc : database.constraints database.createTables) by exact createTables_constraints.
  split; [exact Hc|].
  destruct (bridge_invariants demo.env_poll demo.cfg database.createTables
              [Tick; Synced admin; Scheduled] Hc) as (Hdb & _ & _ & _ & Hroom).
  split; [exact Hdb|]. exact (eq_trans Hroom eq_refl).
Defined.

(** ** The relay does not recognise an event it has seen *)

Section relay_twice.

Context (env : Env).

Lemma monotone_Portal_HandleMatrixMessage p evt :
  monotone (Portal_HandleMatrixMessage env p evt).
Proof.
  unfold Portal_HandleMatrixMessage.
  destruct (decide _); [apply monotone_ret|].
  destruct (event.Content evt); try apply monotone_emit.
  apply monotone_bind.
  { unfold HostexClient_SendMessage. apply monotone_bind; [apply monotone_get|].
    intros b. apply monotone_bind; [apply monotone_emit | intros; apply monotone_ret]. }
  intros [e|]; [apply monotone_emit|].
  apply monotone_bind.
  { unfold time_Now_. apply monotone_bind; [apply monotone_get|].
    intros b. apply monotone_bind; [apply monotone_emit | intros; apply monotone_ret]. }
  intros now. apply monotone_bind; [apply monotone_DB_StoreMessage|].
  intros [e|]; [apply monotone_emit | apply monotone_ret].
Qed.

(** One relay of a message event: the send to Hostex, and what the write
    of the row has to do with the rows that are there. *)
Lemma Portal_HandleMatrixMessage_row p evt content b :
  event.Type' evt = event.EventMessage ->
  event.Content evt = event.ParsedMessage content ->
  let b' := (Portal_HandleMatrixMessage env p evt b).2 in
  hostex_sends (new_effects b b') = [(Portal_ID p, event.Body content)] /\
  (forall h ev ts s c resp,
     In (StoreMessage h ev ts s c resp) (new_effects b b') ->
     ev = event.ID evt /\
     (resp = None ->
      In ev (map database.message_matrix_event_id (database.message (DB b')))) /\
     (In ev (map database.message_matrix_event_id (database.message (DB b))) ->
      resp <> None)) /\
  (forall ev, In ev (map database.message_matrix_event_id (database.message (DB b))) ->
              In ev (map database.message_matrix_event_id (database.message (DB b')))).
Proof.
  intros Hty Hc b'. subst b'. unfold Portal_HandleMatrixMessage.
  destruct (decide _); [contradiction|]. rewrite Hc.
  unfold_db. unfold_monad. simpl.
  destruct (hostex_SendMessage env (trace b) (Portal_ID p) (event.Body content)) as [e|];
    simpl.
  { erewrite new_effects_app by (simpl; rewrite <- ?app_assoc; reflexivity). simpl.
    split; [reflexivity|]. split; [|auto].
    intros h ev ts s c resp [H|[H|[]]]; discriminate H. }
  destruct (sql_fault env _) as [e|]; simpl.
  { erewrite new_effects_app by (simpl; rewrite <- ?app_assoc; reflexivity). simpl.
    split; [reflexivity|]. split; [|auto].
    intros h ev ts s c resp [H|[H|[H|[H|[]]]]]; try discriminate H.
    injection H as <- <- <- <- <- <-. split; [reflexivity|].
    split; [discriminate | intros _; discriminate]. }
  unfold database.StoreMessage.
  destruct (existsb _ (database.message (DB b))) eqn:Hkey; simpl.
  - erewrite new_effects_app by (simpl; rewrite <- ?app_assoc; reflexivity). simpl.
    split; [reflexivity|]. split; [|auto].
    intros h ev ts s c resp [H|[H|[H|[H|[]]]]]; try discriminate H.
    injection H as <- <- <- <- <- <-. split; [reflexivity|].
    split; [discriminate | intros _; discriminate].
  - erewrite new_effects_app by (simpl; rewrite <- ?app_assoc; reflexivity). simpl.
    split; [reflexivity|]. split.
    + intros h ev ts s c resp [H|[H|[H|[]]]]; try discriminate H.
      injection H as <- <- <- <- <- <-. split; [reflexivity|]. split.
      * intros _. rewrite map_app. apply in_or_app. right. now left.
      * intros Hin. apply (existsb_key database.message_matrix_event_id) in Hin. congruence.
    + intros ev Hin. rewrite map_app. apply in_or_app. now left.
Qed.

End relay_twice.

(** X23. The relay keeps no memory of the events it has sent on: a
    message event handed to the portal a second time is sent to Hostex a
    second time. Only the store notices -- if the row of the first relay
    was written, the write of the second is refused. *)
Theorem Portal_HandleMatrixMessage_twice (env : Env) (p : Portal) (evt : event.Event)
    (content : event.MessageEventContent) (b : Bridge) :
  event.Type' evt = event.EventMessage ->
  event.Content evt = event.ParsedMessage content ->
  let b1 := (Portal_HandleMatrixMessage env p evt b).2 in
  let b2 := (Portal_HandleMatrixMessage env p evt b1).2 in
  hostex_sends (new_effects b b2)
  = [(Portal_ID p, event.Body content); (Portal_ID p, event.Body content)] /\
  ((exists h ts s c, In (StoreMessage h (event.ID evt) ts s c None) (new_effects b b1)) ->
   forall h ev ts s c resp,
     In (StoreMessage h ev ts s c resp) (new_effects b1 b2) -> resp <> None).
Proof.
  intros Hty Hc b1 b2.
  destruct (Portal_HandleMatrixMessage_row env p evt content b Hty Hc) as (Hs1 & Hw1 & _).
  destruct (Portal_HandleMatrixMessage_row env p evt content b1 Hty Hc) as (Hs2 & Hw2 & _).
  fold b1 in Hs1, Hw1. fold b2 in Hs2, Hw2. split.
  - rewrite (new_effects_trans b b1 b2)
      by (subst b1 b2; apply monotone_Portal_HandleMatrixMessage).
    unfold hostex_sends in *. rewrite omap_app, Hs1, Hs2. reflexivity.
  - intros (h0 & ts0 & s0 & c0 & Hfirst) h ev ts s c resp Hsecond.
    destruct (Hw1 _ _ _ _ _ _ Hfirst) as (_ & Hstored & _).
    destruct (Hw2 _ _ _ _ _ _ Hsecond) as (-> & _ & Hrefused).
    apply Hrefused, Hstored. reflexivity.
Qed.

Lemma Portal_HandleMatrixMessage_twice_witness :
  let evt := demo.text_event "@admin:hs.example" "!r1:hs.example" "hello" in
  let b1 := (Portal_HandleMatrixMessage demo.env_ok demo.portal_c1 evt demo.polled).2 in
  let b2 := (Portal_HandleMatrixMessage demo.env_ok demo.portal_c1 evt b1).2 in
  event.Type' evt = event.EventMessage /\
  hostex_sends (new_effects demo.polled b2) = [("c1", "hello"); ("c1", "hello")] /\
  length (database.message (DB b2)) = 1%nat.
Proof.
  intros evt b1 b2. split; [reflexivity|]. split; [|reflexivity].
  exact (proj1 (Portal_HandleMatrixMessage_twice demo.env_ok demo.portal_c1 evt
                  (event.mkMessageEventContent event.MsgText "hello") demo.polled
                  eq_refl eq_refl)).
Defined.

(** ** The Hostex client *)

Ltac client_cases :=
  repeat match goal with
         | |- context [match ?x with _ => _ end] =>
             match x with
             | decide _ => destruct x
             | _ => destruct x eqn:?
             end
         end.

(** X24. A call of the client succeeds exactly when the request could be
    built and sent, the HTTP status of the answer is 200, its body decodes,
    and the error code inside the body is 200 as well; the result is then
    the data of the body. An answer with HTTP status 200 and another error
    code inside is a failure. *)
Theorem Client_call_succeeds_iff (net : Client.Net) (c : Client.Client) :
  (forall conversations,
     (Client.GetConversations net c).2 = Ok conversations <->
     exists req resp r,
       (Client.GetConversations net c).1 = [req] /\
       Client.Do net req = Ok resp /\
       http.StatusCode resp = 200 /\
       Client.Decode_ConversationsResponse net (http.Body resp) = Ok r /\
       Client.Conversations_ErrorCode r = 200 /\
       conversations = Client.Data_Conversations r) /\
  (forall conversationID since limit messages,
     (Client.GetMessages net c conversationID since limit).2 = Ok messages <->
     exists req resp r,
       (Client.GetMessages net c conversationID since limit).1 = [req] /\
       Client.Do net req = Ok resp /\
       http.StatusCode resp = 200 /\
       Client.Decode_MessagesResponse net (http.Body resp) = Ok r /\
       Client.Messages_ErrorCode r = 200 /\
       messages = Client.Data_Messages r) /\
  (forall conversationID content,
     (Client.SendMessage net c conversationID content).2 = None <->
     exists req resp r,
       (Client.SendMessage net c conversationID content).1 = [req] /\
       Client.Do net req = Ok resp /\
       http.StatusCode resp = 200 /\
       Client.Decode_response net (http.Body resp) = Ok r /\
       Client.ErrorCode r = 200).
Proof.
  unfold http.StatusOK. split_and!.
  - intros conversations. unfold Client.GetConversations.
    destruct (Client.NewRequest net _ _ _) as [req|e]; simpl.
    2:{ split; [discriminate | intros (? & ? & ? & [=] & _)]. }
    set (req' := http.Header_Set _ _ (http.Header_Set _ _ req)).
    destruct (Client.Do net req') as [resp|e] eqn:Hdo; simpl.
    2:{ split; [discriminate|]. intros (? & ? & ? & [= <-] & H & _). congruence. }
    destruct (decide (http.StatusCode resp <> http.StatusOK)) as [Hs|Hs]; simpl.
    { split; [discriminate|]. intros (? & ? & ? & [= <-] & H & Hst & _).
      rewrite Hdo in H. injection H as <-. contradiction. }
    destruct (Client.Decode_ConversationsResponse net (http.Body resp)) as [r|e] eqn:Hdec; simpl.
    2:{ split; [discriminate|]. intros (? & ? & ? & [= <-] & H & _ & Hd & _).
        rewrite Hdo in H. injection H as <-. congruence. }
    destruct (decide (Client.Conversations_ErrorCode r <> 200)) as [He|He]; simpl.
    { split; [discriminate|]. intros (? & ? & ? & [= <-] & H & _ & Hd & Hc & _).
      rewrite Hdo in H. injection H as <-. rewrite Hdec in Hd. injection Hd as <-.
      contradiction. }
    split.
    + intros [= <-]. exists req', resp, r. split_and!; auto.
      * destruct (decide (http.StatusCode resp = 200)); [assumption | contradiction].
      * destruct (decide (Client.Conversations_ErrorCode r = 200)); [assumption | contradiction].
    + intros (? & ? & ? & [= <-] & H & _ & Hd & _ & ->).
      rewrite Hdo in H. injection H as <-. rewrite Hdec in Hd. now injection Hd as <-.
  - intros conversationID since limit messages. unfold Client.GetMessages.
    destruct (Client.NewRequest net _ _ _) as [req|e]; simpl.
    2:{ split; [discriminate | intros (? & ? & ? & [=] & _)]. }
    set (req' := http.Header_Set _ _ (http.Header_Set _ _ req)).
    destruct (Client.Do net req') as [resp|e] eqn:Hdo; simpl.
    2:{ split; [discriminate|]. intros (? & ? & ? & [= <-] & H & _). congruence. }
    destruct (decide (http.StatusCode resp <> http.StatusOK)) as [Hs|Hs]; simpl.
    { split; [discriminate|]. intros (? & ? & ? & [= <-] & H & Hst & _).
      rewrite Hdo in H. injection H as <-. contradiction. }
    destruct (Client.Decode_MessagesResponse net (http.Body resp)) as [r|e] eqn:Hdec; simpl.
    2:{ split; [discriminate|]. intros (? & ? & ? & [= <-] & H & _ & Hd & _).
        rewrite Hdo in H. injection H as <-. congruence. }
    destruct (decide (Client.Messages_ErrorCode r <> 200)) as [He|He]; simpl.
    { split; [discriminate|]. intros (? & ? & ? & [= <-] & H & _ & Hd & Hc & _).
      rewrite Hdo in H. injection H as <-. rewrite Hdec in Hd. injection Hd as <-.
      contradiction. }
    split.
    + intros [= <-]. exists req', resp, r. split_and!; auto.
      * destruct (decide (http.StatusCode resp = 200)); [assumption | contradiction].
      * destruct (decide (Client.Messages_ErrorCode r = 200)); [assumption | contradiction].
    + intros (? & ? & ? & [= <-] & H & _ & Hd & _ & ->).
      rewrite Hdo in H. injection H as <-. rewrite Hdec in Hd. now injection Hd as <-.
  - intros conversationID content. unfold Client.SendMessage.
    destruct (Client.json_Marshal net _) as [jsonPayload|e]; simpl.
    2:{ split; [discriminate | intros (? & ? & ? & [=] & _)]. }
    destruct (Client.NewRequest net _ _ _) as [req|e]; simpl.
    2:{ split; [discriminate | intros (? & ? & ? & [=] & _)]. }
    set (req' := http.Header_Set _ _ (http.Header_Set _ _ (http.Header_Set _ _ req))).
    destruct (Client.Do net req') as [resp|e] eqn:Hdo; simpl.
    2:{ split; [discriminate|]. intros (? & ? & ? & [= <-] & H & _). congruence. }
    destruct (decide (http.StatusCode resp <> http.StatusOK)) as [Hs|Hs]; simpl.
    { split; [discriminate|]. intros (? & ? & ? & [= <-] & H & Hst & _).
      rewrite Hdo in H. injection H as <-. contradiction. }
    destruct (Client.Decode_response net (http.Body resp)) as [r|e] eqn:Hdec; simpl.
    2:{ split; [discriminate|]. intros (? & ? & ? & [= <-] & H & _ & Hd & _).
        rewrite Hdo in H. injection H as <-. congruence. }
    destruct (decide (Client.ErrorCode r <> 200)) as [He|He]; simpl.
    { split; [discriminate|]. intros (? & ? & ? & [= <-] & H & _ & Hd & Hc).
      rewrite Hdo in H. injection H as <-. rewrite Hdec in Hd. injection Hd as <-.
      contradiction. }
    split; [|reflexivity].
    intros _. exists req', resp, r. split_and!; auto.
    * destruct (decide (http.StatusCode resp = 200)); [assumption | contradiction].
    * destruct (decide (Client.ErrorCode r = 200)); [assumption | contradiction].
Qed.

(** An answer with HTTP status 200 whose body carries the error code 401
    is a failure of the call. *)
Example SendMessage_error_code_in_body :
  (Client.SendMessage (demo_net.answering 200 401 "invalid token") demo_net.client "c1" "hi").2
  = Some (ErrRemote "API error: invalid token").
Proof. reflexivity. Qed.

(** X25. Every request the client sends carries the access token and the
    user agent of the bridge; a call sends at most one request; the two
    reading calls send a GET without body, and [SendMessage] a POST of
    the JSON encoding of the message, declared as JSON. *)
Theorem Client_requests_carry_token (net : Client.Net) (c : Client.Client) :
  let authorized req :=
    http.Request_Header req !! "Hostex-Access-Token" = Some [Client.token c] /\
    http.Request_Header req !! "User-Agent" = Some ["HostexBridge/1.0"] in
  ((length (Client.GetConversations net c).1 <= 1)%nat /\
   forall req, In req (Client.GetConversations net c).1 ->
     authorized req /\ http.Method req = "GET" /\
     http.URL req = Client.baseURL c +:+ "/conversations" /\
     http.Request_Body req = None) /\
  (forall conversationID since limit,
     (length (Client.GetMessages net c conversationID since limit).1 <= 1)%nat /\
     forall req, In req (Client.GetMessages net c conversationID since limit).1 ->
       authorized req /\ http.Method req = "GET" /\ http.Request_Body req = None) /\
  (forall conversationID content,
     (length (Client.SendMessage net c conversationID content).1 <= 1)%nat /\
     forall req, In req (Client.SendMessage net c conversationID content).1 ->
       authorized req /\ http.Method req = "POST" /\
       http.Request_Header req !! "Content-Type" = Some ["application/json"] /\
       http.URL req
       = Client.baseURL c +:+ "/conversations/" +:+ conversationID +:+ "/messages" /\
       exists jsonPayload,
         Client.json_Marshal net [("message", content)] = Ok jsonPayload /\
         http.Request_Body req = Some jsonPayload).
Proof.
  intros authorized. subst authorized. split_and!.
  - unfold Client.GetConversations, Client.NewRequest. client_cases; simpl; lia.
  - intros req0. unfold Client.GetConversations, Client.NewRequest.
    destruct (Client.url_Parse net _); simpl; [tauto|].
    client_cases; simpl; try tauto; intros [<-|[]]; split_and!; reflexivity.
  - intros conversationID since limit. split.
    + unfold Client.GetMessages, Client.NewRequest. client_cases; simpl; lia.
    + intros req0. unfold Client.GetMessages, Client.NewRequest.
      destruct (Client.url_Parse net _); simpl; [tauto|].
      client_cases; simpl; try tauto; intros [<-|[]]; split_and!; reflexivity.
  - intros conversationID content. split.
    + unfold Client.SendMessage, Client.NewRequest. client_cases; simpl; lia.
    + intros req0. unfold Client.SendMessage, Client.NewRequest.
      destruct (Client.json_Marshal net _) as [jsonPayload|]; simpl; [|tauto].
      destruct (Client.url_Parse net _); simpl; [tauto|].
      client_cases; simpl; try tauto; intros [<-|[]]; split_and!; try reflexivity;
        (exists jsonPayload; split; reflexivity).
Qed.

Lemma Client_requests_carry_token_witness :
  let call := Client.SendMessage (demo_net.answering 200 200 "") demo_net.client "c1" "hi" in
  exists req,
    In req call.1 /\
    http.Request_Header req !! "Hostex-Access-Token" = Some ["secret-token"] /\
    http.URL req = "https://api.hostex.example/v3/conversations/c1/messages".
Proof.
  intros call.
  assert (Hin : In (hd (http.mkRequest "" "" ∅ None) call.1) call.1) by (simpl; tauto).
  exists (hd (http.mkRequest "" "" ∅ None) call.1). split; [exact Hin|].
  destruct (proj2 (proj2 (proj2 (Client_requests_carry_token
                                   (demo_net.answering 200 200 "") demo_net.client))
                     "c1" "hi") _ Hin) as ((Htoken & _) & _ & _ & Hurl & _).
  split; [exact Htoken | exact Hurl].
Defined.

(** X26. The bridge on this client: when Hostex answers the listing of
    the conversations with an HTTP status other than 200, the poll stops
    there -- the status is logged as the cause, the time of the poll is
    stamped, and nothing is registered, created or written. *)
Theorem pollHostex_with_Client_bad_status (net : list Effect -> Client.Net)
    (c : Client.Client) (env : Env) (b : Bridge) (req : http.Request)
    (resp : http.Response) :
  let now := time_Now env (trace b) in
  let tr := trace b ++ [Now now] in
  (Client.GetConversations (net tr) c).1 = [req] ->
  Client.Do (net tr) req = Ok resp ->
  http.StatusCode resp <> 200 ->
  let cause := ErrRemote ("API request failed with status code: "
                          +:+ pretty (http.StatusCode resp)) in
  pollHostex (with_Client net c env) b
  = (tt, set_trace (trace b ++ [Now now; GetConversations (Fail cause);
                                Logger Error "Failed to get conversations" [zap_Error cause]])
           (set_lastPollTime now b)).
Proof.
  intros now tr Hreq Hdo Hstatus cause.
  assert (Hfail : (Client.GetConversations (net tr) c).2 = Fail cause).
  { revert Hreq. unfold Client.GetConversations.
    destruct (Client.NewRequest (net tr) _ _ _) as [req0|e]; simpl; [|discriminate].
    set (req' := http.Header_Set _ _ (http.Header_Set _ _ req0)).
    destruct (Client.Do (net tr) req') as [resp0|e] eqn:Hdo0; simpl.
    2:{ intros [= <-]. congruence. }
    destruct (decide (http.StatusCode resp0 <> http.StatusOK)) as [Hs|Hs]; simpl.
    { intros [= <-]. rewrite Hdo in Hdo0. injection Hdo0 as E. subst resp0. reflexivity. }
    assert (resp0 = resp -> False) as Hne.
    { intros ->. apply Hs. exact Hstatus. }
    destruct (Client.Decode_ConversationsResponse _ _) as [r|]; simpl;
      [destruct (decide _); simpl|]; intros [= <-]; exfalso; apply Hne; congruence. }
  unfold pollHostex. unfold_monad. simpl. fold now. fold tr. rewrite Hfail.
  unfold set_trace, set_lastPollTime. simpl. subst tr. now rewrite <- !app_assoc.
Qed.

Lemma pollHostex_with_Client_bad_status_witness :
  let net := fun _ : list Effect => demo_net.answering 503 0 "" in
  let env := with_Client net demo_net.client demo.env_ok in
  let b' := (pollHostex env demo.started).2 in
  (exists req resp,
     (Client.GetConversations (demo_net.answering 503 0 "") demo_net.client).1 = [req] /\
     Client.Do (demo_net.answering 503 0 "") req = Ok resp /\
     http.StatusCode resp <> 200) /\
  portalsByID b' = portalsByID demo.started /\
  DB b' = DB demo.started /\
  lastPollTime b' = time_Now demo.env_ok (trace demo.started).
Proof.
  intros net env b'. split.
  - eexists _, _. split; [reflexivity|]. split; [reflexivity|]. discriminate.
  - subst b' env.
    rewrite (pollHostex_with_Client_bad_status net demo_net.client demo.env_ok demo.started
               _ (http.mkResponse 503 "{...}") eq_refl eq_refl ltac:(discriminate)).
    repeat split.
Defined.

(** ** Loading the configuration *)

(** X27. A configuration that [Load] returns has a time zone and a poll
    interval: an empty time zone has become America/Los_Angeles and a zero
    interval ten seconds; every other value is the one the file decoded
    to -- a negative interval included. A file that cannot be read or
    decoded gives that error and no configuration. *)
Theorem Load_sets_defaults (ioutil_ReadFile : string -> Result string)
    (yaml_Unmarshal : string -> Result config.Config) (path : string) :
  match Load ioutil_ReadFile yaml_Unmarshal path with
  | Ok cfg =>
      config.Timezone cfg <> "" /\ config.PollInterval cfg <> 0 /\
      exists data decoded,
        ioutil_ReadFile path = Ok data /\ yaml_Unmarshal data = Ok decoded /\
        config.Homeserver_Domain cfg = config.Homeserver_Domain decoded /\
        config.User_UserID cfg = config.User_UserID decoded /\
        config.Admin_UserID cfg = config.Admin_UserID decoded /\
        config.PersonalSpaceEnable cfg = config.PersonalSpaceEnable decoded /\
        (config.Timezone decoded <> "" -> config.Timezone cfg = config.Timezone decoded) /\
        (config.PollInterval decoded <> 0 ->
         config.PollInterval cfg = config.PollInterval decoded) /\
        (config.Timezone decoded = "" -> config.Timezone cfg = "America/Los_Angeles") /\
        (config.PollInterval decoded = 0 -> config.PollInterval cfg = 10000000000)
  | Fail e =>
      ioutil_ReadFile path = Fail e \/
      exists data, ioutil_ReadFile path = Ok data /\ yaml_Unmarshal data = Fail e
  end.
Proof.
  unfold Load.
  destruct (ioutil_ReadFile path) as [data|e]; [|now left].
  destruct (yaml_Unmarshal data) as [decoded|e] eqn:Hdec; [|right; eauto].
  cbv zeta.
  destruct (decide (config.Timezone decoded = "")) as [Htz|Htz];
    destruct (decide (config.PollInterval _ = 0)) as [Hpi|Hpi]; simpl in *;
    (split; [try discriminate; assumption|]);
    (split; [try discriminate; assumption|]);
    exists data, decoded; split_and!; auto; try contradiction; try reflexivity;
    intros; congruence.
Qed.

Example Load_keeps_negative_interval :
  Load (fun _ => Ok "poll_interval: -5s")
       (fun _ => Ok (config.mkConfig "hs.example" "@bot:hs.example" "@admin:hs.example" ""
                       (-5000000000) false))
       "config.yaml"
  = Ok (config.mkConfig "hs.example" "@bot:hs.example" "@admin:hs.example"
          "America/Los_Angeles" (-5000000000) false).
Proof. reflexivity. Qed.

(** ** The poll loop *)

Section ticking.

Context (env : Env).

Lemma startPolling_loop_polls fired b :
  (startPolling_loop env fired b).2 = (polls env (ticks_before_stop fired) b).2.
Proof.
  revert b. induction fired as [|[|] rest IH]; intros b; try reflexivity.
  simpl. unfold bind. destruct (pollHostex env b) as [[] b1]. apply IH.
Qed.

Lemma startPolling_loop_exit fired b :
  (startPolling_loop env fired b).1
  = if decide (stop ∈ fired) then Returned else Blocked.
Proof.
  revert b. induction fired as [|[|] rest IH]; intros b.
  - reflexivity.
  - simpl. destruct (decide (stop ∈ stop :: rest)) as [|H]; [reflexivity|].
    exfalso. apply H. left.
  - simpl. unfold bind. destruct (pollHostex env b) as [[] b1]. rewrite IH.
    destruct (decide (stop ∈ rest)) as [H|H];
      destruct (decide (stop ∈ ticker_C :: rest)) as [H'|H'];
      try reflexivity; exfalso.
    + apply H'. now right.
    + apply elem_of_cons in H' as [H'|H']; [discriminate | contradiction].
Qed.

End ticking.

(** X28. The poll loop polls once for every tick it receives before the
    stop signal and not once after it; it returns when the stop signal
    comes. With a poll interval that is not positive it never gets that
    far: the ticker cannot be made, and the goroutine panics before any
    poll. *)
Theorem startPolling_polls_per_tick (env : Env) (fired : list Select) (b : Bridge) :
  (config.PollInterval (Config b) <= 0 ->
   startPolling env fired b = (Panicked "non-positive interval for NewTicker", b)) /\
  (0 < config.PollInterval (Config b) ->
   (startPolling env fired b).2 = (polls env (ticks_before_stop fired) b).2 /\
   (startPolling env fired b).1 = (if decide (stop ∈ fired) then Returned else Blocked)).
Proof.
  unfold startPolling, bind, get. split; intros H.
  - destruct (decide _); [reflexivity | contradiction].
  - destruct (decide _); [lia|].
    split; [apply startPolling_loop_polls | apply startPolling_loop_exit].
Qed.

Lemma startPolling_polls_per_tick_witness :
  let fired := [ticker_C; ticker_C; stop; ticker_C] in
  0 < config.PollInterval (Config demo.started) /\
  (startPolling demo.env_poll fired demo.started).1 = Returned /\
  (startPolling demo.env_poll fired demo.started).2 = (polls demo.env_poll 2 demo.started).2.
Proof.
  intros fired.
  assert (H : 0 < config.PollInterval (Config demo.started)) by reflexivity.
  split; [exact H|].
  destruct (proj2 (startPolling_polls_per_tick demo.env_poll fired demo.started) H)
    as [Hstate Hexit].
  split; [exact Hexit | exact Hstate].
Defined.
